(** * Abricot back end: permissions, contributors, assignees, comments, validation

    A shallow embedding of the Express/Prisma controllers of the project
    and task management API, and the properties its specification states
    about them.

    Conventions of the embedding.
    - A JavaScript string is a [string]; each character stands for one code
      unit (the code units 0..255).  [String.length] is [.length].
    - A field of a JSON body that may be missing ([undefined]) is an
      [option]; arrays are lists.
    - The database is a record of finite maps, one per Prisma model, keyed
      by the primary key.  The [members] relation of a project and the
      [assignees] relation of a task are kept inside their parent record,
      keyed by [userId]: this is the unique index on the pair and the
      cascade on deletion of the parent.
    - A controller is a computation in the monad [Handler]: it reads and
      writes the database, and ends by sending one response.  A rejected
      promise is [throw]; the [try]/[catch] around every controller body
      turns it into [sendServerError] and keeps the writes already made.
    - Identifiers and timestamps that Prisma draws ([cuid()], [now()]) are
      arguments of the controller that creates the row.

    The file has three parts: the program (validation, models, Prisma
    client, permission and assignment helpers, controllers), the
    vocabulary of the properties, and the properties with their proofs. *)

From stdpp Require Import gmap strings list fin_maps sorting pretty.
From Stdlib Require Import ZArith Ascii.

#[local] Set Warnings "-clear-no-such-hyp".

Local Open Scope string_scope.

(** ** JavaScript strings *)

Module Js.

Definition codeUnit (c : ascii) : N := N_of_ascii c.

(** White space and line terminators: what [\s] matches and what
    [String.prototype.trim] strips (TAB, LF, VT, FF, CR, SP, NBSP). *)
Definition isWhiteSpace (c : ascii) : bool :=
  let n := codeUnit c in
  ((9 <=? n) && (n <=? 13) || (n =? 32) || (n =? 160))%N.

(** Line terminators, which [.] does not match. *)
Definition isLineTerminator (c : ascii) : bool :=
  let n := codeUnit c in ((n =? 10) || (n =? 13))%N.

Fixpoint trimStart (s : string) : string :=
  match s with
  | EmptyString => EmptyString
  | String c s' => if isWhiteSpace c then trimStart s' else s
  end.

Definition trimEnd (s : string) : string :=
  String.rev (trimStart (String.rev s)).

Definition trim (s : string) : string := trimEnd (trimStart s).

Definition lowerCodeUnit (c : ascii) : ascii :=
  let n := codeUnit c in
  if ((65 <=? n) && (n <=? 90)
      || (192 <=? n) && (n <=? 222) && negb (n =? 215))%N
  then ascii_of_N (n + 32) else c.

Fixpoint toLowerCase (s : string) : string :=
  match s with
  | EmptyString => EmptyString
  | String c s' => String (lowerCodeUnit c) (toLowerCase s')
  end.

(** Truthiness of a possibly missing string: [undefined] and [""] are
    falsy. *)
Definition truthy (o : option string) : bool :=
  match o with
  | Some s => negb (bool_decide (s = ""))
  | None => false
  end.

(** Regular expressions, matched by derivatives.  [Both] is
    intersection; it serves for the look-aheads of the password
    pattern, which all stand at the start of the input. *)
Inductive regex : Type :=
| Never
| Eps
| Class (p : ascii → bool)
| Cat (r1 r2 : regex)
| Or (r1 r2 : regex)
| Both (r1 r2 : regex)
| Star (r : regex).

Fixpoint nullable (r : regex) : bool :=
  match r with
  | Never => false
  | Eps => true
  | Class _ => false
  | Cat r1 r2 => nullable r1 && nullable r2
  | Or r1 r2 => nullable r1 || nullable r2
  | Both r1 r2 => nullable r1 && nullable r2
  | Star _ => true
  end.

Fixpoint deriv (c : ascii) (r : regex) : regex :=
  match r with
  | Never => Never
  | Eps => Never
  | Class p => if p c then Eps else Never
  | Cat r1 r2 =>
      if nullable r1 then Or (Cat (deriv c r1) r2) (deriv c r2)
      else Cat (deriv c r1) r2
  | Or r1 r2 => Or (deriv c r1) (deriv c r2)
  | Both r1 r2 => Both (deriv c r1) (deriv c r2)
  | Star r1 => Cat (deriv c r1) (Star r1)
  end.

(** [test] of a pattern anchored by [^] and [$]. *)
Fixpoint test (r : regex) (s : string) : bool :=
  match s with
  | EmptyString => nullable r
  | String c s' => test (deriv c r) s'
  end.

Definition Plus (r : regex) : regex := Cat r (Star r).

Fixpoint AtLeast (n : nat) (r : regex) : regex :=
  match n with
  | O => Star r
  | S n' => Cat r (AtLeast n' r)
  end.

Definition anyUnit : regex := Class (λ _, true).
Definition dot : regex := Class (λ c, negb (isLineTerminator c)).

(** [(?=r)] at the start of the input: some prefix matches [r]. *)
Definition Ahead (r : regex) : regex := Cat r (Star anyUnit).

Definition isUnit (c : ascii) : ascii → bool := λ x, bool_decide (x = c).

Definition inRange (lo hi : ascii) : ascii → bool :=
  λ x, ((codeUnit lo <=? codeUnit x) && (codeUnit x <=? codeUnit hi))%N.

Definition oneOf (s : string) : ascii → bool :=
  λ x, bool_decide (x ∈ String.list_ascii_of_string s).

End Js.

(** ** [utils/validation.ts] *)

Record ValidationError : Type := mkValidationError {
  field : string;
  message : string
}.

Global Instance ValidationError_eq_dec : EqDecision ValidationError.
Proof. solve_decision. Defined.

Module Validation.

Import Js.

(** [/^[^\s@]+@[^\s@]+\.[^\s@]+$/] *)
Definition emailRegex : regex :=
  let part := Plus (Class (λ c, negb (isWhiteSpace c || isUnit "@" c))) in
  Cat part (Cat (Class (isUnit "@")) (Cat part (Cat (Class (isUnit ".")) part))).

Definition isValidEmail (email : string) : bool := test emailRegex email.

(** [/^(?=.*[a-z])(?=.*[A-Z])(?=.*\d)[a-zA-Z\d@$!%*?&]{8,}$/] *)
Definition passwordRegex : regex :=
  let lower := inRange "a" "z" in
  let upper := inRange "A" "Z" in
  let digit := inRange "0" "9" in
  let allowed := λ c, lower c || upper c || digit c || oneOf "@$!%*?&" c in
  Both (Ahead (Cat (Star dot) (Class lower)))
    (Both (Ahead (Cat (Star dot) (Class upper)))
       (Both (Ahead (Cat (Star dot) (Class digit)))
          (AtLeast 8 (Class allowed)))).

Definition isValidPassword (password : string) : bool :=
  test passwordRegex password.

Definition error (f m : string) : list ValidationError :=
  [ {| field := f; message := m |} ].

(** [array.forEach((x, index) => { if (bad x) errors.push(...) })] *)
Definition forEachInvalid (bad : string → bool) (name msg : string)
    (l : list string) : list ValidationError :=
  mjoin (imap (λ index x,
    if bad x then error (name ++ "[" ++ pretty index ++ "]") msg else []) l).

Record RegisterData : Type := {
  reg_email : option string;
  reg_password : option string;
  reg_name : option string
}.

Definition registerEmailErrors (data : RegisterData) : list ValidationError :=
  match reg_email data with
  | Some email =>
      if bool_decide (email = "") then error "email" "L'email est requis"
      else if negb (isValidEmail email)
           then error "email" "Format d'email invalide"
           else []
  | None => error "email" "L'email est requis"
  end.

Definition registerPasswordErrors (data : RegisterData)
    : list ValidationError :=
  match reg_password data with
  | Some password =>
      if bool_decide (password = "")
      then error "password" "Le mot de passe est requis"
      else if negb (isValidPassword password)
           then error "password" "Le mot de passe doit contenir au moins 8 caractères, une lettre majuscule, une lettre minuscule et un chiffre"
           else []
  | None => error "password" "Le mot de passe est requis"
  end.

Definition registerNameErrors (data : RegisterData) : list ValidationError :=
  match reg_name data with
  | Some name =>
      if truthy (Some name) && bool_decide (String.length (trim name) < 2)
      then error "name" "Le nom doit contenir au moins 2 caractères"
      else []
  | None => []
  end.

(** The three blocks push onto the same array, one after the other. *)
Definition validateRegisterData (data : RegisterData)
    : list ValidationError :=
  registerEmailErrors data ++ registerPasswordErrors data
    ++ registerNameErrors data.


Record LoginData : Type := {
  login_email : option string;
  login_password : option string
}.

Definition validateLoginData (data : LoginData) : list ValidationError :=
  (if truthy (login_email data) then []
   else error "email" "L'email est requis")
  ++ (if truthy (login_password data) then []
      else error "password" "Le mot de passe est requis").

Record UpdateProfileData : Type := {
  prof_name : option string;
  prof_email : option string
}.

Definition validateUpdateProfileData (data : UpdateProfileData)
    : list ValidationError :=
  match prof_email data with
  | Some email =>
      if bool_decide (trim email = "")
      then error "email" "L'email ne peut pas être vide"
      else if negb (isValidEmail email)
           then error "email" "Format d'email invalide"
           else []
  | None => []
  end
  ++ match prof_name data with
     | Some name =>
         if bool_decide (String.length (trim name) < 2)
         then error "name" "Le nom doit contenir au moins 2 caractères"
         else []
     | None => []
     end.

Record UpdatePasswordData : Type := {
  currentPassword : option string;
  newPassword : option string
}.

Definition validateUpdatePasswordData (data : UpdatePasswordData)
    : list ValidationError :=
  (if truthy (currentPassword data) then []
   else error "currentPassword" "Le mot de passe actuel est requis")
  ++ match newPassword data with
     | Some password =>
         if bool_decide (password = "")
         then error "newPassword" "Le nouveau mot de passe est requis"
         else if negb (isValidPassword password)
              then error "newPassword" "Le nouveau mot de passe doit contenir au moins 8 caractères, une lettre majuscule, une lettre minuscule et un chiffre"
              else []
     | None => error "newPassword" "Le nouveau mot de passe est requis"
     end
  ++ (if truthy (currentPassword data) && truthy (newPassword data)
         && bool_decide (currentPassword data = newPassword data)
      then error "newPassword" "Le nouveau mot de passe doit être différent de l'actuel"
      else []).

Record CreateProjectData : Type := {
  cp_name : option string;
  cp_description : option string;
  cp_contributors : option (list string)
}.

(** An array is truthy even when empty, and the body's type makes
    [Array.isArray] hold, so a present list always reaches [forEach]. *)
Definition contributorsErrors (contributors : option (list string))
    : list ValidationError :=
  match contributors with
  | Some l =>
      forEachInvalid (λ email, negb (isValidEmail email))
        "contributors" "Format d'email invalide" l
  | None => []
  end.

Definition validateCreateProjectData (data : CreateProjectData)
    : list ValidationError :=
  match cp_name data with
  | Some name =>
      if bool_decide (name = "")
      then error "name" "Le nom du projet est requis"
      else if bool_decide (String.length (trim name) < 2)
      then error "name" "Le nom du projet doit contenir au moins 2 caractères"
      else if bool_decide (100 < String.length (trim name))
      then error "name" "Le nom du projet ne peut pas dépasser 100 caractères"
      else []
  | None => error "name" "Le nom du projet est requis"
  end
  ++ match cp_description data with
     | Some description =>
         if truthy (Some description)
            && bool_decide (500 < String.length (trim description))
         then error "description" "La description ne peut pas dépasser 500 caractères"
         else []
     | None => []
     end
  ++ contributorsErrors (cp_contributors data).

Record UpdateProjectData : Type := {
  up_name : option string;
  up_description : option string;
  up_contributors : option (list string)
}.

Definition validateUpdateProjectData (data : UpdateProjectData)
    : list ValidationError :=
  match up_name data with
  | Some name =>
      if bool_decide (trim name = "")
      then error "name" "Le nom du projet ne peut pas être vide"
      else if bool_decide (String.length (trim name) < 2)
      then error "name" "Le nom du projet doit contenir au moins 2 caractères"
      else if bool_decide (100 < String.length (trim name))
      then error "name" "Le nom du projet ne peut pas dépasser 100 caractères"
      else []
  | None => []
  end
  ++ match up_description data with
     | Some description =>
         if bool_decide (500 < String.length (trim description))
         then error "description" "La description ne peut pas dépasser 500 caractères"
         else []
     | None => []
     end
  ++ contributorsErrors (up_contributors data).

Record CommentData : Type := { cm_content : option string }.

Definition contentErrors (data : CommentData) : list ValidationError :=
  match cm_content data with
  | Some content =>
      if bool_decide (content = "")
      then error "content" "Le contenu du commentaire est requis"
      else if bool_decide (String.length (trim content) < 1)
      then error "content" "Le contenu du commentaire ne peut pas être vide"
      else if bool_decide (2000 < String.length (trim content))
      then error "content" "Le contenu du commentaire ne peut pas dépasser 2000 caractères"
      else []
  | None => error "content" "Le contenu du commentaire est requis"
  end.

Definition validateCreateCommentData (data : CommentData)
    : list ValidationError := contentErrors data.

Definition validateUpdateCommentData (data : CommentData)
    : list ValidationError := contentErrors data.

Record CreateTaskData : Type := {
  ct_title : option string;
  ct_description : option string;
  ct_priority : option string;
  ct_dueDate : option string;
  ct_assigneeIds : option (list string)
}.

Record UpdateTaskData : Type := {
  ut_title : option string;
  ut_description : option string;
  ut_status : option string;
  ut_priority : option string;
  ut_dueDate : option string;
  ut_assigneeIds : option (list string)
}.

Definition assigneeIdsErrors (assigneeIds : option (list string))
    : list ValidationError :=
  match assigneeIds with
  | Some l =>
      forEachInvalid (λ userId, bool_decide (userId = ""))
        "assigneeIds" "L'ID de l'utilisateur assigné est invalide" l
  | None => []
  end.

Definition priorityErrors (priority : option string)
    : list ValidationError :=
  match priority with
  | Some p =>
      if truthy (Some p)
         && negb (bool_decide (p ∈ ["LOW"; "MEDIUM"; "HIGH"; "URGENT"]))
      then error "priority" "La priorité doit être LOW, MEDIUM, HIGH ou URGENT"
      else []
  | None => []
  end.

Section Dates.

(** [new Date(s)] followed by [toISOString()]; [None] when the time
    value is [NaN]. *)
Variable dateToISOString : string → option string.

Definition isValidDate (dateString : string) : bool :=
  match dateToISOString dateString with
  | Some iso => bool_decide (dateString = iso)
  | None => false
  end.

Definition dueDateErrors (dueDate : option string)
    : list ValidationError :=
  match dueDate with
  | Some d =>
      if truthy (Some d) && negb (isValidDate d)
      then error "dueDate" "Format de date invalide (utilisez le format ISO)"
      else []
  | None => []
  end.

Definition validateCreateTaskData (data : CreateTaskData)
    : list ValidationError :=
  match ct_title data with
  | Some title =>
      if bool_decide (title = "")
      then error "title" "Le titre de la tâche est requis"
      else if bool_decide (String.length (trim title) < 2)
      then error "title" "Le titre de la tâche doit contenir au moins 2 caractères"
      else if bool_decide (200 < String.length (trim title))
      then error "title" "Le titre de la tâche ne peut pas dépasser 200 caractères"
      else []
  | None => error "title" "Le titre de la tâche est requis"
  end
  ++ match ct_description data with
     | Some description =>
         if truthy (Some description)
            && bool_decide (1000 < String.length (trim description))
         then error "description" "La description ne peut pas dépasser 1000 caractères"
         else []
     | None => []
     end
  ++ priorityErrors (ct_priority data)
  ++ dueDateErrors (ct_dueDate data)
  ++ assigneeIdsErrors (ct_assigneeIds data).

Definition validateUpdateTaskData (data : UpdateTaskData)
    : list ValidationError :=
  match ut_title data with
  | Some title =>
      if bool_decide (trim title = "")
      then error "title" "Le titre de la tâche ne peut pas être vide"
      else if bool_decide (String.length (trim title) < 2)
      then error "title" "Le titre de la tâche doit contenir au moins 2 caractères"
      else if bool_decide (200 < String.length (trim title))
      then error "title" "Le titre de la tâche ne peut pas dépasser 200 caractères"
      else []
  | None => []
  end
  ++ match ut_description data with
     | Some description =>
         if bool_decide (1000 < String.length (trim description))
         then error "description" "La description ne peut pas dépasser 1000 caractères"
         else []
     | None => []
     end
  ++ match ut_status data with
     | Some s =>
         if truthy (Some s)
            && negb (bool_decide
                       (s ∈ ["TODO"; "IN_PROGRESS"; "DONE"; "CANCELLED"]))
         then error "status" "Le statut doit être TODO, IN_PROGRESS, DONE ou CANCELLED"
         else []
     | None => []
     end
  ++ priorityErrors (ut_priority data)
  ++ dueDateErrors (ut_dueDate data)
  ++ assigneeIdsErrors (ut_assigneeIds data).

End Dates.

End Validation.

(** ** The Prisma models *)

Inductive Role : Type := ADMIN | CONTRIBUTOR.
Inductive TaskStatus : Type := TODO | IN_PROGRESS | DONE | CANCELLED.
Inductive Priority : Type := LOW | MEDIUM | HIGH | URGENT.

(** What [getUserProjectRole] answers; [null] is [None]. *)
Inductive UserRole : Type := OWNER | MEMBER (r : Role).

Global Instance Role_eq_dec : EqDecision Role.
Proof. solve_decision. Defined.
Global Instance TaskStatus_eq_dec : EqDecision TaskStatus.
Proof. solve_decision. Defined.
Global Instance Priority_eq_dec : EqDecision Priority.
Proof. solve_decision. Defined.
Global Instance UserRole_eq_dec : EqDecision UserRole.
Proof. solve_decision. Defined.

(** A string sent where Prisma expects an enum is accepted only when it
    spells one of its values. *)
Definition parseRole (s : string) : option Role :=
  if bool_decide (s = "ADMIN") then Some ADMIN
  else if bool_decide (s = "CONTRIBUTOR") then Some CONTRIBUTOR
  else None.

Definition parseStatus (s : string) : option TaskStatus :=
  if bool_decide (s = "TODO") then Some TODO
  else if bool_decide (s = "IN_PROGRESS") then Some IN_PROGRESS
  else if bool_decide (s = "DONE") then Some DONE
  else if bool_decide (s = "CANCELLED") then Some CANCELLED
  else None.

Definition parsePriority (s : string) : option Priority :=
  if bool_decide (s = "LOW") then Some LOW
  else if bool_decide (s = "MEDIUM") then Some MEDIUM
  else if bool_decide (s = "HIGH") then Some HIGH
  else if bool_decide (s = "URGENT") then Some URGENT
  else None.

Record User : Type := {
  user_email : string;
  user_name : option string
}.

Record Project : Type := {
  project_name : string;
  project_description : option string;
  ownerId : string;
  (** [ProjectMember] rows of the project: [userId ↦ role]. *)
  members : gmap string Role
}.

Record Task : Type := {
  title : string;
  description : option string;
  status : TaskStatus;
  priority : Priority;
  dueDate : option string;
  projectId : string;
  creatorId : string;
  task_createdAt : Z;
  (** [TaskAssignee] rows of the task: [userId ↦ assignedAt]. *)
  assignees : gmap string Z
}.

Record Comment : Type := {
  content : string;
  taskId : string;
  authorId : string;
  createdAt : Z
}.

Record DB : Type := {
  users : gmap string User;
  projects : gmap string Project;
  tasks : gmap string Task;
  comments : gmap string Comment
}.

Global Instance User_eq_dec : EqDecision User.
Proof. solve_decision. Defined.
Global Instance Project_eq_dec : EqDecision Project.
Proof. solve_decision. Defined.
Global Instance Task_eq_dec : EqDecision Task.
Proof. solve_decision. Defined.
Global Instance Comment_eq_dec : EqDecision Comment.
Proof. solve_decision. Defined.
Global Instance DB_eq_dec : EqDecision DB.
Proof. solve_decision. Defined.

(** ** Responses ([utils/response.ts]) *)

(** A task as the task routes return it: [{...task, assignees, comments}]. *)
Record TaskView : Type := {
  tv_id : string;
  tv_task : Task;
  tv_assignees : list (string * Z);
  tv_comments : list (string * Comment)
}.

(** The [data] of a success.  Joined [author], [creator], [owner] and
    [user] objects are stood for by the id that selects them. *)
Inductive Payload : Type :=
| DataNone
| DataComment (id : string) (c : Comment)
| DataComments (l : list (string * Comment))
| DataTask (t : TaskView)
| DataProject (id : string) (p : Project) (taskCount : nat)
| DataProjectDetail (id : string) (p : Project) (tasks : list TaskView)
    (taskCount : nat) (userRole : option UserRole).

Inductive Response : Type :=
| Success (msg : string) (data : Payload) (httpStatus : nat)
| Failure (msg : string) (code : string) (httpStatus : nat)
| ValidationFailure (msg : string) (errors : list ValidationError)
| ServerFailure (msg : string).

Definition isSuccess (r : Response) : bool :=
  match r with Success _ _ _ => true | _ => false end.

Definition errorCode (r : Response) : option string :=
  match r with Failure _ code _ => Some code | _ => None end.

Definition httpStatusOf (r : Response) : nat :=
  match r with
  | Success _ _ s => s
  | Failure _ _ s => s
  | ValidationFailure _ _ => 400
  | ServerFailure _ => 500
  end.

(** ** The monad of controllers *)

Inductive Outcome (A : Type) : Type :=
| Next (a : A)          (** the awaited value *)
| Sent (r : Response)   (** a response was sent and the controller returned *)
| Thrown.               (** a promise was rejected *)
Global Arguments Next {A} a.
Global Arguments Sent {A} r.
Global Arguments Thrown {A}.

Definition Handler (A : Type) : Type := DB → DB * Outcome A.

Global Instance Handler_ret : MRet Handler := λ A a db, (db, Next a).

Global Instance Handler_bind : MBind Handler := λ A B k m db,
  match m db with
  | (db', Next a) => k a db'
  | (db', Sent r) => (db', Sent r)
  | (db', Thrown) => (db', Thrown)
  end.

Definition get : Handler DB := λ db, (db, Next db).
Definition put (db' : DB) : Handler unit := λ _, (db', Next ()).
Definition throw {A} : Handler A := λ db, (db, Thrown).
Definition send {A} (r : Response) : Handler A := λ db, (db, Sent r).

Definition sendSuccess {A} (msg : string) (data : Payload) (st : nat)
  : Handler A := send (Success msg data st).
Definition sendError {A} (msg code : string) (st : nat) : Handler A :=
  send (Failure msg code st).
Definition sendValidationError {A} (msg : string)
    (errors : list ValidationError) : Handler A :=
  send (ValidationFailure msg errors).
Definition sendServerError {A} (msg : string) : Handler A :=
  send (ServerFailure msg).

(** [if (!ok) { reject; return; }] *)
Definition unless (ok : bool) (reject : Handler unit) : Handler unit :=
  if ok then mret () else reject.

(** [try { body } catch (error) { }]: the error is dropped. *)
Definition attempt (body : Handler unit) : Handler unit := λ db,
  match body db with
  | (db', Thrown) => (db', Next ())
  | res => res
  end.

Fixpoint forEach {A} (l : list A) (body : A → Handler unit) : Handler unit :=
  match l with
  | [] => mret ()
  | x :: l' => body x ;; forEach l' body
  end.

(** A controller: [try { body } catch (error) { sendServerError(res, msg) }].
    Every path of a body ends in a response, so a body has no value. *)
Definition controller (body : Handler Empty_set) (msg : string)
  : DB → Response * DB := λ db,
  match body db with
  | (_, Next a) => match a with end
  | (db', Sent r) => (r, db')
  | (db', Thrown) => (ServerFailure msg, db')
  end.

(** The user the [authenticateToken] middleware put on the request. *)
Record AuthUser : Type := {
  auth_id : string;
  auth_email : string
}.

(** [if (!authReq.user) { sendError(..., 401); return; }] *)
Definition authenticated (user : option AuthUser) : Handler AuthUser :=
  match user with
  | Some u => mret u
  | None => sendError "Utilisateur non authentifié" "UNAUTHORIZED" 401
  end.

(** A success whose [data] has a shape of its own, [A], or the response
    sent instead of it. *)
Inductive Reply (A : Type) : Type :=
| Replied (msg : string) (data : A) (httpStatus : nat)
| Instead (r : Response).
Global Arguments Replied {A} msg data httpStatus.
Global Arguments Instead {A} r.

Definition replied {A} (r : Reply A) : option A :=
  match r with Replied _ data _ => Some data | Instead _ => None end.

(** A controller whose last statement is
    [sendSuccess(res, msg, data)], the [data] being the value of the
    body. *)
Definition replying {A} (body : Handler A) (msg : string) (errorMsg : string)
  : DB → Reply A * DB := λ db,
  match body db with
  | (db', Next data) => (Replied msg data 200, db')
  | (db', Sent r) => (Instead r, db')
  | (db', Thrown) => (Instead (ServerFailure errorMsg), db')
  end.

(** [await Promise.all(array.map(async (x) => ...))] *)
Fixpoint forEachMap {A B} (l : list A) (f : A → Handler B)
  : Handler (list B) :=
  match l with
  | [] => mret []
  | x :: l' => y ← f x; ys ← forEachMap l' f; mret (y :: ys)
  end.

(** ** The Prisma client *)

Module Prisma.

Definition setProjects (ps : gmap string Project) : Handler unit :=
  db ← get;
  put {| users := users db; projects := ps; tasks := tasks db;
         comments := comments db |}.

Definition setTasks (ts : gmap string Task) : Handler unit :=
  db ← get;
  put {| users := users db; projects := projects db; tasks := ts;
         comments := comments db |}.

Definition setComments (cs : gmap string Comment) : Handler unit :=
  db ← get;
  put {| users := users db; projects := projects db; tasks := tasks db;
         comments := cs |}.

(** The users whose email is one of [emails]. *)
Definition usersWithEmailIn (db : DB) (emails : list string)
    : list (string * User) :=
  filter (λ u, user_email u.2 ∈ emails) (map_to_list (users db)).

(** The user of that email; the column is unique. *)
Definition userByEmail (db : DB) (email : string) : option (string * User) :=
  head (usersWithEmailIn db [email]).

(** [user.findMany({ where: { email: { in: emails } } })] *)
Definition user_findMany_emailIn (emails : list string)
    : Handler (list (string * User)) :=
  db ← get; mret (usersWithEmailIn db emails).

(** [user.findUnique({ where: { email } })] *)
Definition user_findUnique_email (email : string)
    : Handler (option (string * User)) :=
  db ← get; mret (userByEmail db email).

Definition project_findUnique (id : string) : Handler (option Project) :=
  db ← get; mret (projects db !! id).

(** [project.create]: the primary key is unique. *)
Definition project_create (newId : string) (p : Project) : Handler unit :=
  db ← get;
  match projects db !! newId with
  | Some _ => throw
  | None => setProjects (<[newId := p]> (projects db))
  end.

(** [project.update]: the record must exist. *)
Definition project_update (id : string) (f : Project → Project)
    : Handler Project :=
  db ← get;
  match projects db !! id with
  | Some p => setProjects (<[id := f p]> (projects db)) ;; mret (f p)
  | None => throw
  end.

(** [projectMember.findUnique({ where: { userId_projectId } })] *)
Definition projectMember_findUnique (userId projectId : string)
    : Handler (option Role) :=
  db ← get; mret (projects db !! projectId ≫= λ p, members p !! userId).

Definition withMembers (p : Project) (ms : gmap string Role) : Project :=
  {| project_name := project_name p;
     project_description := project_description p;
     ownerId := ownerId p; members := ms |}.

(** [projectMember.create]: the project must exist and the pair
    [(userId, projectId)] is unique. *)
Definition projectMember_create (userId projectId : string) (role : Role)
    : Handler unit :=
  db ← get;
  match projects db !! projectId with
  | Some p =>
      match members p !! userId with
      | Some _ => throw
      | None =>
          setProjects
            (<[projectId := withMembers p (<[userId := role]> (members p))]>
               (projects db))
      end
  | None => throw
  end.

(** [projectMember.deleteMany({ where: { userId, projectId } })]: rows
    that match are deleted; none matching is not an error. *)
Definition projectMember_deleteMany (userId projectId : string)
    : Handler unit :=
  db ← get;
  match projects db !! projectId with
  | Some p =>
      setProjects
        (<[projectId := withMembers p (delete userId (members p))]>
           (projects db))
  | None => mret ()
  end.

(** The task of that id, when it belongs to the project. *)
Definition findTask (db : DB) (tId projId : string) : option Task :=
  match tasks db !! tId with
  | Some t => if bool_decide (projectId t = projId) then Some t else None
  | None => None
  end.

(** [task.findFirst({ where: { id: taskId, projectId } })] *)
Definition task_findFirst (tId projId : string) : Handler (option Task) :=
  db ← get; mret (findTask db tId projId).

Definition task_findUnique (taskId : string) : Handler (option Task) :=
  db ← get; mret (tasks db !! taskId).

Definition task_create (newId : string) (t : Task) : Handler unit :=
  db ← get;
  match tasks db !! newId with
  | Some _ => throw
  | None => setTasks (<[newId := t]> (tasks db))
  end.

Definition task_update (taskId : string) (f : Task → Task) : Handler Task :=
  db ← get;
  match tasks db !! taskId with
  | Some t => setTasks (<[taskId := f t]> (tasks db)) ;; mret (f t)
  | None => throw
  end.

(** The comment of that id, when it belongs to the task and the task
    to the project. *)
Definition findComment (db : DB) (commentId tId projId : string)
    : option Comment :=
  match comments db !! commentId with
  | Some c =>
      if bool_decide (taskId c = tId)
         && bool_decide (projectId <$> tasks db !! tId = Some projId)
      then Some c else None
  | None => None
  end.

(** [comment.findFirst({ where: { id, taskId, task: { projectId } } })] *)
Definition comment_findFirst (commentId tId projId : string)
    : Handler (option Comment) :=
  db ← get; mret (findComment db commentId tId projId).

Definition oldestFirst (x y : string * Comment) : Prop :=
  (createdAt x.2 ≤ createdAt y.2)%Z.
Definition newestFirst (x y : string * Comment) : Prop :=
  (createdAt y.2 ≤ createdAt x.2)%Z.

Global Instance oldestFirst_dec : RelDecision oldestFirst.
Proof. intros x y. unfold oldestFirst. apply _. Defined.
Global Instance newestFirst_dec : RelDecision newestFirst.
Proof. intros x y. unfold newestFirst. apply _. Defined.

(** The comments of a task, in the order asked for. *)
Definition commentsOf (db : DB) (tId : string)
    (order : relation (string * Comment)) `{!RelDecision order}
    : list (string * Comment) :=
  merge_sort order
    (filter (λ c, taskId c.2 = tId) (map_to_list (comments db))).

(** [comment.findMany({ where: { taskId }, orderBy: { createdAt } })] *)
Definition comment_findMany (tId : string)
    (order : relation (string * Comment)) `{!RelDecision order}
    : Handler (list (string * Comment)) :=
  db ← get; mret (commentsOf db tId order).

Definition newestTaskFirst (x y : string * Task) : Prop :=
  (task_createdAt y.2 ≤ task_createdAt x.2)%Z.

Global Instance newestTaskFirst_dec : RelDecision newestTaskFirst.
Proof. intros x y. unfold newestTaskFirst. apply _. Defined.

(** The [tasks] relation of a project. *)
Definition tasksOf (db : DB) (projId : string) : list (string * Task) :=
  filter (λ t, projectId t.2 = projId) (map_to_list (tasks db)).

Definition comment_create (newId : string) (c : Comment) : Handler unit :=
  db ← get;
  match comments db !! newId with
  | Some _ => throw
  | None => setComments (<[newId := c]> (comments db))
  end.

Definition comment_update (commentId : string) (f : Comment → Comment)
    : Handler Comment :=
  db ← get;
  match comments db !! commentId with
  | Some c => setComments (<[commentId := f c]> (comments db)) ;; mret (f c)
  | None => throw
  end.

Definition comment_delete (commentId : string) : Handler unit :=
  db ← get;
  match comments db !! commentId with
  | Some _ => setComments (delete commentId (comments db))
  | None => throw
  end.

(** Modelled from the spec: the Prisma schema is not among the sources.
    [task.delete]: the record must exist; section 3 has the deletion of
    a project cascade through its tasks to their comments, so the
    comments of a task go with it. *)
Definition task_delete (tId : string) : Handler unit :=
  db ← get;
  match tasks db !! tId with
  | Some _ =>
      put {| users := users db; projects := projects db;
             tasks := delete tId (tasks db);
             comments := filter (λ c, taskId c.2 ≠ tId) (comments db) |}
  | None => throw
  end.

(** Modelled from the spec: the Prisma schema is not among the sources.
    [project.delete]: the record must exist; section 3: deletion
    cascades to memberships, tasks, assignments, comments. *)
Definition project_delete (id : string) : Handler unit :=
  db ← get;
  match projects db !! id with
  | Some _ =>
      put {| users := users db;
             projects := delete id (projects db);
             tasks := filter (λ t, projectId t.2 ≠ id) (tasks db);
             comments :=
               filter (λ c, projectId <$> tasks db !! taskId c.2 ≠ Some id)
                 (comments db) |}
  | None => throw
  end.

End Prisma.

(** ** [utils/permissions.ts] *)

Module Permissions.

(** Modelled from the spec: [utils/permissions.ts] is not among the
    sources.  The ownership lookup of section 6,
    [projectId -> ownerId | absent]. *)
Definition ownerOf (db : DB) (projId : string) : option string :=
  ownerId <$> projects db !! projId.

(** Modelled from the spec: [utils/permissions.ts] is not among the
    sources.  The membership lookup of section 6,
    [(userId, projectId) -> role | absent]. *)
Definition membershipOf (db : DB) (userId projId : string) : option Role :=
  projects db !! projId ≫= λ p, members p !! userId.

(** Modelled from the spec: [utils/permissions.ts] is not among the
    sources.  Section 4.1: true when [userId == project.ownerId]. *)
Definition isProjectOwner (userId projId : string) : Handler bool :=
  db ← get; mret (bool_decide (ownerOf db projId = Some userId)).

(** Modelled from the spec: [utils/permissions.ts] is not among the
    sources.  Section 4.1: true when the membership role is ADMIN; the
    owner does not satisfy it by being the owner. *)
Definition isProjectAdmin (userId projId : string) : Handler bool :=
  db ← get; mret (bool_decide (membershipOf db userId projId = Some ADMIN)).

(** Modelled from the spec: [utils/permissions.ts] is not among the
    sources.  Section 4.1: true when [userId] is the project owner or
    has any membership row. *)
Definition hasProjectAccess (userId projId : string) : Handler bool :=
  db ← get;
  mret (bool_decide (ownerOf db projId = Some userId)
        || bool_decide (is_Some (membershipOf db userId projId))).

(** Modelled from the spec: [utils/permissions.ts] is not among the
    sources.  Section 4.1: [isProjectOwner] or [isProjectAdmin]. *)
Definition canModifyProject (userId projId : string) : Handler bool :=
  owner ← isProjectOwner userId projId;
  admin ← isProjectAdmin userId projId;
  mret (owner || admin).

(** Modelled from the spec: [utils/permissions.ts] is not among the
    sources.  Section 4.1: [isProjectOwner] only. *)
Definition canDeleteProject (userId projId : string) : Handler bool :=
  isProjectOwner userId projId.

(** Modelled from the spec: [utils/permissions.ts] is not among the
    sources.  Section 4.1: [hasProjectAccess]. *)
Definition canCreateTasks (userId projId : string) : Handler bool :=
  hasProjectAccess userId projId.

(** Modelled from the spec: [utils/permissions.ts] is not among the
    sources.  Section 4.1: [hasProjectAccess]; any member may modify any
    task. *)
Definition canModifyTasks (userId projId : string) : Handler bool :=
  hasProjectAccess userId projId.

(** Modelled from the spec: [utils/permissions.ts] is not among the
    sources.  Section 4.1: OWNER, ADMIN, CONTRIBUTOR or null; the owner
    check comes first, the membership lookup second. *)
Definition getUserProjectRole (userId projId : string)
    : Handler (option UserRole) :=
  db ← get;
  mret (if bool_decide (ownerOf db projId = Some userId) then Some OWNER
        else MEMBER <$> membershipOf db userId projId).

End Permissions.

(** ** [utils/taskAssignments.ts] *)

Module TaskAssignments.

(** Modelled from the spec: [utils/taskAssignments.ts] is not among the
    sources.  Section 4.1, assignee validation: the id corresponds to an
    existing membership, or the owner, in that exact project. *)
Definition isMember (db : DB) (projId userId : string) : bool :=
  bool_decide (Permissions.ownerOf db projId = Some userId)
  || bool_decide (is_Some (Permissions.membershipOf db userId projId)).

(** Modelled from the spec: [utils/taskAssignments.ts] is not among the
    sources.  Section 4.1, assignee validation: every id of the list
    must be one of a member. *)
Definition validateProjectMembers (projId : string) (userIds : list string)
    : Handler bool :=
  db ← get; mret (forallb (isMember db projId) userIds).

(** One write of a reconciliation. *)
Inductive RowWrite : Type :=
| DeleteRow (userId : string)
| CreateRow (userId : string).

(** Modelled from the spec: [utils/taskAssignments.ts] is not among the
    sources.  Section 4.2: delete the rows no longer present, insert the
    rows newly present, leave the unchanged rows untouched. *)
Definition reconcile (existing : gmap string Z) (declared : list string)
    : list RowWrite :=
  (DeleteRow <$> filter (λ u, u ∉ declared) (map_to_list existing).*1)
  ++ (CreateRow <$> filter (λ u, existing !! u = None)
                      (remove_dups declared)).

Definition write (now : Z) (w : RowWrite) (rows : gmap string Z)
    : gmap string Z :=
  match w with
  | DeleteRow u => delete u rows
  | CreateRow u => <[u := now]> rows
  end.

Definition withAssignees (t : Task) (rows : gmap string Z) : Task :=
  {| title := title t; description := description t; status := status t;
     priority := priority t; dueDate := dueDate t; projectId := projectId t;
     creatorId := creatorId t; task_createdAt := task_createdAt t;
     assignees := rows |}.

(** A write reaches the storage, which may refuse it: [fails] tells the
    writes that are refused (a storage failure in the middle of a
    reconciliation). *)
Definition writeRow (fails : RowWrite → bool) (now : Z) (tId : string)
    (w : RowWrite) : Handler unit :=
  if fails w then throw
  else Prisma.task_update tId
         (λ t, withAssignees t (write now w (assignees t))) ;; mret ().

(** [prisma.$transaction]: when the body throws, nothing it wrote is
    kept. *)
Definition transaction {A} (body : Handler A) : Handler A := λ db,
  match body db with
  | (_, Thrown) => (db, Thrown)
  | res => res
  end.

(** Modelled from the spec: [utils/taskAssignments.ts] is not among the
    sources.  Section 4.2: the declared set replaces the prior one,
    inside one all-or-nothing transaction. *)
Definition updateTaskAssignments (fails : RowWrite → bool) (now : Z)
    (tId : string) (userIds : list string) : Handler unit :=
  transaction
    (existing ← Prisma.task_findUnique tId;
     match existing with
     | Some t => forEach (reconcile (assignees t) userIds)
                   (writeRow fails now tId)
     | None => throw
     end).

(** Modelled from the spec: [utils/taskAssignments.ts] is not among the
    sources.  The assignment rows of the task. *)
Definition getTaskAssignments (tId : string) : Handler (list (string * Z)) :=
  t ← Prisma.task_findUnique tId;
  mret (from_option (λ t, map_to_list (assignees t)) [] t).

End TaskAssignments.

(** ** [utils/taskComments.ts] *)

Module TaskComments.

Definition getTaskComments (tId : string)
    : Handler (list (string * Comment)) :=
  Prisma.comment_findMany tId Prisma.oldestFirst.

End TaskComments.

(** ** [controllers/projectController.ts] *)

Module ProjectController.

Import Js Validation Permissions.

(** [description?.trim() || null] *)
Definition trimOrNull (o : option string) : option string :=
  match o with
  | Some s => if truthy (Some (trim s)) then Some (trim s) else None
  | None => None
  end.

(** [x.trim()] on a body field: a missing field is a [TypeError]. *)
Definition trimmed (o : option string) : Handler string :=
  match o with
  | Some s => mret (trim s)
  | None => throw
  end.

Definition nonEmpty {A} (o : option (list A)) : bool :=
  match o with
  | Some (_ :: _) => true
  | _ => false
  end.

(** The project with its [members] and [_count.tasks]. *)
Definition projectData (db : DB) (id : string) : Payload :=
  match projects db !! id with
  | Some p => DataProject id p (length (Prisma.tasksOf db id))
  | None => DataNone
  end.

(** POST /projects *)
Definition createProject (user : option AuthUser) (body : CreateProjectData)
    (newId : string) : DB → Response * DB :=
  controller
    (u ← authenticated user;
     let validationErrors := validateCreateProjectData body in
     unless (bool_decide (length validationErrors = 0))
       (sendValidationError "Données de création de projet invalides"
          validationErrors) ;;
     name ← trimmed (cp_name body);
     Prisma.project_create newId
       {| project_name := name;
          project_description := trimOrNull (cp_description body);
          ownerId := auth_id u;
          members := ∅ |} ;;
     (if nonEmpty (cp_contributors body) then
        contributorUsers ←
          Prisma.user_findMany_emailIn
            (toLowerCase <$> default [] (cp_contributors body));
        if bool_decide (0 < length contributorUsers) then
          forEach contributorUsers (λ user,
            attempt (Prisma.projectMember_create user.1 newId CONTRIBUTOR))
        else mret ()
      else mret ()) ;;
     db ← get;
     sendSuccess "Projet créé avec succès" (projectData db newId) 201)
    "Erreur lors de la création du projet".

(** The [tasks] of a project as [getProject] includes them: newest
    first, each with its assignees and its comments, newest first. *)
Definition projectTasks (db : DB) (id : string) : list TaskView :=
  (λ t, {| tv_id := t.1; tv_task := t.2;
           tv_assignees := map_to_list (assignees t.2);
           tv_comments := Prisma.commentsOf db t.1 Prisma.newestFirst |})
  <$> merge_sort Prisma.newestTaskFirst (Prisma.tasksOf db id).

(** GET /projects/:id *)
Definition getProject (user : option AuthUser) (id : string)
    : DB → Response * DB :=
  controller
    (u ← authenticated user;
     hasAccess ← hasProjectAccess (auth_id u) id;
     unless hasAccess (sendError "Accès refusé au projet" "FORBIDDEN" 403) ;;
     db ← get;
     match projects db !! id with
     | None => sendError "Projet non trouvé" "PROJECT_NOT_FOUND" 404
     | Some project =>
         role ← getUserProjectRole (auth_id u) id;
         sendSuccess "Projet récupéré avec succès"
           (DataProjectDetail id project (projectTasks db id)
              (length (Prisma.tasksOf db id)) role) 200
     end)
    "Erreur lors de la récupération du projet".

Definition applyProjectUpdate (body : UpdateProjectData) (p : Project)
    : Project :=
  {| project_name := from_option trim (project_name p) (up_name body);
     project_description :=
       match up_description body with
       | Some d => trimOrNull (Some d)
       | None => project_description p
       end;
     ownerId := ownerId p;
     members := members p |}.

(** PUT /projects/:id; the controller passes [{ name, description }] to
    the validation, so [up_contributors] is [None] there. *)
Definition updateProject (user : option AuthUser) (id : string)
    (body : UpdateProjectData) : DB → Response * DB :=
  controller
    (u ← authenticated user;
     let validationErrors :=
       validateUpdateProjectData
         {| up_name := up_name body; up_description := up_description body;
            up_contributors := None |} in
     unless (bool_decide (length validationErrors = 0))
       (sendValidationError "Données de mise à jour invalides"
          validationErrors) ;;
     canModify ← canModifyProject (auth_id u) id;
     unless canModify
       (sendError "Vous n'avez pas les permissions pour modifier ce projet"
          "FORBIDDEN" 403) ;;
     Prisma.project_update id (applyProjectUpdate body) ;;
     db ← get;
     sendSuccess "Projet mis à jour avec succès" (projectData db id) 200)
    "Erreur lors de la mise à jour du projet".

Record AddContributorData : Type := {
  ac_email : option string;
  ac_role : option string
}.

(** POST /projects/:id/contributors *)
Definition addContributor (user : option AuthUser) (id : string)
    (body : AddContributorData) : DB → Response * DB :=
  controller
    (let role := default "CONTRIBUTOR" (ac_role body) in
     u ← authenticated user;
     canModify ← canModifyProject (auth_id u) id;
     unless canModify
       (sendError "Vous n'avez pas les permissions pour modifier ce projet"
          "FORBIDDEN" 403) ;;
     email ← from_option (λ e, mret (toLowerCase e)) throw (ac_email body);
     found ← Prisma.user_findUnique_email email;
     match found with
     | None => sendError "Utilisateur non trouvé" "USER_NOT_FOUND" 404
     | Some target =>
         existingMember ← Prisma.projectMember_findUnique target.1 id;
         unless (bool_decide (existingMember = None))
           (sendError "L'utilisateur est déjà membre de ce projet"
              "USER_ALREADY_MEMBER" 409) ;;
         r ← from_option mret throw (parseRole role);
         Prisma.projectMember_create target.1 id r ;;
         sendSuccess "Contributeur ajouté avec succès" DataNone 200
     end)
    "Erreur lors de l'ajout du contributeur".

(** DELETE /projects/:id/contributors/:userId *)
Definition removeContributor (user : option AuthUser) (id userId : string)
    : DB → Response * DB :=
  controller
    (u ← authenticated user;
     canModify ← canModifyProject (auth_id u) id;
     unless canModify
       (sendError "Vous n'avez pas les permissions pour modifier ce projet"
          "FORBIDDEN" 403) ;;
     isOwner ← isProjectOwner (auth_id u) id;
     unless (negb (isOwner && bool_decide (auth_id u = userId)))
       (sendError "Le propriétaire du projet ne peut pas se retirer"
          "CANNOT_REMOVE_OWNER" 400) ;;
     Prisma.projectMember_deleteMany userId id ;;
     sendSuccess "Contributeur retiré avec succès" DataNone 200)
    "Erreur lors du retrait du contributeur".

(** DELETE /projects/:id *)
Definition deleteProject (user : option AuthUser) (id : string)
    : DB → Response * DB :=
  controller
    (u ← authenticated user;
     canDelete ← canDeleteProject (auth_id u) id;
     unless canDelete
       (sendError "Vous n'avez pas les permissions pour supprimer ce projet"
          "FORBIDDEN" 403) ;;
     Prisma.project_delete id ;;
     sendSuccess "Projet supprimé avec succès" DataNone 200)
    "Erreur lors de la suppression du projet".

(** A project as [getProjects] returns it:
    [{...project, _count: { tasks }, userRole}]. *)
Record ProjectView : Type := {
  pv_id : string;
  pv_project : Project;
  pv_taskCount : nat;
  pv_userRole : option UserRole
}.

(** [where: { OR: [{ ownerId }, { members: { some: { userId } } }] }] *)
Definition ownedOrJoined (userId : string) (p : string * Project) : Prop :=
  ownerId p.2 = userId ∨ is_Some (members p.2 !! userId).

Global Instance ownedOrJoined_dec userId p : Decision (ownedOrJoined userId p).
Proof. unfold ownedOrJoined. apply _. Defined.

Section Listing.

(** [orderBy: { updatedAt: "desc" }]: the order of the column
    [updatedAt], which the storage keeps. *)
Variable recentFirst : relation (string * Project).
Context `{!RelDecision recentFirst}.

(** GET /projects *)
Definition getProjects (user : option AuthUser)
    : DB → Reply (list ProjectView) * DB :=
  replying
    (u ← authenticated user;
     db ← get;
     let found :=
       merge_sort recentFirst
         (filter (ownedOrJoined (auth_id u)) (map_to_list (projects db))) in
     forEachMap found (λ project,
       role ← getUserProjectRole (auth_id u) project.1;
       mret {| pv_id := project.1; pv_project := project.2;
               pv_taskCount := length (Prisma.tasksOf db project.1);
               pv_userRole := role |}))
    "Projets récupérés avec succès"
    "Erreur lors de la récupération des projets".

End Listing.


(** *** Insertions the storage refuses

    [prisma.projectMember.create] may throw for a reason the tables of
    [DB] do not show: the storage reports the row as a duplicate, or
    cannot be reached.  [refused userId projectId] tells whether it
    does for that row; a refused insertion writes nothing. *)
Module WithRefusals.

Section Refused.

Variable refused : string → string → bool.

Definition projectMember_create (userId projectId : string)
    (role : Role) : Handler unit :=
  if refused userId projectId then throw
  else Prisma.projectMember_create userId projectId role.

(** POST /projects *)
Definition createProject (user : option AuthUser)
    (body : CreateProjectData) (newId : string)
    : DB → Response * DB :=
  controller
    (u ← authenticated user;
     let validationErrors := validateCreateProjectData body in
     unless (bool_decide (length validationErrors = 0))
       (sendValidationError "Données de création de projet invalides"
          validationErrors) ;;
     name ← trimmed (cp_name body);
     Prisma.project_create newId
       {| project_name := name;
          project_description := trimOrNull (cp_description body);
          ownerId := auth_id u;
          members := ∅ |} ;;
     (if nonEmpty (cp_contributors body) then
        contributorUsers ←
          Prisma.user_findMany_emailIn
            (toLowerCase <$> default [] (cp_contributors body));
        if bool_decide (0 < length contributorUsers) then
          forEach contributorUsers (λ user,
            attempt (projectMember_create user.1 newId CONTRIBUTOR))
        else mret ()
      else mret ()) ;;
     db ← get;
     sendSuccess "Projet créé avec succès" (projectData db newId) 201)
    "Erreur lors de la création du projet".

End Refused.

End WithRefusals.

End ProjectController.

(** ** [controllers/taskController.ts] *)

Module TaskController.

Import Js Validation Permissions TaskAssignments TaskComments.
Import ProjectController.

(** Modelled from the spec: the Prisma schema is not among the sources.
    Section 3 lists TODO first among the statuses; a new task takes it
    as the column default. *)
Definition defaultStatus : TaskStatus := TODO.

(** A present field whose value Prisma refuses rejects the call. *)
Definition parsed {A} (parse : string → option A) (o : option string)
    : Handler (option A) :=
  match o with
  | Some s => from_option (λ v, mret (Some v)) throw (parse s)
  | None => mret None
  end.

(** [dueDate ? new Date(dueDate) : null] *)
Definition dateOrNull (o : option string) : option string :=
  if truthy o then o else None.

Definition taskView (tId : string) : Handler Payload :=
  t ← Prisma.task_findUnique tId;
  taskAssignees ← getTaskAssignments tId;
  taskComments ← getTaskComments tId;
  mret (match t with
        | Some t => DataTask {| tv_id := tId; tv_task := t;
                                tv_assignees := taskAssignees;
                                tv_comments := taskComments |}
        | None => DataNone
        end).

Definition applyTaskUpdate (body : UpdateTaskData) (st : option TaskStatus)
    (pr : option Priority) (t : Task) : Task :=
  {| title := from_option trim (title t) (ut_title body);
     description :=
       match ut_description body with
       | Some d => trimOrNull (Some d)
       | None => description t
       end;
     status := default (status t) st;
     priority := default (priority t) pr;
     dueDate :=
       match ut_dueDate body with
       | Some d => dateOrNull (Some d)
       | None => dueDate t
       end;
     projectId := projectId t;
     creatorId := creatorId t;
     task_createdAt := task_createdAt t;
     assignees := assignees t |}.

Section WithRuntime.

Variable dateToISOString : string → option string.
(** The writes the storage refuses during a reconciliation. *)
Variable fails : RowWrite → bool.

(** POST /projects/:id/tasks *)
Definition createTask (user : option AuthUser) (id : string)
    (body : CreateTaskData) (newId : string) (now : Z)
    : DB → Response * DB :=
  controller
    (unless (negb (bool_decide (id = "")))
       (sendError "ID de projet invalide" "INVALID_PROJECT_ID" 400) ;;
     u ← authenticated user;
     let validationErrors := validateCreateTaskData dateToISOString body in
     unless (bool_decide (length validationErrors = 0))
       (sendValidationError "Données de création de tâche invalides"
          validationErrors) ;;
     hasAccess ← hasProjectAccess (auth_id u) id;
     unless hasAccess
       (sendError "Accès refusé au projet" "FORBIDDEN" 403) ;;
     project ← Prisma.project_findUnique id;
     unless (bool_decide (is_Some project))
       (sendError "Projet non trouvé" "PROJECT_NOT_FOUND" 404) ;;
     canCreate ← canCreateTasks (auth_id u) id;
     unless canCreate
       (sendError "Vous n'avez pas les permissions pour créer des tâches dans ce projet"
          "FORBIDDEN" 403) ;;
     (if nonEmpty (ct_assigneeIds body) then
        areValidMembers ←
          validateProjectMembers id (default [] (ct_assigneeIds body));
        unless areValidMembers
          (sendError "Certains utilisateurs assignés ne sont pas membres du projet"
             "INVALID_ASSIGNEES" 400)
      else mret ()) ;;
     taskTitle ← trimmed (ct_title body);
     pr ← (if truthy (ct_priority body)
           then parsed parsePriority (ct_priority body)
           else mret (Some MEDIUM));
     Prisma.task_create newId
       {| title := taskTitle;
          description := trimOrNull (ct_description body);
          status := defaultStatus;
          priority := default MEDIUM pr;
          dueDate := dateOrNull (ct_dueDate body);
          projectId := id;
          creatorId := auth_id u;
          task_createdAt := now;
          assignees := ∅ |} ;;
     (if nonEmpty (ct_assigneeIds body) then
        updateTaskAssignments fails now newId
          (default [] (ct_assigneeIds body))
      else mret ()) ;;
     taskWithRelations ← Prisma.task_findUnique newId;
     unless (bool_decide (is_Some taskWithRelations))
       (sendError "Erreur lors de la récupération de la tâche créée"
          "TASK_NOT_FOUND" 404) ;;
     data ← taskView newId;
     sendSuccess "Tâche créée avec succès" data 201)
    "Erreur lors de la création de la tâche".

(** GET /projects/:id/tasks/:taskId *)
Definition getTask (user : option AuthUser) (id tId : string)
    : DB → Response * DB :=
  controller
    (u ← authenticated user;
     hasAccess ← hasProjectAccess (auth_id u) id;
     unless hasAccess
       (sendError "Accès refusé au projet" "FORBIDDEN" 403) ;;
     task ← Prisma.task_findFirst tId id;
     unless (bool_decide (is_Some task))
       (sendError "Tâche non trouvée" "TASK_NOT_FOUND" 404) ;;
     data ← taskView tId;
     sendSuccess "Tâche récupérée avec succès" data 200)
    "Erreur lors de la récupération de la tâche".

(** PUT /projects/:id/tasks/:taskId *)
Definition updateTask (user : option AuthUser) (id tId : string)
    (body : UpdateTaskData) (now : Z) : DB → Response * DB :=
  controller
    (u ← authenticated user;
     let validationErrors := validateUpdateTaskData dateToISOString body in
     unless (bool_decide (length validationErrors = 0))
       (sendValidationError "Données de mise à jour invalides"
          validationErrors) ;;
     hasAccess ← hasProjectAccess (auth_id u) id;
     unless hasAccess
       (sendError "Accès refusé au projet" "FORBIDDEN" 403) ;;
     canModify ← canModifyTasks (auth_id u) id;
     unless canModify
       (sendError "Vous n'avez pas les permissions pour modifier des tâches dans ce projet"
          "FORBIDDEN" 403) ;;
     existingTask ← Prisma.task_findFirst tId id;
     unless (bool_decide (is_Some existingTask))
       (sendError "Tâche non trouvée" "TASK_NOT_FOUND" 404) ;;
     (if nonEmpty (ut_assigneeIds body) then
        areValidMembers ←
          validateProjectMembers id (default [] (ut_assigneeIds body));
        unless areValidMembers
          (sendError "Certains utilisateurs assignés ne sont pas membres du projet"
             "INVALID_ASSIGNEES" 400)
      else mret ()) ;;
     st ← parsed parseStatus (ut_status body);
     pr ← parsed parsePriority (ut_priority body);
     Prisma.task_update tId (applyTaskUpdate body st pr) ;;
     match ut_assigneeIds body with
     | Some assigneeIds => updateTaskAssignments fails now tId assigneeIds
     | None => mret ()
     end ;;
     data ← taskView tId;
     sendSuccess "Tâche mise à jour avec succès" data 200)
    "Erreur lors de la mise à jour de la tâche".

End WithRuntime.

(** DELETE /projects/:id/tasks/:taskId *)
Definition deleteTask (user : option AuthUser) (id tId : string)
    : DB → Response * DB :=
  controller
    (u ← authenticated user;
     hasAccess ← hasProjectAccess (auth_id u) id;
     unless hasAccess
       (sendError "Accès refusé au projet" "FORBIDDEN" 403) ;;
     canModify ← canModifyTasks (auth_id u) id;
     unless canModify
       (sendError "Vous n'avez pas les permissions pour supprimer des tâches dans ce projet"
          "FORBIDDEN" 403) ;;
     existingTask ← Prisma.task_findFirst tId id;
     unless (bool_decide (is_Some existingTask))
       (sendError "Tâche non trouvée" "TASK_NOT_FOUND" 404) ;;
     Prisma.task_delete tId ;;
     sendSuccess "Tâche supprimée avec succès" DataNone 200)
    "Erreur lors de la suppression de la tâche".

Section Listing.

(** [orderBy: [{ priority: "desc" }, { createdAt: "desc" }]]: the
    order of the enum values is the one of the schema. *)
Variable urgentFirst : relation (string * Task).
Context `{!RelDecision urgentFirst}.

(** GET /projects/:id/tasks *)
Definition getTasks (user : option AuthUser) (id : string)
    : DB → Reply (list TaskView) * DB :=
  replying
    (u ← authenticated user;
     hasAccess ← hasProjectAccess (auth_id u) id;
     unless hasAccess
       (sendError "Accès refusé au projet" "FORBIDDEN" 403) ;;
     db ← get;
     forEachMap (merge_sort urgentFirst (Prisma.tasksOf db id)) (λ task,
       taskAssignees ← getTaskAssignments task.1;
       taskComments ← getTaskComments task.1;
       mret {| tv_id := task.1; tv_task := task.2;
               tv_assignees := taskAssignees;
               tv_comments := taskComments |}))
    "Tâches récupérées avec succès"
    "Erreur lors de la récupération des tâches".

End Listing.

End TaskController.

(** ** [controllers/commentController.ts] *)

Module CommentController.

Import Js Validation Permissions ProjectController.

Definition withContent (s : string) (c : Comment) : Comment :=
  {| content := s; taskId := taskId c; authorId := authorId c;
     createdAt := createdAt c |}.

(** POST /projects/:id/tasks/:taskId/comments *)
Definition createComment (user : option AuthUser) (id tId : string)
    (body : CommentData) (newId : string) (now : Z) : DB → Response * DB :=
  controller
    (u ← authenticated user;
     let validationErrors := validateCreateCommentData body in
     unless (bool_decide (length validationErrors = 0))
       (sendValidationError "Données de création de commentaire invalides"
          validationErrors) ;;
     hasAccess ← hasProjectAccess (auth_id u) id;
     unless hasAccess (sendError "Accès refusé au projet" "FORBIDDEN" 403) ;;
     task ← Prisma.task_findFirst tId id;
     unless (bool_decide (is_Some task))
       (sendError "Tâche non trouvée" "TASK_NOT_FOUND" 404) ;;
     text ← trimmed (cm_content body);
     let comment := {| content := text; taskId := tId;
                       authorId := auth_id u; createdAt := now |} in
     Prisma.comment_create newId comment ;;
     sendSuccess "Commentaire créé avec succès" (DataComment newId comment)
       201)
    "Erreur lors de la création du commentaire".

(** GET /projects/:id/tasks/:taskId/comments *)
Definition getComments (user : option AuthUser) (id tId : string)
    : DB → Response * DB :=
  controller
    (u ← authenticated user;
     hasAccess ← hasProjectAccess (auth_id u) id;
     unless hasAccess (sendError "Accès refusé au projet" "FORBIDDEN" 403) ;;
     task ← Prisma.task_findFirst tId id;
     unless (bool_decide (is_Some task))
       (sendError "Tâche non trouvée" "TASK_NOT_FOUND" 404) ;;
     found ← Prisma.comment_findMany tId Prisma.oldestFirst;
     sendSuccess "Commentaires récupérés avec succès" (DataComments found)
       200)
    "Erreur lors de la récupération des commentaires".

(** PUT /projects/:id/tasks/:taskId/comments/:commentId *)
Definition updateComment (user : option AuthUser) (id tId commentId : string)
    (body : CommentData) : DB → Response * DB :=
  controller
    (u ← authenticated user;
     let validationErrors := validateUpdateCommentData body in
     unless (bool_decide (length validationErrors = 0))
       (sendValidationError "Données de mise à jour invalides"
          validationErrors) ;;
     hasAccess ← hasProjectAccess (auth_id u) id;
     unless hasAccess (sendError "Accès refusé au projet" "FORBIDDEN" 403) ;;
     existingComment ← Prisma.comment_findFirst commentId tId id;
     match existingComment with
     | None => sendError "Commentaire non trouvé" "COMMENT_NOT_FOUND" 404
     | Some existing =>
         unless (bool_decide (authorId existing = auth_id u))
           (sendError "Vous ne pouvez modifier que vos propres commentaires"
              "FORBIDDEN" 403) ;;
         text ← trimmed (cm_content body);
         updatedComment ← Prisma.comment_update commentId (withContent text);
         sendSuccess "Commentaire mis à jour avec succès"
           (DataComment commentId updatedComment) 200
     end)
    "Erreur lors de la mise à jour du commentaire".

(** DELETE /projects/:id/tasks/:taskId/comments/:commentId *)
Definition deleteComment (user : option AuthUser) (id tId commentId : string)
    : DB → Response * DB :=
  controller
    (u ← authenticated user;
     hasAccess ← hasProjectAccess (auth_id u) id;
     unless hasAccess (sendError "Accès refusé au projet" "FORBIDDEN" 403) ;;
     existingComment ← Prisma.comment_findFirst commentId tId id;
     match existingComment with
     | None => sendError "Commentaire non trouvé" "COMMENT_NOT_FOUND" 404
     | Some existing =>
         canModify ← canModifyTasks (auth_id u) id;
         unless (bool_decide (authorId existing = auth_id u) || canModify)
           (sendError "Vous ne pouvez supprimer que vos propres commentaires"
              "FORBIDDEN" 403) ;;
         Prisma.comment_delete commentId ;;
         sendSuccess "Commentaire supprimé avec succès" DataNone 200
     end)
    "Erreur lors de la suppression du commentaire".

(** GET /projects/:id/tasks/:taskId/comments/:commentId *)
Definition getComment (user : option AuthUser) (id tId commentId : string)
    : DB → Response * DB :=
  controller
    (u ← authenticated user;
     hasAccess ← hasProjectAccess (auth_id u) id;
     unless hasAccess (sendError "Accès refusé au projet" "FORBIDDEN" 403) ;;
     found ← Prisma.comment_findFirst commentId tId id;
     match found with
     | None => sendError "Commentaire non trouvé" "COMMENT_NOT_FOUND" 404
     | Some comment =>
         sendSuccess "Commentaire récupéré avec succès"
           (DataComment commentId comment) 200
     end)
    "Erreur lors de la récupération du commentaire".

End CommentController.

(** ** [controllers/dashboardController.ts] *)

Module DashboardController.

(** [where: { assignees: { some: { userId } } }] *)
Definition assignedTo (userId : string) (t : string * Task) : Prop :=
  is_Some (assignees t.2 !! userId).

Global Instance assignedTo_dec userId t : Decision (assignedTo userId t).
Proof. unfold assignedTo. apply _. Defined.

Definition assignedTasks (db : DB) (userId : string)
    : list (string * Task) :=
  filter (assignedTo userId) (map_to_list (tasks db)).

(** [where: { tasks: { some: { assignees: { some: { userId } } } } }] *)
Definition hasAssignedTask (db : DB) (userId : string)
    (p : string * Project) : Prop :=
  Exists (λ t, projectId t.2 = p.1) (assignedTasks db userId).

Global Instance hasAssignedTask_dec db userId p :
  Decision (hasAssignedTask db userId p).
Proof. unfold hasAssignedTask. apply _. Defined.

(** A task with its [assignees] and its [comments], newest first. *)
Definition view (db : DB) (t : string * Task) : TaskView :=
  {| tv_id := t.1; tv_task := t.2;
     tv_assignees := map_to_list (assignees t.2);
     tv_comments := Prisma.commentsOf db t.1 Prisma.newestFirst |}.

(** The counts of [getDashboardStats]; [byStatus] is the object the
    groups are reduced into: a status without task has no key. *)
Record Stats : Type := {
  tasks_total : nat;
  tasks_urgent : nat;
  tasks_overdue : nat;
  tasks_byStatus : TaskStatus → option nat;
  projects_total : nat
}.

Section Storage.

(** [orderBy: [{ priority: "asc" }, { dueDate: "asc" }]]: the order
    of the enum values is the one of the schema, the place of the
    tasks without date the one the database gives them. *)
Variable byPriorityThenDue : relation (string * Task).
Context `{!RelDecision byPriorityThenDue}.

(** [orderBy: { name: "asc" }], in the collation of the database. *)
Variable byName : relation (string * Project).
Context `{!RelDecision byName}.

(** [dueDate: { lt: new Date() }] *)
Variable isPast : string → bool.

(** GET /dashboard/assigned-tasks *)
Definition getAssignedTasks (user : option AuthUser)
    : DB → Reply (list TaskView) * DB :=
  replying
    (u ← authenticated user;
     db ← get;
     mret (view db <$>
             merge_sort byPriorityThenDue (assignedTasks db (auth_id u))))
    "Tâches assignées récupérées"
    "Erreur lors de la récupération des tâches assignées".

(** GET /dashboard/projects-with-tasks *)
Definition getProjectsWithTasks (user : option AuthUser)
    : DB → Reply (list (string * Project * list TaskView)) * DB :=
  replying
    (u ← authenticated user;
     db ← get;
     mret ((λ p, (p.1, p.2,
                  view db <$>
                    merge_sort byPriorityThenDue
                      (filter (λ t, projectId t.2 = p.1)
                         (assignedTasks db (auth_id u)))))
           <$> merge_sort byName
                 (filter (hasAssignedTask db (auth_id u))
                    (map_to_list (projects db)))))
    "Projets avec tâches récupérés"
    "Erreur lors de la récupération des projets avec tâches".

Definition countWhere (P : string * Task → Prop)
    `{!∀ t, Decision (P t)} (l : list (string * Task)) : nat :=
  length (filter P l).

(** GET /dashboard/stats *)
Definition getDashboardStats (user : option AuthUser)
    : DB → Reply Stats * DB :=
  replying
    (u ← authenticated user;
     db ← get;
     let assigned := assignedTasks db (auth_id u) in
     let assignedTasksCount := length assigned in
     let urgentTasksCount :=
       countWhere (λ t, priority t.2 ∈ [URGENT; HIGH]) assigned in
     let overdueTasksCount :=
       countWhere (λ t, from_option isPast false (dueDate t.2) = true
                        ∧ status t.2 ≠ DONE) assigned in
     let tasksByStatus := λ s,
       let n := countWhere (λ t, status t.2 = s) assigned in
       if bool_decide (n = 0) then None else Some n in
     let projectsCount :=
       length (filter (hasAssignedTask db (auth_id u))
                 (map_to_list (projects db))) in
     mret {| tasks_total := assignedTasksCount;
             tasks_urgent := urgentTasksCount;
             tasks_overdue := overdueTasksCount;
             tasks_byStatus := tasksByStatus;
             projects_total := projectsCount |})
    "Statistiques du tableau de bord récupérées"
    "Erreur lors de la récupération des statistiques".

End Storage.

End DashboardController.

(** ** [controllers/authController.ts] *)

Module AuthController.

Import Js Validation ProjectController.

(** The users with the [password] column of the model, which [User]
    leaves out: [userId ↦ hash]. *)
Record Accounts : Type := {
  acc_db : DB;
  acc_passwords : gmap string string
}.

(** The [{ user, token }] of a success. *)
Record Session : Type := {
  session_userId : string;
  session_user : User;
  session_token : option string
}.

Definition withUsers (acc : Accounts) (us : gmap string User)
    (ps : gmap string string) : Accounts :=
  {| acc_db := {| users := us; projects := projects (acc_db acc);
                  tasks := tasks (acc_db acc);
                  comments := comments (acc_db acc) |};
     acc_passwords := ps |}.

(** Another row than [id] holds the email. *)
Definition emailTaken (acc : Accounts) (id email : string) : Prop :=
  Exists (λ u, u.1 ≠ id ∧ user_email u.2 = email)
    (map_to_list (users (acc_db acc))).

Global Instance emailTaken_dec acc id email :
  Decision (emailTaken acc id email).
Proof. unfold emailTaken. apply _. Defined.

(** [user.create]: the primary key and the email are unique. *)
Definition user_create (newId : string) (u : User) (hashed : string)
    (acc : Accounts) : option Accounts :=
  match users (acc_db acc) !! newId with
  | Some _ => None
  | None =>
      if decide (emailTaken acc newId (user_email u)) then None
      else Some (withUsers acc (<[newId := u]> (users (acc_db acc)))
                   (<[newId := hashed]> (acc_passwords acc)))
  end.

(** [user.update] of the profile: the record must exist and the
    email stays unique. *)
Definition user_update (id : string) (f : User → User) (acc : Accounts)
    : option (Accounts * User) :=
  match users (acc_db acc) !! id with
  | Some u =>
      if decide (emailTaken acc id (user_email (f u))) then None
      else Some (withUsers acc (<[id := f u]> (users (acc_db acc)))
                   (acc_passwords acc), f u)
  | None => None
  end.

(** [user.update({ where: { id }, data: { password } })] *)
Definition user_setPassword (id hashed : string) (acc : Accounts)
    : option Accounts :=
  match users (acc_db acc) !! id with
  | Some _ =>
      Some (withUsers acc (users (acc_db acc))
              (<[id := hashed]> (acc_passwords acc)))
  | None => None
  end.

Section WithCrypto.

(** [bcrypt.hash(password, 12)], with the salt it draws. *)
Variable hash : string → string → string.
(** [bcrypt.compare(password, hashed)] *)
Variable compare : string → string → bool.
(** [generateToken(userId, email)] of [utils/jwt.ts]. *)
Variable generateToken : string → string → string.

(** POST /auth/register *)
Definition register (body : RegisterData) (newId salt : string)
    (acc : Accounts) : Reply Session * Accounts :=
  let validationErrors := validateRegisterData body in
  if negb (bool_decide (length validationErrors = 0))
  then (Instead (ValidationFailure "Données d'inscription invalides"
                   validationErrors), acc)
  else
    match reg_email body, reg_password body with
    | Some email, Some password =>
        match Prisma.userByEmail (acc_db acc) (toLowerCase email) with
        | Some _ =>
            (Instead (Failure "Un utilisateur avec cet email existe déjà"
                        "EMAIL_ALREADY_EXISTS" 409), acc)
        | None =>
            let hashedPassword := hash salt password in
            let newUser :=
              {| user_email := toLowerCase email;
                 user_name := trimOrNull (reg_name body) |} in
            match user_create newId newUser hashedPassword acc with
            | Some acc' =>
                let token := generateToken newId (user_email newUser) in
                (Replied "Utilisateur créé avec succès"
                   {| session_userId := newId; session_user := newUser;
                      session_token := Some token |} 201, acc')
            | None =>
                (Instead (ServerFailure "Erreur lors de l'inscription"),
                 acc)
            end
        end
    | _, _ => (Instead (ServerFailure "Erreur lors de l'inscription"), acc)
    end.

(** POST /auth/login *)
Definition login (body : LoginData) (acc : Accounts)
    : Reply Session * Accounts :=
  let validationErrors := validateLoginData body in
  if negb (bool_decide (length validationErrors = 0))
  then (Instead (ValidationFailure "Données de connexion invalides"
                   validationErrors), acc)
  else
    match login_email body, login_password body with
    | Some email, Some password =>
        match Prisma.userByEmail (acc_db acc) (toLowerCase email) with
        | None =>
            (Instead (Failure "Email ou mot de passe incorrect"
                        "INVALID_CREDENTIALS" 401), acc)
        | Some user =>
            match acc_passwords acc !! user.1 with
            | Some hashed =>
                if compare password hashed
                then
                  let token := generateToken user.1 (user_email user.2) in
                  (Replied "Connexion réussie"
                     {| session_userId := user.1; session_user := user.2;
                        session_token := Some token |} 200, acc)
                else
                  (Instead (Failure "Email ou mot de passe incorrect"
                              "INVALID_CREDENTIALS" 401), acc)
            | None =>
                (Instead (ServerFailure "Erreur lors de la connexion"),
                 acc)
            end
        end
    | _, _ => (Instead (ServerFailure "Erreur lors de la connexion"), acc)
    end.

Definition applyProfileUpdate (body : UpdateProfileData) (u : User)
    : User :=
  {| user_email := from_option toLowerCase (user_email u) (prof_email body);
     user_name :=
       match prof_name body with
       | Some name => trimOrNull (Some name)
       | None => user_name u
       end |}.

(** PUT /auth/profile *)
Definition updateProfile (user : option AuthUser)
    (body : UpdateProfileData) (acc : Accounts)
    : Reply Session * Accounts :=
  match user with
  | None =>
      (Instead (Failure "Utilisateur non authentifié" "UNAUTHORIZED" 401),
       acc)
  | Some u =>
      let validationErrors := validateUpdateProfileData body in
      if negb (bool_decide (length validationErrors = 0))
      then (Instead (ValidationFailure "Données de mise à jour invalides"
                       validationErrors), acc)
      else if match prof_email body with
              | Some email =>
                  truthy (Some email)
                  && negb (bool_decide
                             (toLowerCase email
                              = toLowerCase (auth_email u)))
                  && bool_decide
                       (is_Some (Prisma.userByEmail (acc_db acc)
                                   (toLowerCase email)))
              | None => false
              end
      then (Instead (Failure "Un utilisateur avec cet email existe déjà"
                       "EMAIL_ALREADY_EXISTS" 409), acc)
      else
        match user_update (auth_id u) (applyProfileUpdate body) acc with
        | Some (acc', updatedUser) =>
            (Replied "Profil mis à jour avec succès"
               {| session_userId := auth_id u;
                  session_user := updatedUser;
                  session_token := None |} 200, acc')
        | None =>
            (Instead (ServerFailure
                        "Erreur lors de la mise à jour du profil"), acc)
        end
  end.

(** PUT /auth/password *)
Definition updatePassword (user : option AuthUser)
    (body : UpdatePasswordData) (salt : string) (acc : Accounts)
    : Response * Accounts :=
  match user with
  | None =>
      (Failure "Utilisateur non authentifié" "UNAUTHORIZED" 401, acc)
  | Some u =>
      let validationErrors := validateUpdatePasswordData body in
      if negb (bool_decide (length validationErrors = 0))
      then (ValidationFailure
              "Données de mise à jour du mot de passe invalides"
              validationErrors, acc)
      else
        match users (acc_db acc) !! auth_id u with
        | None => (Failure "Utilisateur non trouvé" "USER_NOT_FOUND" 404,
                   acc)
        | Some _ =>
            match acc_passwords acc !! auth_id u,
                  currentPassword body, newPassword body with
            | Some hashed, Some current, Some new =>
                if compare current hashed
                then
                  let hashedNewPassword := hash salt new in
                  match user_setPassword (auth_id u) hashedNewPassword
                          acc with
                  | Some acc' =>
                      (Success "Mot de passe mis à jour avec succès"
                         DataNone 200, acc')
                  | None =>
                      (ServerFailure
                         "Erreur lors de la mise à jour du mot de passe",
                       acc)
                  end
                else
                  (Failure "Mot de passe actuel incorrect"
                     "INVALID_CURRENT_PASSWORD" 401, acc)
            | _, _, _ =>
                (ServerFailure
                   "Erreur lors de la mise à jour du mot de passe", acc)
            end
        end
  end.

End WithCrypto.

End AuthController.

(** * The vocabulary of the properties *)

(** ** A small database, after the seed data of the README *)

Module Fixture.

Definition alice : AuthUser :=
  {| auth_id := "u1"; auth_email := "alice@example.com" |}.
Definition bob : AuthUser :=
  {| auth_id := "u2"; auth_email := "bob@example.com" |}.
Definition caroline : AuthUser :=
  {| auth_id := "u3"; auth_email := "caroline@example.com" |}.
Definition david : AuthUser :=
  {| auth_id := "u4"; auth_email := "david@example.com" |}.

Definition userRow (a : AuthUser) : string * User :=
  (auth_id a, {| user_email := auth_email a; user_name := None |}).

(** Alice owns the project; Bob administers it; Caroline contributes;
    David has no relation to it. *)
Definition abricot : Project :=
  {| project_name := "Abricot"; project_description := None;
     ownerId := "u1";
     members := {[ "u2" := ADMIN; "u3" := CONTRIBUTOR ]} |}.

(** The task is assigned to Alice and Bob. *)
Definition maquette : Task :=
  {| title := "Maquette"; description := None; status := TODO;
     priority := MEDIUM; dueDate := None; projectId := "p1";
     creatorId := "u1"; task_createdAt := 10;
     assignees := {[ "u1" := 10%Z; "u2" := 10%Z ]} |}.

Definition db0 : DB :=
  {| users := list_to_map (userRow <$> [alice; bob; caroline; david]);
     projects := {[ "p1" := abricot ]};
     tasks := {[ "t1" := maquette ]};
     comments :=
       {[ "c1" := {| content := "Premier"; taskId := "t1";
                     authorId := "u3"; createdAt := 20 |};
          "c2" := {| content := "Second"; taskId := "t1";
                     authorId := "u2"; createdAt := 30 |} ]} |}.

(** No date is in play in the examples. *)
Definition noDate : string → option string := λ _, None.

(** A storage that takes every write. *)
Definition storageUp : TaskAssignments.RowWrite → bool := λ _, false.

(** A storage that refuses to insert Caroline's row. *)
Definition storageDown : TaskAssignments.RowWrite → bool := λ w,
  match w with
  | TaskAssignments.CreateRow u => bool_decide (u = "u3")
  | TaskAssignments.DeleteRow _ => false
  end.

(** An update that moves the task on and declares its assignees. *)
Definition assign (ids : list string) : Validation.UpdateTaskData :=
  {| Validation.ut_title := None; Validation.ut_description := None;
     Validation.ut_status := Some "IN_PROGRESS";
     Validation.ut_priority := None; Validation.ut_dueDate := None;
     Validation.ut_assigneeIds := Some ids |}.

End Fixture.

(** ** Databases and callers *)

Definition withProjects (db : DB) (ps : gmap string Project) : DB :=
  {| users := users db; projects := ps; tasks := tasks db;
     comments := comments db |}.

Definition withTasks (db : DB) (ts : gmap string Task) : DB :=
  {| users := users db; projects := projects db; tasks := ts;
     comments := comments db |}.

(** The caller may modify the project: owner or administrator. *)
Definition mayModify (db : DB) (u : AuthUser) (id : string) : Prop :=
  Permissions.ownerOf db id = Some (auth_id u)
  ∨ Permissions.membershipOf db (auth_id u) id = Some ADMIN.

(** The caller has access to the project: owner or member. *)
Definition hasAccess (db : DB) (u : AuthUser) (id : string) : Prop :=
  Permissions.ownerOf db id = Some (auth_id u)
  ∨ is_Some (Permissions.membershipOf db (auth_id u) id).

(** The fields [updateProject] hands to the validation are accepted. *)
Definition validProjectUpdate (body : Validation.UpdateProjectData) : Prop :=
  Validation.validateUpdateProjectData
    {| Validation.up_name := Validation.up_name body;
       Validation.up_description := Validation.up_description body;
       Validation.up_contributors := None |} = [].

(** ** Comments in order *)

(** The rows of the [Comment] table that belong to the task. *)
Definition commentRows (db : DB) (tId : string) : list (string * Comment) :=
  filter (λ c, taskId c.2 = tId) (map_to_list (comments db)).

(** [l] holds the comments of the task, in the order [order]. *)
Definition orderedCommentsOf (order : relation (string * Comment))
    (db : DB) (tId : string) (l : list (string * Comment)) : Prop :=
  StronglySorted order l ∧ l ≡ₚ commentRows db tId.

(** ** Assignees *)

(** The rows after the writes [ws], one after the other. *)
Definition writeAll (now : Z) (ws : list TaskAssignments.RowWrite)
    (rows : gmap string Z) : gmap string Z :=
  foldl (λ rows w, TaskAssignments.write now w rows) rows ws.

(** [after] holds exactly the declared ids: a row that was there before
    is the same row, a new one is stamped [now]. *)
Definition replacedBy (now : Z) (declared : list string)
    (before after : gmap string Z) : Prop :=
  ∀ u, after !! u
       = if bool_decide (u ∈ declared)
         then Some (default now (before !! u)) else None.

(** The storage takes all the writes [ws]. *)
Definition accepted (fails : TaskAssignments.RowWrite → bool)
    (ws : list TaskAssignments.RowWrite) : bool :=
  forallb (λ w, negb (fails w)) ws.

(** One of the proposed ids is neither the owner nor the holder of a
    membership row of the project. *)
Definition hasStranger (db : DB) (projId : string) (ids : list string)
    : Prop :=
  ∃ x, x ∈ ids ∧ Permissions.ownerOf db projId ≠ Some x
       ∧ Permissions.membershipOf db x projId = None.

(** The checks of [updateTask] that come before the one on the
    assignees. *)
Definition passesUpdateGates (dateToISOString : string → option string)
    (db : DB) (user : option AuthUser) (id tId : string)
    (body : Validation.UpdateTaskData) : Prop :=
  ∃ u, user = Some u
       ∧ Validation.validateUpdateTaskData dateToISOString body = []
       ∧ hasAccess db u id
       ∧ is_Some (Prisma.findTask db tId id).

(** The checks of [createTask] that come before the one on the
    assignees. *)
Definition passesCreateGates (dateToISOString : string → option string)
    (db : DB) (user : option AuthUser) (id : string)
    (body : Validation.CreateTaskData) : Prop :=
  id ≠ ""
  ∧ ∃ u, user = Some u
         ∧ Validation.validateCreateTaskData dateToISOString body = []
         ∧ hasAccess db u id.

(** What lets an update that declares [declared] through to its end: the
    gates, members only, enum fields that Prisma accepts, a storage that
    takes the writes. *)
Definition updateGoesThrough (dateToISOString : string → option string)
    (fails : TaskAssignments.RowWrite → bool)
    (db : DB) (user : option AuthUser) (id tId : string)
    (body : Validation.UpdateTaskData) (declared : list string) (t : Task)
    : Prop :=
  passesUpdateGates dateToISOString db user id tId body
  ∧ forallb (TaskAssignments.isMember db id) declared = true
  ∧ (∀ s, Validation.ut_status body = Some s → is_Some (parseStatus s))
  ∧ (∀ s, Validation.ut_priority body = Some s → is_Some (parsePriority s))
  ∧ accepted fails (TaskAssignments.reconcile (assignees t) declared) = true.

(** ** The rules of the validation functions *)

Module Rules.

Import Js Validation.

(** A rule of a validation function on data [D]: the entries it may
    push, each with the test, on the data alone, that tells whether the
    rule is broken there. A rule on a scalar field has one entry; a rule
    on the items of an array has one entry per item. *)
Definition Rule (D : Type) : Type := D → list (ValidationError * bool).

Definition scalar {D} (f msg : string) (broken : D → bool) : Rule D :=
  λ data, [({| field := f; message := msg |}, broken data)].

Definition eachItem {D} (name msg : string)
    (items : D → option (list string)) (bad : string → bool) : Rule D :=
  λ data,
    imap (λ index x,
            ({| field := name ++ "[" ++ pretty index ++ "]";
                message := msg |}, bad x))
      (default [] (items data)).

(** The entries of the rules that [data] breaks. *)
Definition brokenEntries {D} (rules : list (Rule D)) (data : D)
    : list ValidationError :=
  (rules ≫= λ r : Rule D, r data)
  ≫= λ x : ValidationError * bool, if x.2 then [x.1] else [].

(** [validate] returns one entry for each rule that is broken, in the
    order of the rules: none is skipped because another one fired, none
    is made up. *)
Definition collects {D} (validate : D → list ValidationError)
    (rules : list (Rule D)) : Prop :=
  ∀ data, validate data = brokenEntries rules data.

(** The value of a field, [""] when it is missing. *)
Definition text (o : option string) : string := default "" o.

(** The length of the trimmed value. *)
Definition trimmedLength (o : option string) : nat :=
  String.length (trim (text o)).

Definition present (o : option string) : bool := bool_decide (is_Some o).

Definition required {D} (f msg : string) (get : D → option string)
    : Rule D :=
  scalar f msg (λ d, negb (truthy (get d))).

Definition registerRules : list (Rule RegisterData) :=
  [ required "email" "L'email est requis" reg_email;
    scalar "email" "Format d'email invalide"
      (λ d, truthy (reg_email d)
            && negb (isValidEmail (text (reg_email d)))) ]
  ++ [ required "password" "Le mot de passe est requis" reg_password;
       scalar "password" "Le mot de passe doit contenir au moins 8 caractères, une lettre majuscule, une lettre minuscule et un chiffre"
         (λ d, truthy (reg_password d)
               && negb (isValidPassword (text (reg_password d)))) ]
  ++ [ scalar "name" "Le nom doit contenir au moins 2 caractères"
         (λ d, truthy (reg_name d)
               && bool_decide (trimmedLength (reg_name d) < 2)) ].

Definition loginRules : list (Rule LoginData) :=
  [ required "email" "L'email est requis" login_email ]
  ++ [ required "password" "Le mot de passe est requis" login_password ].

Definition updateProfileRules : list (Rule UpdateProfileData) :=
  [ scalar "email" "L'email ne peut pas être vide"
      (λ d, present (prof_email d)
            && bool_decide (trim (text (prof_email d)) = ""));
    scalar "email" "Format d'email invalide"
      (λ d, present (prof_email d)
            && negb (bool_decide (trim (text (prof_email d)) = ""))
            && negb (isValidEmail (text (prof_email d)))) ]
  ++ [ scalar "name" "Le nom doit contenir au moins 2 caractères"
         (λ d, present (prof_name d)
               && bool_decide (trimmedLength (prof_name d) < 2)) ].

Definition updatePasswordRules : list (Rule UpdatePasswordData) :=
  [ required "currentPassword" "Le mot de passe actuel est requis"
      currentPassword ]
  ++ [ required "newPassword" "Le nouveau mot de passe est requis"
         newPassword;
       scalar "newPassword" "Le nouveau mot de passe doit contenir au moins 8 caractères, une lettre majuscule, une lettre minuscule et un chiffre"
         (λ d, truthy (newPassword d)
               && negb (isValidPassword (text (newPassword d)))) ]
  ++ [ scalar "newPassword" "Le nouveau mot de passe doit être différent de l'actuel"
         (λ d, truthy (currentPassword d) && truthy (newPassword d)
               && bool_decide (currentPassword d = newPassword d)) ].

(** A name or a title: required, then at least [lo] and at most [hi]
    characters once trimmed. *)
Definition requiredBetween {D} (f : string) (get : D → option string)
    (lo hi : nat) (msgRequired msgShort msgLong : string) : list (Rule D) :=
  [ required f msgRequired get;
    scalar f msgShort
      (λ d, truthy (get d) && bool_decide (trimmedLength (get d) < lo));
    scalar f msgLong
      (λ d, truthy (get d) && bool_decide (hi < trimmedLength (get d))) ].

(** The same for a field that may be left out of an update. *)
Definition optionalBetween {D} (f : string) (get : D → option string)
    (lo hi : nat) (msgEmpty msgShort msgLong : string) : list (Rule D) :=
  [ scalar f msgEmpty
      (λ d, present (get d) && bool_decide (trim (text (get d)) = ""));
    scalar f msgShort
      (λ d, present (get d)
            && negb (bool_decide (trim (text (get d)) = ""))
            && bool_decide (trimmedLength (get d) < lo));
    scalar f msgLong
      (λ d, present (get d) && bool_decide (hi < trimmedLength (get d))) ].

Definition contributorsRule {D} (get : D → option (list string)) : Rule D :=
  eachItem "contributors" "Format d'email invalide" get
    (λ email, negb (isValidEmail email)).

Definition assigneeIdsRule {D} (get : D → option (list string)) : Rule D :=
  eachItem "assigneeIds" "L'ID de l'utilisateur assigné est invalide" get
    (λ userId, bool_decide (userId = "")).

Definition oneOfRule {D} (f msg : string) (get : D → option string)
    (values : list string) : Rule D :=
  scalar f msg
    (λ d, truthy (get d) && negb (bool_decide (text (get d) ∈ values))).

Definition createProjectRules : list (Rule CreateProjectData) :=
  requiredBetween "name" cp_name 2 100 "Le nom du projet est requis"
    "Le nom du projet doit contenir au moins 2 caractères"
    "Le nom du projet ne peut pas dépasser 100 caractères"
  ++ [ scalar "description" "La description ne peut pas dépasser 500 caractères"
         (λ d, truthy (cp_description d)
               && bool_decide (500 < trimmedLength (cp_description d))) ]
  ++ [ contributorsRule cp_contributors ].

Definition updateProjectRules : list (Rule UpdateProjectData) :=
  optionalBetween "name" up_name 2 100
    "Le nom du projet ne peut pas être vide"
    "Le nom du projet doit contenir au moins 2 caractères"
    "Le nom du projet ne peut pas dépasser 100 caractères"
  ++ [ scalar "description" "La description ne peut pas dépasser 500 caractères"
         (λ d, present (up_description d)
               && bool_decide (500 < trimmedLength (up_description d))) ]
  ++ [ contributorsRule up_contributors ].

Definition contentRules : list (Rule CommentData) :=
  requiredBetween "content" cm_content 1 2000
    "Le contenu du commentaire est requis"
    "Le contenu du commentaire ne peut pas être vide"
    "Le contenu du commentaire ne peut pas dépasser 2000 caractères".

Definition dueDateRule {D} (dateToISOString : string → option string)
    (get : D → option string) : Rule D :=
  scalar "dueDate" "Format de date invalide (utilisez le format ISO)"
    (λ d, truthy (get d)
          && negb (isValidDate dateToISOString (text (get d)))).

Definition createTaskRules (dateToISOString : string → option string)
    : list (Rule CreateTaskData) :=
  requiredBetween "title" ct_title 2 200
    "Le titre de la tâche est requis"
    "Le titre de la tâche doit contenir au moins 2 caractères"
    "Le titre de la tâche ne peut pas dépasser 200 caractères"
  ++ [ scalar "description" "La description ne peut pas dépasser 1000 caractères"
         (λ d, truthy (ct_description d)
               && bool_decide (1000 < trimmedLength (ct_description d))) ]
  ++ [ oneOfRule "priority"
         "La priorité doit être LOW, MEDIUM, HIGH ou URGENT" ct_priority
         ["LOW"; "MEDIUM"; "HIGH"; "URGENT"] ]
  ++ [ dueDateRule dateToISOString ct_dueDate ]
  ++ [ assigneeIdsRule ct_assigneeIds ].

Definition updateTaskRules (dateToISOString : string → option string)
    : list (Rule UpdateTaskData) :=
  optionalBetween "title" ut_title 2 200
    "Le titre de la tâche ne peut pas être vide"
    "Le titre de la tâche doit contenir au moins 2 caractères"
    "Le titre de la tâche ne peut pas dépasser 200 caractères"
  ++ [ scalar "description" "La description ne peut pas dépasser 1000 caractères"
         (λ d, present (ut_description d)
               && bool_decide (1000 < trimmedLength (ut_description d))) ]
  ++ [ oneOfRule "status"
         "Le statut doit être TODO, IN_PROGRESS, DONE ou CANCELLED"
         ut_status ["TODO"; "IN_PROGRESS"; "DONE"; "CANCELLED"] ]
  ++ [ oneOfRule "priority"
         "La priorité doit être LOW, MEDIUM, HIGH ou URGENT" ut_priority
         ["LOW"; "MEDIUM"; "HIGH"; "URGENT"] ]
  ++ [ dueDateRule dateToISOString ut_dueDate ]
  ++ [ assigneeIdsRule ut_assigneeIds ].

End Rules.

(** ** The language of a pattern *)

(** The strings a pattern matches from [^] to [$]. *)
Inductive matches : Js.regex → string → Prop :=
| matches_Eps : matches Js.Eps ""
| matches_Class p c : p c = true → matches (Js.Class p) (String c "")
| matches_Cat r1 r2 s1 s2 :
    matches r1 s1 → matches r2 s2 → matches (Js.Cat r1 r2) (s1 ++ s2)
| matches_Or_l r1 r2 s : matches r1 s → matches (Js.Or r1 r2) s
| matches_Or_r r1 r2 s : matches r2 s → matches (Js.Or r1 r2) s
| matches_Both r1 r2 s :
    matches r1 s → matches r2 s → matches (Js.Both r1 r2) s
| matches_Star_nil r : matches (Js.Star r) ""
| matches_Star_cons r s1 s2 :
    matches r s1 → matches (Js.Star r) s2 → matches (Js.Star r) (s1 ++ s2).

(** Every code unit of the string is in the class. *)
Fixpoint everyUnit (p : ascii → bool) (s : string) : bool :=
  match s with
  | EmptyString => true
  | String c s' => p c && everyUnit p s'
  end.

(** Some code unit of the string is in the class. *)
Fixpoint someUnit (p : ascii → bool) (s : string) : bool :=
  match s with
  | EmptyString => false
  | String c s' => p c || someUnit p s'
  end.

(** Some code unit is in the class and no line terminator stands before
    it: what [.*[class]] finds from the start of the input. *)
Fixpoint reaches (p : ascii → bool) (s : string) : bool :=
  match s with
  | EmptyString => false
  | String c s' => p c || negb (Js.isLineTerminator c) && reaches p s'
  end.

Definition lowerLetter : ascii → bool := Js.inRange "a" "z".
Definition upperLetter : ascii → bool := Js.inRange "A" "Z".
Definition digit : ascii → bool := Js.inRange "0" "9".
Definition passwordUnit (c : ascii) : bool :=
  lowerLetter c || upperLetter c || digit c || Js.oneOf "@$!%*?&" c.

(** [[^\s@]] *)
Definition emailUnit (c : ascii) : bool :=
  negb (Js.isWhiteSpace c || Js.isUnit "@" c).

(** [[^\s@]+] *)
Definition emailPart (s : string) : bool :=
  negb (bool_decide (s = "")) && everyUnit emailUnit s.

(** ** Callers without access *)

(** The caller, if there is one, neither owns the project nor holds a
    membership row of it. *)
Definition outsider (db : DB) (user : option AuthUser) (id : string) : Prop :=
  ∀ u, user = Some u → ¬ hasAccess db u id.

(** The response is a refusal with one of the given statuses. *)
Definition refusedWith (statuses : list nat) (r : Response) : Prop :=
  isSuccess r = false ∧ httpStatusOf r ∈ statuses.

(** Nothing but the project [id] differs between the two databases, and
    of that project nothing but the membership rows. *)
Definition sameButMembersOf (id : string) (db db' : DB) : Prop :=
  users db' = users db ∧ tasks db' = tasks db ∧ comments db' = comments db
  ∧ (∀ k, k ≠ id → projects db' !! k = projects db !! k)
  ∧ option_Forall2
      (λ p' p, project_name p' = project_name p
               ∧ project_description p' = project_description p
               ∧ ownerId p' = ownerId p)
      (projects db' !! id) (projects db !! id).

(** Who the email of the body designates, if anyone. *)
Definition designated (db : DB) (body : ProjectController.AddContributorData)
    : option (string * User) :=
  ProjectController.ac_email body
  ≫= λ e, Prisma.userByEmail db (Js.toLowerCase e).

(** The role the body asks for; CONTRIBUTOR when it names none. *)
Definition askedRole (body : ProjectController.AddContributorData)
    : option Role :=
  parseRole (default "CONTRIBUTOR" (ProjectController.ac_role body)).

(** The database with the membership rows of one project changed. *)
Definition withMembersOf (db : DB) (id : string)
    (f : gmap string Role → gmap string Role) : DB :=
  withProjects db
    (alter (λ p, Prisma.withMembers p (f (members p))) id (projects db)).

(** ** Tasks as they are created *)

(** The task [createTask] hands to [task.create]. *)
Definition createdTask (u : AuthUser) (id : string)
    (body : Validation.CreateTaskData) (now : Z) : Task :=
  {| title := from_option Js.trim "" (Validation.ct_title body);
     description := ProjectController.trimOrNull (Validation.ct_description body);
     status := TaskController.defaultStatus;
     priority :=
       default MEDIUM
         (if Js.truthy (Validation.ct_priority body)
          then Validation.ct_priority body ≫= parsePriority else None);
     dueDate := TaskController.dateOrNull (Validation.ct_dueDate body);
     projectId := id; creatorId := auth_id u; task_createdAt := now;
     assignees := ∅ |}.

(** The ids the body of a creation declares as assignees. *)
Definition declaredAssignees (body : Validation.CreateTaskData)
    : list string :=
  default [] (Validation.ct_assigneeIds body).

(** Nothing but the task [tId] differs between the two databases, and of
    that task neither the project, nor the creator, nor the date of
    creation. *)
Definition sameButTask (tId : string) (db db' : DB) : Prop :=
  users db' = users db ∧ projects db' = projects db
  ∧ comments db' = comments db
  ∧ (∀ k, k ≠ tId → tasks db' !! k = tasks db !! k)
  ∧ option_Forall2
      (λ t' t, projectId t' = projectId t ∧ creatorId t' = creatorId t
               ∧ task_createdAt t' = task_createdAt t)
      (tasks db' !! tId) (tasks db !! tId).

(** ** Comments as they are written *)

Definition withComments (db : DB) (cs : gmap string Comment) : DB :=
  {| users := users db; projects := projects db; tasks := tasks db;
     comments := cs |}.

(** The comment [createComment] hands to [comment.create]. *)
Definition createdComment (u : AuthUser) (tId : string)
    (body : Validation.CommentData) (now : Z) : Comment :=
  {| content := from_option Js.trim "" (Validation.cm_content body);
     taskId := tId; authorId := auth_id u; createdAt := now |}.

(** The list a success of [getComments] carries. *)
Definition listed (r : Response) : option (list (string * Comment)) :=
  match r with
  | Success _ (DataComments l) _ => Some l
  | _ => None
  end.

(** Nothing but the comment [commentId] differs between the two
    databases, and of that comment nothing but the content. *)
Definition sameButContentOf (commentId : string) (db db' : DB) : Prop :=
  users db' = users db ∧ projects db' = projects db ∧ tasks db' = tasks db
  ∧ (∀ k, k ≠ commentId → comments db' !! k = comments db !! k)
  ∧ option_Forall2
      (λ c' c, taskId c' = taskId c ∧ authorId c' = authorId c
               ∧ createdAt c' = createdAt c)
      (comments db' !! commentId) (comments db !! commentId).

(** ** What holds of every database the routes build *)

(** Every task belongs to a project that exists, every comment to a task
    that exists. *)
Definition intact (db : DB) : Prop :=
  (∀ k t, tasks db !! k = Some t → is_Some (projects db !! projectId t))
  ∧ (∀ k c, comments db !! k = Some c → is_Some (tasks db !! taskId c)).

(** The length of the string lies between the two bounds. *)
Definition lengthWithin (lo hi : nat) (s : string) : Prop :=
  (lo ≤ String.length s ≤ hi)%nat.

(** A description is kept only when it is not empty. *)
Definition describedWithin (hi : nat) (o : option string) : Prop :=
  ∀ d, o = Some d → lengthWithin 1 hi d.

(** The stored texts are within the limits of the validation: names of
    projects 2 to 100, their descriptions to 500, titles of tasks 2 to
    200, their descriptions to 1000, comments 1 to 2000. *)
Definition withinLimits (db : DB) : Prop :=
  (∀ k p, projects db !! k = Some p →
          lengthWithin 2 100 (project_name p)
          ∧ describedWithin 500 (project_description p))
  ∧ (∀ k t, tasks db !! k = Some t →
            lengthWithin 2 200 (title t)
            ∧ describedWithin 1000 (description t))
  ∧ (∀ k c, comments db !! k = Some c → lengthWithin 1 2000 (content c)).

(** The databases the writing routes leave, on the same request data. *)
Definition written (dateToISOString : string → option string)
    (fails : TaskAssignments.RowWrite → bool)
    (user : option AuthUser) (id tId commentId userId newId : string)
    (now : Z)
    (newProject : Validation.CreateProjectData)
    (projectBody : Validation.UpdateProjectData)
    (contributorBody : ProjectController.AddContributorData)
    (newTask : Validation.CreateTaskData)
    (taskBody : Validation.UpdateTaskData)
    (commentBody : Validation.CommentData) (db : DB) : list DB :=
  snd <$>
    [ ProjectController.createProject user newProject newId db;
      ProjectController.updateProject user id projectBody db;
      ProjectController.deleteProject user id db;
      ProjectController.addContributor user id contributorBody db;
      ProjectController.removeContributor user id userId db;
      TaskController.createTask dateToISOString fails user id newTask newId
        now db;
      TaskController.updateTask dateToISOString fails user id tId taskBody
        now db;
      TaskController.deleteTask user id tId db;
      CommentController.createComment user id tId commentBody newId now db;
      CommentController.updateComment user id tId commentId commentBody db;
      CommentController.deleteComment user id tId commentId db ].

(** ** Listings *)

(** The task a view shows, with its id. *)
Definition shown (v : TaskView) : string * Task := (tv_id v, tv_task v).

(** The four statuses, as the enum lists them. *)
Definition allStatuses : list TaskStatus := [TODO; IN_PROGRESS; DONE; CANCELLED].

(** The count the object [byStatus] holds for a status: none when the
    key is missing. *)
Definition countOf (byStatus : TaskStatus → option nat) (s : TaskStatus)
    : nat :=
  default 0 (byStatus s).

(** ** Accounts *)

(** Every stored email is in lower case. *)
Definition lowerCaseEmails (acc : AuthController.Accounts) : Prop :=
  ∀ k usr, users (AuthController.acc_db acc) !! k = Some usr →
           Js.toLowerCase (user_email usr) = user_email usr.

(** No two rows hold the same email. *)
Definition distinctEmails (acc : AuthController.Accounts) : Prop :=
  ∀ k1 k2 u1 u2,
    users (AuthController.acc_db acc) !! k1 = Some u1 →
    users (AuthController.acc_db acc) !! k2 = Some u2 →
    user_email u1 = user_email u2 → k1 = k2.

(** The hash function recognises the passwords it has hashed. *)
Definition recognises (hash : string → string → string)
    (compare : string → string → bool) : Prop :=
  ∀ salt password, compare password (hash salt password) = true.

(** A session of [login]. *)
Definition loggedIn (generateToken : string → string → string)
    (userId : string) (usr : User) : Reply AuthController.Session :=
  Replied "Connexion réussie"
    {| AuthController.session_userId := userId;
       AuthController.session_user := usr;
       AuthController.session_token :=
         Some (generateToken userId (user_email usr)) |} 200.

(** Stand-ins for bcrypt and for the token issuer, for the examples: the
    hash of a password is the password. *)
Module Plain.

Definition hash (salt password : string) : string := password.

Definition compare (password hashed : string) : bool :=
  bool_decide (hashed = password).

Definition generateToken (userId email : string) : string :=
  userId ++ ":" ++ email.

(** The accounts of the fixture; every password is [Abricot2024]. *)
Definition accounts : AuthController.Accounts :=
  {| AuthController.acc_db := Fixture.db0;
     AuthController.acc_passwords :=
       list_to_map
         ((λ k, (k, hash "sel" "Abricot2024")) <$> ["u1"; "u2"; "u3"; "u4"])
  |}.

End Plain.

(** * Properties *)

(** ** Running a controller symbolically *)

Ltac run :=
  cbv [controller mbind mret Handler_bind Handler_ret get put send throw
       sendSuccess sendError sendValidationError sendServerError unless
       attempt authenticated from_option
       Permissions.hasProjectAccess Permissions.isProjectOwner
       Permissions.isProjectAdmin Permissions.canModifyProject
       Permissions.canDeleteProject Permissions.canCreateTasks
       Permissions.canModifyTasks Permissions.getUserProjectRole
       Prisma.setProjects Prisma.setTasks Prisma.setComments
       Prisma.user_findMany_emailIn Prisma.user_findUnique_email
       Prisma.project_findUnique Prisma.project_create Prisma.project_update
       Prisma.projectMember_findUnique Prisma.projectMember_create
       Prisma.projectMember_deleteMany
       Prisma.task_findFirst Prisma.task_findUnique Prisma.task_create
       Prisma.task_update
       Prisma.comment_findFirst Prisma.comment_findMany Prisma.comment_create
       Prisma.comment_update Prisma.comment_delete
       ProjectController.trimmed TaskController.parsed
       TaskController.taskView TaskAssignments.getTaskAssignments
       TaskComments.getTaskComments
       TaskAssignments.validateProjectMembers] in *.

(** Split on the scrutinee of a [match] that holds no [match] itself. *)
Ltac case_inner_match :=
  match goal with
  | |- context [match ?x with _ => _ end] =>
      lazymatch x with
      | context [match _ with _ => _ end] => fail
      | _ => destruct x eqn:?
      end
  end.

(** Unfold, compute, split on the next test; [tac] runs before each
    split, to close the branches that cannot be. *)
Ltac crunch_with tac :=
  repeat (run; simpl in *; simplify_eq; tac;
          first [ progress (rewrite ?andb_true_r, ?andb_false_r,
                              ?orb_false_r, ?orb_true_r in * )
                | case_bool_decide | case_inner_match | case_match ]);
  run; simpl in *; simplify_eq.

Ltac crunch := crunch_with idtac.

Lemma DB_eta (db : DB) :
  {| users := users db; projects := projects db; tasks := tasks db;
     comments := comments db |} = db.
Proof. by destruct db. Qed.

Lemma withMembers_same (p : Project) : Prisma.withMembers p (members p) = p.
Proof. by destruct p. Qed.


(** ** The permission predicates *)

Section PermissionFacts.

Import Permissions.

Variables (db : DB) (userId projId : string).

Lemma ownerOf_None : projects db !! projId = None → ownerOf db projId = None.
Proof. unfold ownerOf. by intros ->. Qed.

Lemma membershipOf_None :
  projects db !! projId = None → membershipOf db userId projId = None.
Proof. unfold membershipOf. by intros ->. Qed.

(** Every predicate reads the database and returns; here is what. *)
Lemma isProjectOwner_run :
  isProjectOwner userId projId db
  = (db, Next (bool_decide (ownerOf db projId = Some userId))).
Proof. reflexivity. Qed.

Lemma isProjectAdmin_run :
  isProjectAdmin userId projId db
  = (db, Next (bool_decide (membershipOf db userId projId = Some ADMIN))).
Proof. reflexivity. Qed.

Lemma hasProjectAccess_run :
  hasProjectAccess userId projId db
  = (db, Next (bool_decide (ownerOf db projId = Some userId)
               || bool_decide (is_Some (membershipOf db userId projId)))).
Proof. reflexivity. Qed.

Lemma canModifyProject_run :
  canModifyProject userId projId db
  = (db, Next (bool_decide (ownerOf db projId = Some userId)
               || bool_decide (membershipOf db userId projId = Some ADMIN))).
Proof. reflexivity. Qed.

Lemma getUserProjectRole_run :
  getUserProjectRole userId projId db
  = (db, Next (if bool_decide (ownerOf db projId = Some userId)
               then Some OWNER
               else MEMBER <$> membershipOf db userId projId)).
Proof. reflexivity. Qed.

End PermissionFacts.

(** C5. Every permission predicate returns a value on every user id and
    project id, without touching the database and without throwing; on a
    project that does not exist, and on a user who neither owns the
    project nor has a membership row in it, the boolean predicates return
    false and [getUserProjectRole] returns null. *)
Theorem permission_predicates_total_on_denial (db : DB) (userId projId : string) :
  let predicates :=
    [Permissions.hasProjectAccess; Permissions.isProjectOwner;
     Permissions.isProjectAdmin; Permissions.canModifyProject;
     Permissions.canDeleteProject; Permissions.canCreateTasks;
     Permissions.canModifyTasks] in
  let denied :=
    Forall (λ can : string → string → Handler bool,
              can userId projId db = (db, Next false)) predicates
    ∧ Permissions.getUserProjectRole userId projId db = (db, Next None) in
  Forall (λ can : string → string → Handler bool,
            ∃ b, can userId projId db = (db, Next b)) predicates
  ∧ (∃ r, Permissions.getUserProjectRole userId projId db = (db, Next r))
  ∧ (projects db !! projId = None → denied)
  ∧ (Permissions.ownerOf db projId ≠ Some userId
     → Permissions.membershipOf db userId projId = None → denied).
Proof.
  assert (Hdenied :
    Permissions.ownerOf db projId ≠ Some userId
    → Permissions.membershipOf db userId projId = None
    → Forall (λ can : string → string → Handler bool,
                can userId projId db = (db, Next false))
        [Permissions.hasProjectAccess; Permissions.isProjectOwner;
         Permissions.isProjectAdmin; Permissions.canModifyProject;
         Permissions.canDeleteProject; Permissions.canCreateTasks;
         Permissions.canModifyTasks]
      ∧ Permissions.getUserProjectRole userId projId db = (db, Next None)).
  { intros Ho Hm. split.
    - rewrite !Forall_cons, Forall_nil.
      unfold Permissions.canDeleteProject, Permissions.canCreateTasks,
        Permissions.canModifyTasks.
      rewrite hasProjectAccess_run, isProjectOwner_run, isProjectAdmin_run,
        canModifyProject_run, Hm.
      rewrite !bool_decide_eq_false_2; try done.
    - rewrite getUserProjectRole_run, Hm.
      by rewrite bool_decide_eq_false_2. }
  cbv zeta. split_and!.
  - rewrite !Forall_cons, Forall_nil. split_and!; try done; eexists; reflexivity.
  - eexists; reflexivity.
  - intros Hp. apply Hdenied.
    + by rewrite ownerOf_None.
    + by apply membershipOf_None.
  - exact Hdenied.
Qed.

Lemma permission_predicates_total_on_denial_witness :
  Permissions.ownerOf Fixture.db0 "p1" ≠ Some "u4"
  ∧ Permissions.membershipOf Fixture.db0 "u4" "p1" = None
  ∧ Permissions.hasProjectAccess "u4" "p1" Fixture.db0
    = (Fixture.db0, Next false)
  ∧ Permissions.getUserProjectRole "u4" "nowhere" Fixture.db0
    = (Fixture.db0, Next None).
Proof.
  assert (Ho : Permissions.ownerOf Fixture.db0 "p1" ≠ Some "u4")
    by (vm_compute; discriminate).
  assert (Hm : Permissions.membershipOf Fixture.db0 "u4" "p1" = None)
    by reflexivity.
  split_and!; [exact Ho | exact Hm | |].
  - destruct (permission_predicates_total_on_denial Fixture.db0 "u4" "p1")
      as (_ & _ & _ & Hrel).
    destruct (Hrel Ho Hm) as [Hall _].
    exact (Forall_inv Hall).
  - destruct (permission_predicates_total_on_denial Fixture.db0 "u4" "nowhere")
      as (_ & _ & Hmissing & _).
    exact (proj2 (Hmissing eq_refl)).
Defined.

(** ** Contributors *)

Section Contributors.

Import Permissions ProjectController.


Lemma removeContributor_forbidden db u id userId :
  ownerOf db id ≠ Some (auth_id u) →
  membershipOf db (auth_id u) id ≠ Some ADMIN →
  removeContributor (Some u) id userId db
  = (Failure "Vous n'avez pas les permissions pour modifier ce projet"
       "FORBIDDEN" 403, db).
Proof. intros Ho Ha. unfold removeContributor. by crunch. Qed.

Lemma removeContributor_owner_self db u id :
  ownerOf db id = Some (auth_id u) →
  removeContributor (Some u) id (auth_id u) db
  = (Failure "Le propriétaire du projet ne peut pas se retirer"
       "CANNOT_REMOVE_OWNER" 400, db).
Proof. intros Ho. unfold removeContributor. by crunch. Qed.

(** Past the two guards the rows of [(userId, id)] are deleted. *)
Lemma removeContributor_deletes db u id userId :
  mayModify db u id →
  ¬ (ownerOf db id = Some (auth_id u) ∧ auth_id u = userId) →
  removeContributor (Some u) id userId db
  = (Success "Contributeur retiré avec succès" DataNone 200,
     (Prisma.projectMember_deleteMany userId id db).1).
Proof.
  intros Hmay Hself. unfold removeContributor, mayModify in *.
  crunch; tauto.
Qed.

Lemma deleteMany_owner_kept db userId id :
  ownerOf (Prisma.projectMember_deleteMany userId id db).1 id
  = ownerOf db id.
Proof.
  unfold ownerOf. run. destruct (projects db !! id) eqn:Hp; simpl.
  - by rewrite lookup_insert_eq.
  - by rewrite Hp.
Qed.

Lemma deleteMany_absent db userId id :
  membershipOf db userId id = None →
  (Prisma.projectMember_deleteMany userId id db).1 = db.
Proof.
  unfold membershipOf. run. destruct (projects db !! id) eqn:Hp; simpl.
  - intros Hm. rewrite delete_id by done.
    rewrite withMembers_same, insert_id by done. apply DB_eta.
  - done.
Qed.

End Contributors.

(** C1, as the code has it. A call to [removeContributor] whose target is
    the project's owner fails with CANNOT_REMOVE_OWNER when the caller is
    that owner; it fails with FORBIDDEN when the caller is neither the
    owner nor an administrator; it reports success when the caller is an
    administrator. In every case the project keeps its owner. *)
Theorem removeContributor_of_owner (db : DB) (u : AuthUser)
    (id owner : string) :
  Permissions.ownerOf db id = Some owner →
  let res := ProjectController.removeContributor (Some u) id owner db in
  (auth_id u = owner →
     res = (Failure "Le propriétaire du projet ne peut pas se retirer"
              "CANNOT_REMOVE_OWNER" 400, db))
  ∧ (auth_id u ≠ owner →
     Permissions.membershipOf db (auth_id u) id ≠ Some ADMIN →
     res = (Failure "Vous n'avez pas les permissions pour modifier ce projet"
              "FORBIDDEN" 403, db))
  ∧ (auth_id u ≠ owner →
     Permissions.membershipOf db (auth_id u) id = Some ADMIN →
     res.1 = Success "Contributeur retiré avec succès" DataNone 200)
  ∧ Permissions.ownerOf res.2 id = Some owner.
Proof.
  intros Ho res.
  assert (H1 : auth_id u = owner →
     res = (Failure "Le propriétaire du projet ne peut pas se retirer"
              "CANNOT_REMOVE_OWNER" 400, db)).
  { intros <-. by apply removeContributor_owner_self. }
  assert (H2 : auth_id u ≠ owner →
     Permissions.membershipOf db (auth_id u) id ≠ Some ADMIN →
     res = (Failure "Vous n'avez pas les permissions pour modifier ce projet"
              "FORBIDDEN" 403, db)).
  { intros Hne Ha. apply removeContributor_forbidden; [congruence | done]. }
  assert (H3 : auth_id u ≠ owner →
     Permissions.membershipOf db (auth_id u) id = Some ADMIN →
     res = (Success "Contributeur retiré avec succès" DataNone 200,
            (Prisma.projectMember_deleteMany owner id db).1)).
  { intros Hne Ha. apply removeContributor_deletes; [by right | tauto]. }
  split_and!; [done | done | by intros Hne Ha; rewrite H3 | ].
  destruct (decide (auth_id u = owner)) as [He|Hne].
  - by rewrite (H1 He).
  - destruct (decide (Permissions.membershipOf db (auth_id u) id = Some ADMIN))
      as [Ha|Ha].
    + rewrite (H3 Hne Ha). simpl. by rewrite deleteMany_owner_kept.
    + by rewrite (H2 Hne Ha).
Qed.

Lemma removeContributor_of_owner_witness :
  Permissions.ownerOf Fixture.db0 "p1" = Some "u1"
  ∧ ProjectController.removeContributor (Some Fixture.alice) "p1" "u1"
      Fixture.db0
    = (Failure "Le propriétaire du projet ne peut pas se retirer"
         "CANNOT_REMOVE_OWNER" 400, Fixture.db0).
Proof.
  split; [reflexivity |].
  exact (proj1 (removeContributor_of_owner Fixture.db0 Fixture.alice "p1" "u1"
                  eq_refl) eq_refl).
Defined.

(** C1, as stated, fails: Bob administers the project that Alice owns,
    asks to remove Alice, and is answered with a success, not with
    CANNOT_REMOVE_OWNER. *)
Lemma removeContributor_owner_by_admin :
  Permissions.ownerOf Fixture.db0 "p1" = Some "u1"
  ∧ Permissions.membershipOf Fixture.db0 "u2" "p1" = Some ADMIN
  ∧ ProjectController.removeContributor (Some Fixture.bob) "p1" "u1"
      Fixture.db0
    = (Success "Contributeur retiré avec succès" DataNone 200, Fixture.db0).
Proof. split_and!; [reflexivity | reflexivity | by vm_compute]. Qed.

(** C6. For a caller who may modify the project (its owner or one of its
    administrators): removing a user who is not a member of the project,
    neither its owner nor the holder of a membership row, answers with a
    success and leaves the database as it was; adding a user who already
    has a membership row answers with the conflict USER_ALREADY_MEMBER,
    status 409, and leaves the database as it was. *)
Theorem contributor_removal_noop_and_readd_conflict (db : DB) (u : AuthUser)
    (id : string) :
  mayModify db u id →
  (∀ userId,
     Permissions.membershipOf db userId id = None →
     Permissions.ownerOf db id ≠ Some userId →
     ProjectController.removeContributor (Some u) id userId db
     = (Success "Contributeur retiré avec succès" DataNone 200, db))
  ∧ (∀ body email target,
       ProjectController.ac_email body = Some email →
       Prisma.userByEmail db (Js.toLowerCase email) = Some target →
       is_Some (Permissions.membershipOf db target.1 id) →
       ProjectController.addContributor (Some u) id body db
       = (Failure "L'utilisateur est déjà membre de ce projet"
            "USER_ALREADY_MEMBER" 409, db)).
Proof.
  intros Hmay. split.
  - intros userId Hm Ho.
    rewrite removeContributor_deletes; [| done | intros [? <-]; congruence].
    by rewrite deleteMany_absent.
  - intros body email target He Hu [r Hr].
    unfold ProjectController.addContributor, mayModify in *.
    destruct body as [? role]; simpl in *; simplify_eq.
    unfold Permissions.membershipOf in Hr.
    crunch; tauto.
Qed.

Lemma contributor_removal_noop_and_readd_conflict_witness :
  mayModify Fixture.db0 Fixture.bob "p1"
  ∧ ProjectController.removeContributor (Some Fixture.bob) "p1" "u4"
      Fixture.db0
    = (Success "Contributeur retiré avec succès" DataNone 200, Fixture.db0)
  ∧ ProjectController.addContributor (Some Fixture.bob) "p1"
      {| ProjectController.ac_email := Some "Caroline@Example.com";
         ProjectController.ac_role := None |} Fixture.db0
    = (Failure "L'utilisateur est déjà membre de ce projet"
         "USER_ALREADY_MEMBER" 409, Fixture.db0).
Proof.
  assert (Hmay : mayModify Fixture.db0 Fixture.bob "p1") by (by right).
  destruct (contributor_removal_noop_and_readd_conflict
              Fixture.db0 Fixture.bob "p1" Hmay) as [Hrem Hadd].
  split_and!; [exact Hmay | |].
  - apply Hrem; [reflexivity | vm_compute; discriminate].
  - apply (Hadd _ "Caroline@Example.com"
             ("u3", {| user_email := "caroline@example.com";
                       user_name := None |}));
      [reflexivity | by vm_compute | by eexists].
Defined.

(** ** Contributors and the project itself *)

Section ProjectUpdate.

Import Permissions ProjectController Validation.


Local Opaque validateUpdateProjectData.

Lemma updateProject_denied db u id body :
  ownerOf db id ≠ Some (auth_id u) →
  membershipOf db (auth_id u) id ≠ Some ADMIN →
  let res := updateProject (Some u) id body db in
  isSuccess res.1 = false ∧ res.2 = db
  ∧ (validProjectUpdate body →
     res.1 = Failure "Vous n'avez pas les permissions pour modifier ce projet"
               "FORBIDDEN" 403).
Proof.
  intros Ho Ha. unfold updateProject, validProjectUpdate.
  crunch; split_and!; try done.
  intros Hv. by rewrite Hv in *.
Qed.

Lemma updateProject_owner db u id body :
  ownerOf db id = Some (auth_id u) →
  validProjectUpdate body →
  isSuccess (updateProject (Some u) id body db).1 = true.
Proof.
  intros Ho Hv. unfold updateProject, validProjectUpdate, ownerOf in *.
  rewrite Hv. crunch; done.
Qed.

End ProjectUpdate.

(** C4, as the specification's table and the code have it. For every user
    who holds a CONTRIBUTOR membership row of a project and is not the
    owner of that project, [canModifyProject] and [canDeleteProject]
    return false while [hasProjectAccess], [canCreateTasks] and
    [canModifyTasks] return true; that user's [updateProject] never
    succeeds and never writes, and is answered FORBIDDEN when the data
    are valid, while the owner's attempt with the same data succeeds. *)
Theorem contributor_cannot_modify_project (db : DB) (userId projId : string) :
  Permissions.membershipOf db userId projId = Some CONTRIBUTOR →
  Permissions.ownerOf db projId ≠ Some userId →
  Permissions.canModifyProject userId projId db = (db, Next false)
  ∧ Permissions.canDeleteProject userId projId db = (db, Next false)
  ∧ Permissions.hasProjectAccess userId projId db = (db, Next true)
  ∧ Permissions.canCreateTasks userId projId db = (db, Next true)
  ∧ Permissions.canModifyTasks userId projId db = (db, Next true)
  ∧ ∀ (contributor owner : AuthUser) body,
      auth_id contributor = userId →
      Permissions.ownerOf db projId = Some (auth_id owner) →
      validProjectUpdate body →
      ProjectController.updateProject (Some contributor) projId body db
      = (Failure "Vous n'avez pas les permissions pour modifier ce projet"
           "FORBIDDEN" 403, db)
      ∧ isSuccess
          (ProjectController.updateProject (Some owner) projId body db).1
        = true.
Proof.
  intros Hm Ho.
  unfold Permissions.canDeleteProject, Permissions.canCreateTasks,
    Permissions.canModifyTasks.
  rewrite hasProjectAccess_run, isProjectOwner_run, canModifyProject_run, Hm.
  rewrite !bool_decide_eq_false_2 by done.
  rewrite bool_decide_eq_true_2 by (by eexists).
  split_and!; try reflexivity.
  intros contributor owner body <- Howner Hv. split.
  - destruct (updateProject_denied db contributor projId body)
      as (_ & Hdb & Hcode); [done | by rewrite Hm |].
    specialize (Hcode Hv).
    destruct (ProjectController.updateProject _ _ _ _); simpl in *.
    by subst.
  - by apply updateProject_owner.
Qed.

Lemma contributor_cannot_modify_project_witness :
  Permissions.canModifyProject "u3" "p1" Fixture.db0
  = (Fixture.db0, Next false)
  ∧ ProjectController.updateProject (Some Fixture.caroline) "p1"
      {| Validation.up_name := Some "Abricotier";
         Validation.up_description := None;
         Validation.up_contributors := None |} Fixture.db0
    = (Failure "Vous n'avez pas les permissions pour modifier ce projet"
         "FORBIDDEN" 403, Fixture.db0)
  ∧ isSuccess
      (ProjectController.updateProject (Some Fixture.alice) "p1"
         {| Validation.up_name := Some "Abricotier";
            Validation.up_description := None;
            Validation.up_contributors := None |} Fixture.db0).1 = true.
Proof.
  assert (Ho : Permissions.ownerOf Fixture.db0 "p1" ≠ Some "u3")
    by (vm_compute; discriminate).
  destruct (contributor_cannot_modify_project Fixture.db0 "u3" "p1"
              eq_refl Ho) as (Hmod & _ & _ & _ & _ & Hupd).
  split; [exact Hmod |].
  apply (Hupd Fixture.caroline Fixture.alice); reflexivity.
Defined.

(** C4, as stated, fails on a project whose owner also holds a
    CONTRIBUTOR row. [createProject] writes such a row when the creator
    lists their own email among the contributors; the owner check of the
    predicates then answers true. *)
Lemma contributor_row_of_owner :
  let db :=
    (ProjectController.createProject (Some Fixture.alice)
       {| Validation.cp_name := Some "Verger";
          Validation.cp_description := None;
          Validation.cp_contributors := Some ["alice@example.com"] |}
       "p2" Fixture.db0).2 in
  Permissions.membershipOf db "u1" "p2" = Some CONTRIBUTOR
  ∧ Permissions.canModifyProject "u1" "p2" db = (db, Next true)
  ∧ Permissions.canDeleteProject "u1" "p2" db = (db, Next true).
Proof. by vm_compute. Qed.

(** ** Comments *)

Section CommentRules.

Import Permissions CommentController Validation.


Lemma hasAccess_run db u id :
  hasProjectAccess (auth_id u) id db
  = (db, Next (bool_decide (hasAccess db u id))).
Proof.
  rewrite hasProjectAccess_run. do 2 f_equal. unfold hasAccess.
  repeat case_bool_decide; simpl; tauto.
Qed.

Lemma findComment_Some db cId tId id c :
  Prisma.findComment db cId tId id = Some c →
  comments db !! cId = Some c.
Proof. unfold Prisma.findComment. intros. by repeat case_match. Qed.

Local Opaque validateUpdateCommentData.

Lemma updateComment_success db user id tId cId body c :
  Prisma.findComment db cId tId id = Some c →
  isSuccess (updateComment user id tId cId body db).1 = true
  ↔ ∃ u, user = Some u ∧ validateUpdateCommentData body = []
         ∧ hasAccess db u id ∧ authorId c = auth_id u.
Proof.
  intros Hc. pose proof (findComment_Some _ _ _ _ _ Hc) as Hl.
  unfold updateComment, hasAccess.
  destruct user as [u|]; [| split; [done | by intros (? & ? & _)]].
  destruct (decide (validateUpdateCommentData body = [])) as [Hv|Hv].
  - assert (is_Some (cm_content body)) as [s Hs].
    { Local Transparent validateUpdateCommentData.
      unfold validateUpdateCommentData, contentErrors in Hv.
      destruct (cm_content body); [by eexists | discriminate]. }
    Local Opaque validateUpdateCommentData.
    rewrite Hv. destruct body; simpl in *; subst.
    crunch; try congruence; split; try done; try naive_solver;
      intros _; eexists; split_and!; try done; tauto.
  - crunch; split; try done; try naive_solver.
    all: destruct (validateUpdateCommentData body); naive_solver.
Qed.

Lemma updateComment_other_forbidden db u id tId cId body c :
  Prisma.findComment db cId tId id = Some c →
  authorId c ≠ auth_id u →
  validateUpdateCommentData body = [] →
  errorCode (updateComment (Some u) id tId cId body db).1
  = Some "FORBIDDEN".
Proof.
  intros Hc Ha Hv. unfold updateComment. rewrite Hv. crunch; done.
Qed.

Lemma deleteComment_success db user id tId cId c :
  Prisma.findComment db cId tId id = Some c →
  isSuccess (deleteComment user id tId cId db).1 = true
  ↔ ∃ u, user = Some u ∧ hasAccess db u id
         ∧ (authorId c = auth_id u
            ∨ canModifyTasks (auth_id u) id db = (db, Next true)).
Proof.
  intros Hc. pose proof (findComment_Some _ _ _ _ _ Hc) as Hl.
  unfold deleteComment, hasAccess, canModifyTasks.
  destruct user as [u|]; [| split; [done | by intros (? & ? & _)]].
  crunch; try congruence; split; try done; try naive_solver.
  all: intros _; eexists; split_and!; try done; try tauto.
  all: right; do 2 f_equal; repeat case_bool_decide; simpl; tauto.
Qed.

End CommentRules.

(** C7, as the code has it. For every existing comment: [updateComment]
    succeeds only when the caller is the author of the comment, and an
    authenticated caller who is not the author and sends valid content is
    answered FORBIDDEN; [deleteComment] succeeds exactly when the caller
    has access to the project of the comment and either is the author or
    [canModifyTasks] holds for the caller on that project. *)
Theorem comment_mutation_rules (db : DB) (user : option AuthUser)
    (id tId cId : string) (c : Comment) :
  Prisma.findComment db cId tId id = Some c →
  (∀ body,
     isSuccess (CommentController.updateComment user id tId cId body db).1
     = true →
     ∃ u, user = Some u ∧ authorId c = auth_id u)
  ∧ (∀ u body,
       user = Some u → authorId c ≠ auth_id u →
       Validation.validateUpdateCommentData body = [] →
       errorCode (CommentController.updateComment user id tId cId body db).1
       = Some "FORBIDDEN")
  ∧ (isSuccess (CommentController.deleteComment user id tId cId db).1 = true
     ↔ ∃ u, user = Some u ∧ hasAccess db u id
            ∧ (authorId c = auth_id u
               ∨ Permissions.canModifyTasks (auth_id u) id db
                 = (db, Next true))).
Proof.
  intros Hc. split_and!.
  - intros body Hs.
    apply (updateComment_success _ _ _ _ _ _ _ Hc) in Hs
      as (u & -> & _ & _ & Ha).
    by exists u.
  - intros u body -> Ha Hv. by apply updateComment_other_forbidden with c.
  - by apply deleteComment_success.
Qed.

Lemma comment_mutation_rules_witness :
  Prisma.findComment Fixture.db0 "c1" "t1" "p1"
  = Some {| content := "Premier"; taskId := "t1"; authorId := "u3";
            createdAt := 20 |}
  ∧ errorCode
      (CommentController.updateComment (Some Fixture.bob) "p1" "t1" "c1"
         {| Validation.cm_content := Some "Corrigé" |} Fixture.db0).1
    = Some "FORBIDDEN"
  ∧ isSuccess
      (CommentController.deleteComment (Some Fixture.bob) "p1" "t1" "c1"
         Fixture.db0).1 = true.
Proof.
  assert (Hc : Prisma.findComment Fixture.db0 "c1" "t1" "p1"
               = Some {| content := "Premier"; taskId := "t1";
                         authorId := "u3"; createdAt := 20 |})
    by reflexivity.
  destruct (comment_mutation_rules Fixture.db0 (Some Fixture.bob)
              "p1" "t1" "c1" _ Hc) as (_ & Hupd & Hdel).
  split_and!; [exact Hc | |].
  - apply (Hupd Fixture.bob); [reflexivity | discriminate | reflexivity].
  - apply Hdel. exists Fixture.bob.
    split_and!; [reflexivity | right; by eexists | right; reflexivity].
Defined.

(** C7, as stated, fails for an author who has lost access to the
    project. Bob adds David as a contributor, David comments on the task,
    Bob removes David; David, still the author, may not delete his own
    comment. *)
Lemma deleteComment_author_without_access :
  let db1 :=
    (ProjectController.addContributor (Some Fixture.bob) "p1"
       {| ProjectController.ac_email := Some "david@example.com";
          ProjectController.ac_role := None |} Fixture.db0).2 in
  let db2 :=
    (CommentController.createComment (Some Fixture.david) "p1" "t1"
       {| Validation.cm_content := Some "Bonjour" |} "c3" 40 db1).2 in
  let db3 :=
    (ProjectController.removeContributor (Some Fixture.bob) "p1" "u4" db2).2 in
  (authorId <$> Prisma.findComment db3 "c3" "t1" "p1") = Some "u4"
  ∧ CommentController.deleteComment (Some Fixture.david) "p1" "t1" "c3" db3
    = (Failure "Accès refusé au projet" "FORBIDDEN" 403, db3).
Proof. by vm_compute. Qed.

(** ** The order of comments *)

Section CommentOrder.

Import Prisma.

Global Instance oldestFirst_trans : Transitive oldestFirst.
Proof. unfold oldestFirst. intros x y z. lia. Qed.
Global Instance oldestFirst_total : Total oldestFirst.
Proof. unfold oldestFirst. intros x y. lia. Qed.
Global Instance newestFirst_trans : Transitive newestFirst.
Proof. unfold newestFirst. intros x y z. lia. Qed.
Global Instance newestFirst_total : Total newestFirst.
Proof. unfold newestFirst. intros x y. lia. Qed.


Lemma commentsOf_ordered order `{!RelDecision order}
    `{!Transitive order} `{!Total order} db tId :
  orderedCommentsOf order db tId (commentsOf db tId order).
Proof.
  split.
  - by apply StronglySorted_merge_sort.
  - apply merge_sort_Permutation.
Qed.

Lemma getComments_ordered db user id tId msg l st db' :
  CommentController.getComments user id tId db
  = (Success msg (DataComments l) st, db') →
  orderedCommentsOf oldestFirst db tId l.
Proof.
  unfold CommentController.getComments.
  crunch; intros; simplify_eq; apply commentsOf_ordered; apply _.
Qed.

Lemma getTask_ordered db user id tId msg tv st db' :
  TaskController.getTask user id tId db
  = (Success msg (DataTask tv) st, db') →
  tv_id tv = tId ∧ orderedCommentsOf oldestFirst db tId (tv_comments tv).
Proof.
  unfold TaskController.getTask, TaskController.taskView,
    TaskComments.getTaskComments, TaskAssignments.getTaskAssignments.
  crunch; intros; simplify_eq.
  all: split; [done |]; apply commentsOf_ordered; apply _.
Qed.

Lemma getProject_ordered db user id msg id' p tvs n role st db' :
  ProjectController.getProject user id db
  = (Success msg (DataProjectDetail id' p tvs n role) st, db') →
  Forall (λ tv, orderedCommentsOf newestFirst db (tv_id tv) (tv_comments tv))
    tvs.
Proof.
  unfold ProjectController.getProject. crunch; intros; simplify_eq.
  all: unfold ProjectController.projectTasks;
    apply Forall_fmap, Forall_forall; intros [??] _; simpl;
    apply commentsOf_ordered; apply _.
Qed.

End CommentOrder.

(** C8, as the code has it. The comment listing ([getComments]) and the
    single-task retrieval ([getTask], through [getTaskComments]) return the
    comments of the task ordered by creation time ascending; the project
    retrieval with embedded tasks ([getProject]) returns the comments of
    each task ordered by creation time descending. *)
Theorem comments_display_order (db : DB) (user : option AuthUser)
    (id tId : string) :
  (∀ msg l st db',
     CommentController.getComments user id tId db
     = (Success msg (DataComments l) st, db') →
     orderedCommentsOf Prisma.oldestFirst db tId l)
  ∧ (∀ msg tv st db',
       TaskController.getTask user id tId db
       = (Success msg (DataTask tv) st, db') →
       orderedCommentsOf Prisma.oldestFirst db tId (tv_comments tv))
  ∧ (∀ msg id' p tvs n role st db',
       ProjectController.getProject user id db
       = (Success msg (DataProjectDetail id' p tvs n role) st, db') →
       Forall (λ tv, orderedCommentsOf Prisma.newestFirst db (tv_id tv)
                       (tv_comments tv)) tvs).
Proof.
  split_and!.
  - intros. by eapply getComments_ordered.
  - intros * H. by apply getTask_ordered in H as [_ ?].
  - intros. by eapply getProject_ordered.
Qed.

Lemma comments_display_order_witness :
  ∃ l, CommentController.getComments (Some Fixture.caroline) "p1" "t1"
         Fixture.db0
       = (Success "Commentaires récupérés avec succès" (DataComments l) 200,
          Fixture.db0)
       ∧ l.*1 = ["c1"; "c2"]
       ∧ orderedCommentsOf Prisma.oldestFirst Fixture.db0 "t1" l.
Proof.
  eexists. split; [by vm_compute |]. split; [reflexivity |].
  eapply (proj1 (comments_display_order Fixture.db0 (Some Fixture.caroline)
                   "p1" "t1")).
  by vm_compute.
Defined.

(** C8, as stated, fails for the project retrieval: Alice reads her
    project and receives the comments of its task newest first, the one
    created at 30 before the one created at 20. *)
Lemma getProject_comments_newest_first :
  ∃ p tv n role,
    ProjectController.getProject (Some Fixture.alice) "p1" Fixture.db0
    = (Success "Projet récupéré avec succès"
         (DataProjectDetail "p1" p [tv] n role) 200, Fixture.db0)
    ∧ (λ c, createdAt c.2) <$> tv_comments tv = [30%Z; 20%Z]
    ∧ ¬ Sorted Prisma.oldestFirst (tv_comments tv).
Proof.
  do 4 eexists. split; [by vm_compute |]. split; [reflexivity |].
  intros Hs. apply Sorted_inv in Hs as [_ Hd].
  apply HdRel_inv in Hd. unfold Prisma.oldestFirst in Hd. simpl in Hd. lia.
Qed.

(** ** Creating a project with contributors *)

Section CreateProject.

Import Permissions ProjectController Validation.


(** A refused insertion inside [try]/[catch] changes nothing and lets
    the loop go on. *)
Lemma attempt_create_duplicate db userId projId :
  is_Some (membershipOf db userId projId) →
  attempt (Prisma.projectMember_create userId projId CONTRIBUTOR) db
  = (db, Next ()).
Proof.
  unfold membershipOf. intros [r Hr]. run.
  destruct (projects db !! projId) as [p|]; simpl in *; [| done].
  by rewrite Hr.
Qed.

(** The loop over the users found: each one without a row gets a
    CONTRIBUTOR row, the others are passed over. *)
Lemma forEach_create_members newId (l : list (string * User)) :
  ∀ db p,
    projects db !! newId = Some p →
    ∃ ms,
      forEach l (λ user,
        attempt (Prisma.projectMember_create user.1 newId CONTRIBUTOR)) db
      = (withProjects db (<[newId := Prisma.withMembers p ms]> (projects db)),
         Next ())
      ∧ ∀ x, ms !! x
             = match members p !! x with
               | Some r => Some r
               | None => if bool_decide (x ∈ l.*1) then Some CONTRIBUTOR
                         else None
               end.
Proof.
  induction l as [|a l IH]; intros db p Hp.
  - exists (members p). split.
    + simpl. run. rewrite withMembers_same, insert_id by done.
      unfold withProjects. by rewrite DB_eta.
    + intros x. by destruct (members p !! x).
  - cbn [forEach]. cbv [mbind Handler_bind].
    destruct (members p !! a.1) as [r|] eqn:Ha.
    + rewrite attempt_create_duplicate
        by (unfold membershipOf; rewrite Hp; simpl; by eexists).
      destruct (IH db p Hp) as (ms & -> & Hms).
      exists ms. split; [done |].
      intros x. rewrite Hms. destruct (members p !! x) eqn:Hx; [done |].
      rewrite ?fmap_cons. repeat case_bool_decide; set_solver.
    + set (p1 := Prisma.withMembers p (<[a.1 := CONTRIBUTOR]> (members p))).
      set (db1 := withProjects db (<[newId := p1]> (projects db))).
      replace (attempt (Prisma.projectMember_create a.1 newId CONTRIBUTOR) db)
        with (db1, Next ()) by (run; rewrite Hp; simpl; by rewrite Ha).
      destruct (IH db1 p1) as (ms & -> & Hms);
        [by apply lookup_insert_eq |].
      exists ms. split.
      * unfold db1, withProjects; simpl. by rewrite insert_insert_eq.
      * intros x. rewrite Hms. simpl. rewrite ?fmap_cons.
        destruct (decide (x = a.1)) as [->|Hne].
        -- rewrite lookup_insert_eq, Ha.
           rewrite bool_decide_eq_true_2 by set_solver. done.
        -- rewrite lookup_insert_ne by done.
           destruct (members p !! x); [done |].
           repeat case_bool_decide; set_solver.
Qed.


Lemma valid_project_has_name body :
  validateCreateProjectData body = [] → is_Some (cp_name body).
Proof.
  unfold validateCreateProjectData.
  destruct (cp_name body); [by eexists | discriminate].
Qed.




End CreateProject.



(** ** Reconciling the assignees of a task *)

Section Reconciliation.

Import TaskAssignments.

Variable now : Z.


Lemma writeAll_cons w ws rows :
  writeAll now (w :: ws) rows = writeAll now ws (write now w rows).
Proof. reflexivity. Qed.

Lemma writeAll_app ws1 ws2 rows :
  writeAll now (ws1 ++ ws2) rows = writeAll now ws2 (writeAll now ws1 rows).
Proof. apply foldl_app. Qed.

Lemma writeAll_delete ks rows u :
  writeAll now (DeleteRow <$> ks) rows !! u
  = if bool_decide (u ∈ ks) then None else rows !! u.
Proof.
  revert rows. induction ks as [|k ks IH]; intros rows.
  - case_bool_decide; [set_solver | done].
  - rewrite fmap_cons, writeAll_cons, IH. cbn [write].
    destruct (decide (u = k)) as [->|Hne].
    + rewrite lookup_delete_eq. repeat case_bool_decide; set_solver.
    + rewrite lookup_delete_ne by done. repeat case_bool_decide; set_solver.
Qed.

Lemma writeAll_create ks rows u :
  writeAll now (CreateRow <$> ks) rows !! u
  = if bool_decide (u ∈ ks) then Some now else rows !! u.
Proof.
  revert rows. induction ks as [|k ks IH]; intros rows.
  - case_bool_decide; [set_solver | done].
  - rewrite fmap_cons, writeAll_cons, IH. cbn [write].
    destruct (decide (u = k)) as [->|Hne].
    + rewrite lookup_insert_eq. repeat case_bool_decide; set_solver.
    + rewrite lookup_insert_ne by done. repeat case_bool_decide; set_solver.
Qed.

Lemma reconcile_replaces existing declared :
  replacedBy now declared existing
    (writeAll now (reconcile existing declared) existing).
Proof.
  intros u. unfold reconcile.
  rewrite writeAll_app, writeAll_create, writeAll_delete.
  assert (u ∈ filter (λ u, u ∉ declared) (map_to_list existing).*1
          ↔ (u ∉ declared) ∧ is_Some (existing !! u)) as Hdel.
  { rewrite list_elem_of_filter, list_elem_of_fmap. split.
    - intros (? & [k z] & -> & Hin). split; [done |].
      apply elem_of_map_to_list in Hin. by eexists.
    - intros (? & z & Hz). split; [done |]. exists (u, z).
      split; [done |]. by apply elem_of_map_to_list. }
  assert (u ∈ filter (λ u, existing !! u = None) (remove_dups declared)
          ↔ existing !! u = None ∧ u ∈ declared) as Hadd.
  { by rewrite list_elem_of_filter, elem_of_remove_dups. }
  destruct (existing !! u) as [z|] eqn:Hu; simpl;
    repeat case_bool_decide; try done; exfalso.
  all: rewrite ?Hdel, ?Hadd in *; naive_solver.
Qed.

Lemma replacedBy_dom declared before after :
  replacedBy now declared before after →
  dom after = list_to_set declared.
Proof.
  intros H. apply set_eq. intros u.
  rewrite elem_of_dom, elem_of_list_to_set, H.
  case_bool_decide; split; try done; by intros [? ?].
Qed.


Lemma withAssignees_same t : withAssignees t (assignees t) = t.
Proof. by destruct t. Qed.

Variable fails : RowWrite → bool.
Variable tId : string.


Lemma writeRow_run w db t :
  tasks db !! tId = Some t →
  writeRow fails now tId w db
  = if fails w then (db, Thrown)
    else (withTasks db
            (<[tId := withAssignees t (write now w (assignees t))]>
               (tasks db)), Next ()).
Proof.
  intros Ht. unfold writeRow. destruct (fails w); [done |].
  run. by rewrite Ht.
Qed.

Lemma forEach_writeRow ws :
  ∀ db t,
    tasks db !! tId = Some t →
    if accepted fails ws
    then forEach ws (writeRow fails now tId) db
         = (withTasks db
              (<[tId := withAssignees t (writeAll now ws (assignees t))]>
                 (tasks db)), Next ())
    else ∃ db', forEach ws (writeRow fails now tId) db = (db', Thrown).
Proof.
  induction ws as [|w ws IH]; intros db t Ht.
  - cbn [accepted forallb forEach]. run.
    cbn [writeAll foldl]. rewrite withAssignees_same, insert_id by done.
    unfold withTasks. by rewrite DB_eta.
  - cbn [accepted forallb forEach]. cbv [mbind Handler_bind].
    rewrite (writeRow_run w db t Ht). destruct (fails w) eqn:Hw.
    + by eexists.
    + set (t1 := withAssignees t (write now w (assignees t))).
      set (db1 := withTasks db (<[tId := t1]> (tasks db))).
      specialize (IH db1 t1 (lookup_insert_eq _ _ _)).
      cbn [negb andb]. fold (accepted fails ws). destruct (accepted fails ws).
      * rewrite IH. unfold withTasks, db1; simpl.
        by rewrite insert_insert_eq.
      * destruct IH as [db' ->]. by eexists.
Qed.

(** The reconciliation either commits the declared set or leaves the
    database as it was. *)
Lemma updateTaskAssignments_run ids db t :
  tasks db !! tId = Some t →
  updateTaskAssignments fails now tId ids db
  = if accepted fails (reconcile (assignees t) ids)
    then (withTasks db
            (<[tId := withAssignees t
                        (writeAll now (reconcile (assignees t) ids)
                           (assignees t))]> (tasks db)), Next ())
    else (db, Thrown).
Proof.
  intros Ht. unfold updateTaskAssignments, transaction.
  cbv [mbind Handler_bind Prisma.task_findUnique get mret Handler_ret].
  rewrite Ht.
  pose proof (forEach_writeRow (reconcile (assignees t) ids) db t Ht) as H.
  destruct (accepted fails (reconcile (assignees t) ids)).
  - by rewrite H.
  - by destruct H as [db' ->].
Qed.

End Reconciliation.

(** ** Assignees of a task *)

Section TaskAssignees.

Import Permissions TaskAssignments TaskController Validation.

Variable dateToISOString : string → option string.
Variable fails : RowWrite → bool.


Lemma stranger_rejected db projId ids :
  hasStranger db projId ids →
  ProjectController.nonEmpty (Some ids) = true
  ∧ forallb (isMember db projId) ids = false.
Proof.
  intros (x & Hin & Ho & Hm). split.
  - destruct ids; [by apply elem_of_nil in Hin | done].
  - apply not_true_is_false. rewrite forallb_forall. intros Hall.
    specialize (Hall x (proj1 (list_elem_of_In _ _) Hin)).
    unfold isMember in Hall. rewrite Hm in Hall.
    rewrite !bool_decide_eq_false_2 in Hall; [done | by intros [] | done].
Qed.


Local Opaque validateUpdateTaskData validateCreateTaskData forallb.

Lemma updateTask_invalid_assignees db user id tId body now ids :
  ut_assigneeIds body = Some ids →
  hasStranger db id ids →
  let res := updateTask dateToISOString fails user id tId body now db in
  isSuccess res.1 = false ∧ res.2 = db
  ∧ (passesUpdateGates dateToISOString db user id tId body →
     res.1 = Failure "Certains utilisateurs assignés ne sont pas membres du projet"
               "INVALID_ASSIGNEES" 400).
Proof.
  intros Hids Hbad.
  destruct (stranger_rejected _ _ _ Hbad) as [Hne Hall].
  unfold updateTask, passesUpdateGates, hasAccess.
  destruct body; simpl in *; subst.
  crunch_with ltac:(try congruence); split_and!; try done.
  all: intros (u & ? & Hv & Hacc & Ht); simplify_eq; try rewrite Hv in *;
    try done; try tauto; by destruct Ht.
Qed.

Lemma createTask_invalid_assignees db user id body newId now ids :
  ct_assigneeIds body = Some ids →
  hasStranger db id ids →
  let res := createTask dateToISOString fails user id body newId now db in
  isSuccess res.1 = false ∧ res.2 = db
  ∧ (passesCreateGates dateToISOString db user id body →
     res.1 = Failure "Certains utilisateurs assignés ne sont pas membres du projet"
               "INVALID_ASSIGNEES" 400).
Proof.
  intros Hids Hbad.
  destruct (stranger_rejected _ _ _ Hbad) as [Hne Hall].
  unfold createTask, passesCreateGates, hasAccess.
  destruct body; simpl in *; subst.
  unfold ownerOf, membershipOf.
  crunch_with ltac:(try congruence); split_and!; try done.
  all: intros (? & u & ? & Hv & Hacc); simplify_eq; try rewrite Hv in *;
    try done; try tauto.
  all: exfalso;
    match goal with
    | H : ¬ is_Some (projects ?d !! ?i) |- _ =>
        destruct (projects d !! i) eqn:?; simpl in *;
        [apply H; by eexists | by destruct Hacc as [|[]]]
    end.
Qed.

Local Opaque updateTaskAssignments.


Lemma updateTask_assignees db user id tId body now declared t :
  ut_assigneeIds body = Some declared →
  tasks db !! tId = Some t →
  let res := updateTask dateToISOString fails user id tId body now db in
  ∃ t', tasks res.2 !! tId = Some t'
    ∧ (isSuccess res.1 = true →
       replacedBy now declared (assignees t) (assignees t'))
    ∧ (assignees t' = assignees t
       ∨ replacedBy now declared (assignees t) (assignees t')).
Proof.
  intros Hids Ht. unfold updateTask.
  destruct body; simpl in *; subst.
  crunch_with ltac:(try congruence).
  all: repeat match goal with
    | H : updateTaskAssignments _ _ _ _ _ = _ |- _ =>
        rewrite (updateTaskAssignments_run _ _ _ _ _ _
                   (lookup_insert_eq _ _ _)) in H;
        destruct (accepted _ _); simplify_eq
    end.
  all: simpl; rewrite ?lookup_insert_eq;
    eexists; split; [done |]; simpl;
    split; [try done; intros _; apply reconcile_replaces |];
    first [by left | right; apply reconcile_replaces].
Qed.

Lemma updateTask_succeeds db user id tId body now declared t :
  ut_assigneeIds body = Some declared →
  tasks db !! tId = Some t →
  updateGoesThrough dateToISOString fails db user id tId body declared t →
  isSuccess (updateTask dateToISOString fails user id tId body now db).1
  = true.
Proof.
  intros Hids Ht ((u & -> & Hv & Hacc & Hfound) & Hall & Hst & Hpr & Hok).
  unfold updateTask, hasAccess in *.
  destruct body; simpl in *; subst. rewrite Hv.
  crunch_with ltac:(try congruence); try tauto.
  all: try (by destruct Hfound).
  all: repeat match goal with
    | H : updateTaskAssignments _ _ _ _ _ = _ |- _ =>
        rewrite (updateTaskAssignments_run _ _ _ _ _ _
                   (lookup_insert_eq _ _ _)) in H;
        simpl in H; rewrite Hok in H; simplify_eq
    | H : parseStatus _ = None |- _ =>
        by destruct (Hst _ eq_refl); congruence
    | H : parsePriority _ = None |- _ =>
        by destruct (Hpr _ eq_refl); congruence
    end.
Qed.

End TaskAssignees.

(** C2. A task update or a task creation that carries a list of proposed
    assignees of which one is neither the owner nor a member of the
    project is rejected as a whole: the response is never a success and
    the database, the prior assignments included, is left as it was; when
    the request passes the checks that come first (authentication, field
    validation, access to the project, existence of the task), the
    rejection is INVALID_ASSIGNEES, status 400. *)
Theorem invalid_assignees_rejected_whole
    (dateToISOString : string → option string)
    (fails : TaskAssignments.RowWrite → bool)
    (db : DB) (user : option AuthUser) (id : string) (now : Z)
    (ids : list string) :
  hasStranger db id ids →
  (∀ tId body,
     Validation.ut_assigneeIds body = Some ids →
     let res :=
       TaskController.updateTask dateToISOString fails user id tId body now db
     in
     isSuccess res.1 = false ∧ res.2 = db
     ∧ (passesUpdateGates dateToISOString db user id tId body →
        res.1 = Failure "Certains utilisateurs assignés ne sont pas membres du projet"
                  "INVALID_ASSIGNEES" 400))
  ∧ (∀ newId body,
       Validation.ct_assigneeIds body = Some ids →
       let res :=
         TaskController.createTask dateToISOString fails user id body newId
           now db in
       isSuccess res.1 = false ∧ res.2 = db
       ∧ (passesCreateGates dateToISOString db user id body →
          res.1 = Failure "Certains utilisateurs assignés ne sont pas membres du projet"
                    "INVALID_ASSIGNEES" 400)).
Proof.
  intros Hbad. split.
  - intros tId body Hids. by apply updateTask_invalid_assignees with ids.
  - intros newId body Hids. by apply createTask_invalid_assignees with ids.
Qed.


Lemma invalid_assignees_rejected_whole_witness :
  hasStranger Fixture.db0 "p1" ["u2"; "u4"]
  ∧ TaskController.updateTask Fixture.noDate Fixture.storageUp
      (Some Fixture.caroline) "p1" "t1" (Fixture.assign ["u2"; "u4"]) 50
      Fixture.db0
    = (Failure "Certains utilisateurs assignés ne sont pas membres du projet"
         "INVALID_ASSIGNEES" 400, Fixture.db0).
Proof.
  assert (Hbad : hasStranger Fixture.db0 "p1" ["u2"; "u4"]).
  { exists "u4". split_and!; [set_solver | by vm_compute | reflexivity]. }
  split; [exact Hbad |].
  destruct (invalid_assignees_rejected_whole Fixture.noDate
              Fixture.storageUp Fixture.db0 (Some Fixture.caroline) "p1"
              50 ["u2"; "u4"] Hbad) as [Hupd _].
  destruct (Hupd "t1" (Fixture.assign ["u2"; "u4"]) eq_refl)
    as (_ & Hdb & Hcode).
  rewrite <- Hdb at 2. rewrite <- Hcode.
  - by destruct (TaskController.updateTask _ _ _ _ _ _ _ _).
  - exists Fixture.caroline.
    split_and!; [reflexivity | reflexivity | right; by eexists | by eexists].
Defined.

(** C3. A task update that declares an assignee set and succeeds leaves
    the task with exactly the declared set: the rows of users no longer
    declared are gone, the users newly declared have a row stamped with
    the time of the update, and the rows of users declared again are the
    rows they were. Whatever the response, and whichever writes the
    storage refuses, the rows of the task after the call are either the
    rows before it or that full replacement, never a part of it. The
    update does succeed when the request passes the gates, names members
    only, sends enum values that exist, and the storage takes the
    writes. *)
Theorem updateTask_replaces_assignees
    (dateToISOString : string → option string)
    (fails : TaskAssignments.RowWrite → bool)
    (db : DB) (user : option AuthUser) (id tId : string)
    (body : Validation.UpdateTaskData) (now : Z)
    (declared : list string) (t : Task) :
  Validation.ut_assigneeIds body = Some declared →
  tasks db !! tId = Some t →
  let res :=
    TaskController.updateTask dateToISOString fails user id tId body now db in
  ∃ t',
    tasks res.2 !! tId = Some t'
    ∧ (isSuccess res.1 = true →
       dom (assignees t') = list_to_set declared
       ∧ replacedBy now declared (assignees t) (assignees t'))
    ∧ (assignees t' = assignees t
       ∨ replacedBy now declared (assignees t) (assignees t'))
    ∧ (updateGoesThrough dateToISOString fails db user id tId body declared t →
       isSuccess res.1 = true).
Proof.
  intros Hids Ht res.
  destruct (updateTask_assignees dateToISOString fails db user id tId body now
              declared t Hids Ht) as (t' & Ht' & Hsucc & Hatomic).
  exists t'. split_and!; [done | | done |].
  - intros Hs. split; [| by apply Hsucc].
    by eapply replacedBy_dom, Hsucc.
  - by apply updateTask_succeeds.
Qed.

Lemma updateTask_replaces_assignees_witness :
  ∃ t',
    tasks (TaskController.updateTask Fixture.noDate Fixture.storageUp
             (Some Fixture.caroline) "p1" "t1"
             (Fixture.assign ["u2"; "u3"]) 50 Fixture.db0).2 !! "t1"
    = Some t'
    ∧ dom (assignees Fixture.maquette) = {[ "u1"; "u2" ]}
    ∧ dom (assignees t') = {[ "u2"; "u3" ]}
    ∧ assignees t' !! "u2" = Some 10%Z
    ∧ assignees t' !! "u3" = Some 50%Z.
Proof.
  destruct (updateTask_replaces_assignees Fixture.noDate
              Fixture.storageUp Fixture.db0 (Some Fixture.caroline)
              "p1" "t1" (Fixture.assign ["u2"; "u3"]) 50 ["u2"; "u3"]
              Fixture.maquette eq_refl eq_refl)
    as (t' & Ht' & Hsucc & _ & Hgo).
  assert (Hs : isSuccess
                 (TaskController.updateTask Fixture.noDate
                    Fixture.storageUp (Some Fixture.caroline) "p1" "t1"
                    (Fixture.assign ["u2"; "u3"]) 50 Fixture.db0).1
               = true).
  { apply Hgo. split_and!.
    - exists Fixture.caroline.
      split_and!; [reflexivity | reflexivity | right; by eexists | by eexists].
    - reflexivity.
    - intros s [= <-]. by eexists.
    - intros s [=].
    - reflexivity. }
  destruct (Hsucc Hs) as [Hdom Hrows].
  exists t'. split_and!; [exact Ht' | by vm_compute | | |].
  - rewrite Hdom. set_solver.
  - by rewrite (Hrows "u2").
  - by rewrite (Hrows "u3").
Defined.

(** A failure in the middle of the reconciliation: the storage has
    deleted Alice's row and refuses Caroline's; the transaction is rolled
    back and the task keeps Alice and Bob. *)
Lemma reconciliation_rolled_back :
  let res :=
    TaskController.updateTask Fixture.noDate Fixture.storageDown
      (Some Fixture.caroline) "p1" "t1" (Fixture.assign ["u2"; "u3"]) 50
      Fixture.db0 in
  res.1 = ServerFailure "Erreur lors de la mise à jour de la tâche"
  ∧ (assignees <$> tasks res.2 !! "t1") = Some {[ "u1" := 10%Z; "u2" := 10%Z ]}.
Proof. by vm_compute. Qed.

(** ** Validation collects every broken rule *)

Section RuleFacts.

Import Js Validation Rules.


Lemma collects_app {D} (v1 v2 : D → list ValidationError)
    (r1 r2 : list (Rule D)) :
  collects v1 r1 → collects v2 r2 →
  collects (λ data, (v1 data ++ v2 data)%list) (r1 ++ r2)%list.
Proof.
  intros H1 H2 data. unfold brokenEntries.
  rewrite !bind_app. by rewrite H1, H2.
Qed.


Lemma join_imap_broken {A} (f : nat → A → ValidationError * bool) l :
  mjoin (imap (λ i x, if (f i x).2 then [(f i x).1] else []) l)
  = imap f l ≫= λ x : ValidationError * bool, if x.2 then [x.1] else [].
Proof.
  revert f. induction l as [|a l IH]; intros f; [done |].
  rewrite !imap_cons. cbn [mjoin list_join mbind list_bind].
  f_equal. apply (IH (f ∘ S)).
Qed.

(** The block of an array field: [if (items) items.forEach(...)]. *)
Lemma collects_items {D} (items : D → option (list string))
    (bad : string → bool) (name msg : string)
    (block : option (list string) → list ValidationError) :
  (∀ l, block (Some l) = forEachInvalid bad name msg l) →
  block None = [] →
  collects (λ data, block (items data)) [eachItem name msg items bad].
Proof.
  intros Hsome Hnone data. unfold brokenEntries, eachItem.
  cbn [mbind list_bind]. rewrite app_nil_r.
  rewrite <- (join_imap_broken
    (λ index x, ({| field := name ++ "[" ++ pretty index ++ "]";
                    message := msg |}, bad x))).
  destruct (items data) as [l|]; simpl.
  - by rewrite Hsome.
  - by rewrite Hnone.
Qed.


Ltac block :=
  intros data; destruct data; unfold brokenEntries; simpl;
  unfold trimmedLength, text, present in *; simpl;
  repeat (first [case_bool_decide | case_match]; simpl in *; simplify_eq);
  try reflexivity; try lia; try (exfalso; naive_solver);
  try (exfalso;
       repeat match goal with
         | H : _ = "" |- _ => rewrite H in *; clear H
         end; simpl in *; lia).

Lemma validateRegisterData_collects :
  collects validateRegisterData registerRules.
Proof.
  unfold validateRegisterData, registerRules.
  repeat apply collects_app.
  - unfold registerEmailErrors. block.
  - unfold registerPasswordErrors. block.
  - unfold registerNameErrors. block.
Qed.

Lemma validateLoginData_collects : collects validateLoginData loginRules.
Proof.
  unfold validateLoginData, loginRules. repeat apply collects_app; block.
Qed.

Lemma validateUpdateProfileData_collects :
  collects validateUpdateProfileData updateProfileRules.
Proof.
  unfold validateUpdateProfileData, updateProfileRules.
  repeat apply collects_app; block.
Qed.

Lemma validateUpdatePasswordData_collects :
  collects validateUpdatePasswordData updatePasswordRules.
Proof.
  unfold validateUpdatePasswordData, updatePasswordRules.
  repeat apply collects_app; block.
Qed.

Lemma validateCreateProjectData_collects :
  collects validateCreateProjectData createProjectRules.
Proof.
  unfold validateCreateProjectData, createProjectRules.
  apply collects_app; [block |]. apply collects_app; [block |].
  by apply collects_items.
Qed.

Lemma validateUpdateProjectData_collects :
  collects validateUpdateProjectData updateProjectRules.
Proof.
  unfold validateUpdateProjectData, updateProjectRules.
  apply collects_app; [block |]. apply collects_app; [block |].
  by apply collects_items.
Qed.

Lemma contentErrors_collects : collects contentErrors contentRules.
Proof. unfold contentErrors, contentRules. block. Qed.

Lemma validateCreateTaskData_collects dateToISOString :
  collects (validateCreateTaskData dateToISOString)
    (createTaskRules dateToISOString).
Proof.
  unfold validateCreateTaskData, createTaskRules.
  apply collects_app; [block |]. apply collects_app; [block |].
  apply collects_app; [unfold priorityErrors; block |].
  apply collects_app; [unfold dueDateErrors; block |].
  by apply collects_items.
Qed.

Lemma validateUpdateTaskData_collects dateToISOString :
  collects (validateUpdateTaskData dateToISOString)
    (updateTaskRules dateToISOString).
Proof.
  unfold validateUpdateTaskData, updateTaskRules.
  apply collects_app; [block |]. apply collects_app; [block |].
  apply collects_app; [block |].
  apply collects_app; [unfold priorityErrors; block |].
  apply collects_app; [unfold dueDateErrors; block |].
  by apply collects_items.
Qed.

End RuleFacts.

(** C9. Every validation function returns a list of {field, message}
    entries that holds one entry for each of its rules that the data
    break, whatever the other fields hold: the list is the list of the
    broken rules, field after field, so a later field is validated even
    when an earlier one has failed. *)
Theorem validation_collects_every_broken_rule
    (dateToISOString : string → option string) :
  Rules.collects Validation.validateRegisterData Rules.registerRules
  ∧ Rules.collects Validation.validateLoginData Rules.loginRules
  ∧ Rules.collects Validation.validateUpdateProfileData
      Rules.updateProfileRules
  ∧ Rules.collects Validation.validateUpdatePasswordData
      Rules.updatePasswordRules
  ∧ Rules.collects Validation.validateCreateProjectData
      Rules.createProjectRules
  ∧ Rules.collects Validation.validateUpdateProjectData
      Rules.updateProjectRules
  ∧ Rules.collects (Validation.validateCreateTaskData dateToISOString)
      (Rules.createTaskRules dateToISOString)
  ∧ Rules.collects (Validation.validateUpdateTaskData dateToISOString)
      (Rules.updateTaskRules dateToISOString)
  ∧ Rules.collects Validation.validateCreateCommentData Rules.contentRules
  ∧ Rules.collects Validation.validateUpdateCommentData Rules.contentRules.
Proof.
  split_and!.
  - apply validateRegisterData_collects.
  - apply validateLoginData_collects.
  - apply validateUpdateProfileData_collects.
  - apply validateUpdatePasswordData_collects.
  - apply validateCreateProjectData_collects.
  - apply validateUpdateProjectData_collects.
  - apply validateCreateTaskData_collects.
  - apply validateUpdateTaskData_collects.
  - apply contentErrors_collects.
  - apply contentErrors_collects.
Qed.

(** Registration data with an invalid email and an invalid password: both
    are reported. *)
Lemma validation_collects_every_broken_rule_witness :
  Validation.validateRegisterData
    {| Validation.reg_email := Some "alice.example.com";
       Validation.reg_password := Some "secret";
       Validation.reg_name := Some "Alice" |}
  = [ {| field := "email"; message := "Format d'email invalide" |};
      {| field := "password";
         message := "Le mot de passe doit contenir au moins 8 caractères, une lettre majuscule, une lettre minuscule et un chiffre" |} ].
Proof.
  rewrite (proj1 (validation_collects_every_broken_rule (λ _, None))).
  by vm_compute.
Defined.

Ltac run ::=
  cbv [controller mbind mret Handler_bind Handler_ret get put send throw
       sendSuccess sendError sendValidationError sendServerError unless
       attempt authenticated from_option
       Permissions.hasProjectAccess Permissions.isProjectOwner
       Permissions.isProjectAdmin Permissions.canModifyProject
       Permissions.canDeleteProject Permissions.canCreateTasks
       Permissions.canModifyTasks Permissions.getUserProjectRole
       Prisma.setProjects Prisma.setTasks Prisma.setComments
       Prisma.user_findMany_emailIn Prisma.user_findUnique_email
       Prisma.project_findUnique Prisma.project_create Prisma.project_update
       Prisma.project_delete
       Prisma.projectMember_findUnique Prisma.projectMember_create
       Prisma.projectMember_deleteMany
       Prisma.task_findFirst Prisma.task_findUnique Prisma.task_create
       Prisma.task_update Prisma.task_delete
       Prisma.comment_findFirst Prisma.comment_findMany Prisma.comment_create
       Prisma.comment_update Prisma.comment_delete
       ProjectController.trimmed TaskController.parsed
       TaskController.taskView TaskAssignments.getTaskAssignments
       TaskComments.getTaskComments
       TaskAssignments.validateProjectMembers] in *.


(** ** Patterns: the matcher decides the language *)

Section Patterns.

Import Js.

Lemma append_nil_l (s : string) : "" ++ s = s.
Proof. reflexivity. Qed.

Lemma append_cons (c : ascii) (s1 s2 : string) :
  String c s1 ++ s2 = String c (s1 ++ s2).
Proof. reflexivity. Qed.

Lemma append_eq_nil (s1 s2 : string) : s1 ++ s2 = "" → s1 = "" ∧ s2 = "".
Proof. destruct s1; rewrite ?append_nil_l, ?append_cons; [tauto | discriminate]. Qed.

Lemma nullable_matches (r : regex) : nullable r = true ↔ matches r "".
Proof.
  induction r; simpl; split; intros H;
    try discriminate; try (by constructor); try (by inversion H).
  - apply andb_true_iff in H as [H1 H2].
    change "" with ("" ++ ""). constructor; tauto.
  - inversion H as [| |? ? s1 s2 H1 H2 E| | | | |]; subst.
    match goal with
    | E : _ ++ _ = "" |- _ => apply append_eq_nil in E as [-> ->]
    end.
    apply andb_true_iff; tauto.
  - apply orb_true_iff in H as [H|H]; [apply matches_Or_l|apply matches_Or_r]; tauto.
  - apply orb_true_iff. inversion H; subst; tauto.
  - apply andb_true_iff in H as [H1 H2]. constructor; tauto.
  - apply andb_true_iff. inversion H; subst; tauto.
Qed.

Lemma matches_Star_inv (r : regex) (c : ascii) (s : string) :
  matches (Star r) (String c s) →
  ∃ s1 s2, s = s1 ++ s2 ∧ matches r (String c s1) ∧ matches (Star r) s2.
Proof.
  intros H. remember (Star r) as R eqn:ER. remember (String c s) as w eqn:Ew.
  revert s Ew.
  induction H as [| | | | | | |r' s1 s2 H1 _ H2 IH2]; intros s' Ew;
    try discriminate.
  injection ER as ->. destruct s1 as [|c' s1]; rewrite ?append_nil_l, ?append_cons in Ew.
  - by apply IH2.
  - injection Ew as -> <-. eauto.
Qed.

Lemma deriv_matches (r : regex) (c : ascii) (s : string) :
  matches (deriv c r) s ↔ matches r (String c s).
Proof.
  revert s. induction r as [| |p|r1 IH1 r2 IH2|r1 IH1 r2 IH2|r1 IH1 r2 IH2|r IH];
    intros s; simpl.
  - split; intros H; inversion H.
  - split; intros H; inversion H.
  - destruct (p c) eqn:Hp; split; intros H; inversion H; subst.
    + by constructor.
    + constructor.
    + congruence.
  - assert (Hcat : ∀ s, matches (Cat (deriv c r1) r2) s →
                        matches (Cat r1 r2) (String c s)).
    { intros s' H. inversion H as [| |? ? s1 s2 H1 H2| | | | |]; subst.
      change (String c (s1 ++ s2)) with (String c s1 ++ s2).
      constructor; [by apply IH1|done]. }
    assert (Hinv : matches (Cat r1 r2) (String c s) →
              nullable r1 = true ∧ matches (deriv c r2) s
              ∨ matches (Cat (deriv c r1) r2) s).
    { intros H. inversion H as [| |? ? s1 s2 H1 H2 E| | | | |]; subst.
      destruct s1 as [|c' s1]; rewrite ?append_nil_l, ?append_cons in *.
      - subst s2. left. split; [by apply nullable_matches|by apply IH2].
      - match goal with E : String _ _ = String _ _ |- _ =>
          injection E as -> <- end. right. constructor; [by apply IH1|done]. }
    destruct (nullable r1) eqn:Hn; split; intros H.
    + inversion H; subst; [by apply Hcat|].
      change (String c s) with ("" ++ String c s).
      constructor; [by apply nullable_matches|by apply IH2].
    + destruct (Hinv H) as [[_ ?]|?];
        [by apply matches_Or_r|by apply matches_Or_l].
    + by apply Hcat.
    + destruct (Hinv H) as [[? _]|?]; [congruence|done].
  - split; intros H; inversion H; subst;
      first [apply matches_Or_l; by apply IH1 | apply matches_Or_r; by apply IH2].
  - split; intros H; inversion H; subst; constructor;
      first [by apply IH1 | by apply IH2].
  - split; intros H.
    + inversion H as [| |? ? s1 s2 H1 H2| | | | |]; subst.
      change (String c (s1 ++ s2)) with (String c s1 ++ s2).
      constructor; [by apply IH|done].
    + apply matches_Star_inv in H as (s1 & s2 & -> & H1 & H2).
      constructor; [by apply IH|done].
Qed.

(** [test] answers true exactly on the strings of the language. *)
Lemma test_matches (r : regex) (s : string) : test r s = true ↔ matches r s.
Proof.
  revert r. induction s as [|c s IH]; intros r; simpl.
  - apply nullable_matches.
  - rewrite IH. apply deriv_matches.
Qed.

Lemma matches_Class_Cat (p : ascii → bool) (r : regex) (s : string) :
  matches (Cat (Class p) r) s ↔
  ∃ c s', s = String c s' ∧ p c = true ∧ matches r s'.
Proof.
  split.
  - intros H. inversion H as [| |? ? s1 s2 H1 H2| | | | |]; subst.
    inversion H1; subst. rewrite append_cons, append_nil_l. eauto.
  - intros (c & s' & -> & Hp & Hr).
    change (String c s') with (String c "" ++ s'). by repeat constructor.
Qed.

Lemma matches_Star_Class (p : ascii → bool) (s : string) :
  matches (Star (Class p)) s ↔ everyUnit p s = true.
Proof.
  split.
  - intros H. remember (Star (Class p)) as R eqn:ER.
    induction H as [| | | | | | |r' s1 s2 H1 _ H2 IH2]; try discriminate.
    + done.
    + injection ER as ->. inversion H1; subst. simpl.
      apply andb_true_iff. auto.
  - induction s as [|c s IH]; simpl; intros H; [constructor|].
    apply andb_true_iff in H as [Hp Hs].
    change (String c s) with (String c "" ++ s).
    constructor; [by constructor|auto].
Qed.

Lemma matches_Plus_Class (p : ascii → bool) (s : string) :
  matches (Plus (Class p)) s ↔ s ≠ "" ∧ everyUnit p s = true.
Proof.
  unfold Plus. rewrite matches_Class_Cat. split.
  - intros (c & s' & -> & Hp & Hs). apply matches_Star_Class in Hs.
    simpl. rewrite Hp, Hs. done.
  - intros [Hne H]. destruct s as [|c s']; [done|]. simpl in H.
    apply andb_true_iff in H as [Hp Hs].
    exists c, s'. by rewrite matches_Star_Class.
Qed.

Lemma matches_AtLeast_Class (n : nat) (p : ascii → bool) (s : string) :
  matches (AtLeast n (Class p)) s ↔
  (n ≤ String.length s)%nat ∧ everyUnit p s = true.
Proof.
  revert s. induction n as [|n IH]; intros s; simpl.
  - rewrite matches_Star_Class. split; [split; [lia|done]|tauto].
  - rewrite matches_Class_Cat. split.
    + intros (c & s' & -> & Hp & Hs). apply IH in Hs as [Hn Hs].
      simpl. rewrite Hp, Hs. split; [lia|done].
    + intros [Hn H]. destruct s as [|c s']; simpl in *; [lia|].
      apply andb_true_iff in H as [Hp Hs]. exists c, s'.
      rewrite IH. repeat split; [done|lia|done].
Qed.

Lemma matches_anything (s : string) : matches (Star anyUnit) s.
Proof. by apply matches_Star_Class; induction s. Qed.

(** [(?=.*[class])] at the start of the input. *)
Lemma matches_Ahead_reaches (p : ascii → bool) (s : string) :
  matches (Ahead (Cat (Star dot) (Class p))) s ↔ reaches p s = true.
Proof.
  split.
  - intros H. inversion H as [| |? ? s1 s2 H1 _| | | | |]; subst. clear H.
    inversion H1 as [| |? ? a b Ha Hb| | | | |]; subst. clear H1.
    inversion Hb; subst. clear Hb.
    apply matches_Star_Class in Ha.
    induction a as [|c' a IH]; rewrite ?append_nil_l, ?append_cons in *; simpl in *.
    + by rewrite H0.
    + apply andb_true_iff in Ha as [Hc Ha]. rewrite Hc, (IH Ha).
      apply orb_true_r.
  - induction s as [|c s IH]; simpl; [done|]. intros H.
    apply orb_true_iff in H as [Hp|H].
    + change (String c s) with ((("" ++ String c "")) ++ s).
      constructor; [|apply matches_anything].
      constructor; [constructor|by constructor].
    + apply andb_true_iff in H as [Hc H]. specialize (IH H).
      inversion IH as [| |? ? s1 s2 H1 H2| | | | |]; subst.
      inversion H1 as [| |? ? a b Ha Hb| | | | |]; subst.
      replace (String c ((a ++ b) ++ s2))
        with ((((String c "" ++ a)) ++ b) ++ s2) by done.
      constructor; [|done]. constructor; [|done].
      constructor; [by constructor|done].
Qed.

Lemma reaches_someUnit (p q : ascii → bool) (s : string) :
  (∀ c, q c = true → isLineTerminator c = false) →
  everyUnit q s = true → reaches p s = someUnit p s.
Proof.
  intros Hq. induction s as [|c s IH]; simpl; [done|]. intros H.
  apply andb_true_iff in H as [Hc Hs]. by rewrite (Hq _ Hc), IH.
Qed.

Lemma passwordUnit_not_terminator (c : ascii) :
  passwordUnit c = true → isLineTerminator c = false.
Proof. by destruct c as [[] [] [] [] [] [] [] []]; vm_compute. Qed.

Lemma lowerCodeUnit_idemp (c : ascii) :
  lowerCodeUnit (lowerCodeUnit c) = lowerCodeUnit c.
Proof. by destruct c as [[] [] [] [] [] [] [] []]; vm_compute. Qed.

Lemma toLowerCase_idemp (s : string) :
  toLowerCase (toLowerCase s) = toLowerCase s.
Proof. induction s; simpl; [done|]. by rewrite lowerCodeUnit_idemp, IHs. Qed.

Lemma matches_Both_iff (r1 r2 : regex) (s : string) :
  matches (Both r1 r2) s ↔ matches r1 s ∧ matches r2 s.
Proof. split; [intros H; by inversion H|intros []; by constructor]. Qed.

Lemma matches_Cat_iff (r1 r2 : regex) (s : string) :
  matches (Cat r1 r2) s ↔
  ∃ s1 s2, s = s1 ++ s2 ∧ matches r1 s1 ∧ matches r2 s2.
Proof.
  split; [intros H; inversion H; subst; eauto|].
  intros (s1 & s2 & -> & H1 & H2). by constructor.
Qed.

Lemma matches_isUnit (c : ascii) (s : string) :
  matches (Class (isUnit c)) s ↔ s = String c "".
Proof.
  split.
  - intros H. inversion H as [|? x Hx| | | | | |]; subst.
    by apply bool_decide_eq_true in Hx as ->.
  - intros ->. constructor. by apply bool_decide_eq_true.
Qed.

End Patterns.

(** X1.  A password is accepted exactly when it has at least eight code
    units, all of them letters a-z or A-Z, digits or one of [@$!%*?&], and
    among them a lower-case letter, an upper-case letter and a digit. *)
Theorem isValidPassword_characterised (password : string) :
  Validation.isValidPassword password = true ↔
  (8 ≤ String.length password)%nat
  ∧ everyUnit passwordUnit password = true
  ∧ someUnit lowerLetter password = true
  ∧ someUnit upperLetter password = true
  ∧ someUnit digit password = true.
Proof.
  unfold Validation.isValidPassword. rewrite test_matches.
  change Validation.passwordRegex with
    (Js.Both (Js.Ahead (Js.Cat (Js.Star Js.dot) (Js.Class lowerLetter)))
       (Js.Both (Js.Ahead (Js.Cat (Js.Star Js.dot) (Js.Class upperLetter)))
          (Js.Both (Js.Ahead (Js.Cat (Js.Star Js.dot) (Js.Class digit)))
             (Js.AtLeast 8 (Js.Class passwordUnit))))).
  rewrite !matches_Both_iff, !matches_Ahead_reaches, matches_AtLeast_Class.
  split.
  - intros (Hl & Hu & Hd & Hlen & Hall).
    rewrite (reaches_someUnit _ _ _ passwordUnit_not_terminator Hall)
      in Hl; rewrite (reaches_someUnit _ _ _ passwordUnit_not_terminator Hall)
      in Hu; rewrite (reaches_someUnit _ _ _ passwordUnit_not_terminator Hall)
      in Hd.
    done.
  - intros (Hlen & Hall & Hl & Hu & Hd).
    by rewrite !(reaches_someUnit _ _ _ passwordUnit_not_terminator Hall).
Qed.

(** X2.  An email is accepted exactly when it reads [a@b.c] with [a], [b]
    and [c] not empty and free of white space and of [@]. *)
Theorem isValidEmail_characterised (email : string) :
  Validation.isValidEmail email = true ↔
  ∃ a b c, email = a ++ "@" ++ b ++ "." ++ c
           ∧ emailPart a = true ∧ emailPart b = true ∧ emailPart c = true.
Proof.
  unfold Validation.isValidEmail. rewrite test_matches.
  change Validation.emailRegex with
    (Js.Cat (Js.Plus (Js.Class emailUnit))
       (Js.Cat (Js.Class (Js.isUnit "@"))
          (Js.Cat (Js.Plus (Js.Class emailUnit))
             (Js.Cat (Js.Class (Js.isUnit "."))
                (Js.Plus (Js.Class emailUnit)))))).
  assert (Hpart : ∀ s, matches (Js.Plus (Js.Class emailUnit)) s
                       ↔ emailPart s = true).
  { intros s. rewrite matches_Plus_Class. unfold emailPart.
    rewrite andb_true_iff, negb_true_iff, bool_decide_eq_false. done. }
  split.
  - intros H.
    apply matches_Cat_iff in H as (a & s1 & -> & Ha & H).
    apply matches_Cat_iff in H as (x & s2 & -> & Hx & H).
    apply matches_Cat_iff in H as (b & s3 & -> & Hb & H).
    apply matches_Cat_iff in H as (y & c & -> & Hy & Hc).
    apply matches_isUnit in Hx as ->. apply matches_isUnit in Hy as ->.
    exists a, b, c. by rewrite <- !Hpart.
  - intros (a & b & c & -> & Ha & Hb & Hc). apply Hpart in Ha, Hb, Hc.
    repeat (constructor; try done); by apply bool_decide_eq_true.
Qed.

(** ** Routes of a project, seen from outside *)

Section Outside.

Import Permissions Validation.
Import ProjectController TaskController CommentController.

Variable dateToISOString : string → option string.
Variable fails : TaskAssignments.RowWrite → bool.
Variables (db : DB) (user : option AuthUser) (id : string).
Hypothesis Hout : outsider db user id.

Lemma outsider_owner u :
  user = Some u → ownerOf db id ≠ Some (auth_id u).
Proof. intros -> Ho. apply (Hout u); [done|by left]. Qed.

Lemma outsider_member u :
  user = Some u → ¬ is_Some (membershipOf db (auth_id u) id).
Proof. intros -> Hm. apply (Hout u); [done|by right]. Qed.

Lemma outsider_admin u :
  user = Some u → membershipOf db (auth_id u) id ≠ Some ADMIN.
Proof. intros -> Hm. apply (Hout u); [done|right; by rewrite Hm]. Qed.

End Outside.

Ltac outside Hout :=
  try match goal with
    | H : Permissions.ownerOf _ _ = Some (auth_id _) |- _ =>
        by destruct (outsider_owner _ _ _ Hout _ eq_refl)
    | H : is_Some (Permissions.membershipOf _ (auth_id _) _) |- _ =>
        by destruct (outsider_member _ _ _ Hout _ eq_refl)
    | H : Permissions.membershipOf _ (auth_id _) _ = Some ADMIN |- _ =>
        by destruct (outsider_admin _ _ _ Hout _ eq_refl)
    end.

Ltac refusal := split; [done|]; set_solver.

Ltac refusing := split; first [refusal | done].

(** X3.  To a caller who is not signed in, or who neither owns the project
    nor is a member of it, every one of the fifteen routes under the
    project answers a refusal (400, 401, 403) and leaves the database as
    it was; the listing of the tasks does so whatever its order. *)
Theorem outsider_is_refused_everywhere
    (dateToISOString : string → option string)
    (fails : TaskAssignments.RowWrite → bool)
    (urgentFirst : relation (string * Task)) `{!RelDecision urgentFirst}
    (db : DB) (user : option AuthUser) (id tId commentId userId newId : string)
    (now : Z)
    (projectBody : Validation.UpdateProjectData)
    (contributorBody : ProjectController.AddContributorData)
    (newTask : Validation.CreateTaskData)
    (taskBody : Validation.UpdateTaskData)
    (commentBody : Validation.CommentData) :
  outsider db user id →
  Forall (λ res : Response * DB,
            refusedWith [400; 401; 403] res.1 ∧ res.2 = db)
    [ ProjectController.getProject user id db;
      ProjectController.updateProject user id projectBody db;
      ProjectController.deleteProject user id db;
      ProjectController.addContributor user id contributorBody db;
      ProjectController.removeContributor user id userId db;
      TaskController.createTask dateToISOString fails user id newTask newId
        now db;
      TaskController.getTask user id tId db;
      TaskController.updateTask dateToISOString fails user id tId taskBody
        now db;
      TaskController.deleteTask user id tId db;
      CommentController.createComment user id tId commentBody newId now db;
      CommentController.getComments user id tId db;
      CommentController.getComment user id tId commentId db;
      CommentController.updateComment user id tId commentId commentBody db;
      CommentController.deleteComment user id tId commentId db ]
  ∧ ∃ r, TaskController.getTasks urgentFirst user id db = (Instead r, db)
         ∧ refusedWith [400; 401; 403] r.
Proof.
  intros Hout. unfold refusedWith. split; cycle 1.
  { unfold TaskController.getTasks, replying.
    destruct user as [u|]; [|eexists; split; [done|refusal]].
    cbv [mbind Handler_bind authenticated mret Handler_ret].
    rewrite hasAccess_run, bool_decide_eq_false_2 by by apply Hout.
    eexists; split; [done|refusal]. }
  repeat apply Forall_cons_2; [..|apply Forall_nil_2].
  all: destruct user as [u|]; [|try by (crunch; split; [refusal|done])].
  - unfold ProjectController.getProject.
    crunch_with ltac:(outside Hout); split; first [refusal|done].
  - unfold ProjectController.updateProject.
    generalize (Validation.validateUpdateProjectData
           {| Validation.up_name := Validation.up_name projectBody;
              Validation.up_description := Validation.up_description projectBody;
              Validation.up_contributors := None |}).
    intros errs.
    crunch_with ltac:(outside Hout); split; first [refusal|done].
  - unfold ProjectController.deleteProject.
    crunch_with ltac:(outside Hout); split; first [refusal|done].
  - unfold ProjectController.addContributor.
    crunch_with ltac:(outside Hout); split; first [refusal|done].
  - unfold ProjectController.removeContributor.
    crunch_with ltac:(outside Hout); split; first [refusal|done].
  - unfold TaskController.createTask.
    generalize (Validation.validateCreateTaskData dateToISOString newTask).
    intros errs.
    crunch_with ltac:(outside Hout); split; first [refusal|done].
  - unfold TaskController.createTask.
    generalize (Validation.validateCreateTaskData dateToISOString newTask).
    intros errs. crunch; split; first [refusal|done].
  - unfold TaskController.getTask.
    crunch_with ltac:(outside Hout); split; first [refusal|done].
  - unfold TaskController.updateTask.
    generalize (Validation.validateUpdateTaskData dateToISOString taskBody).
    intros errs.
    crunch_with ltac:(outside Hout); split; first [refusal|done].
  - unfold TaskController.deleteTask.
    crunch_with ltac:(outside Hout); split; first [refusal|done].
  - unfold CommentController.createComment.
    generalize (Validation.validateCreateCommentData commentBody).
    intros errs.
    crunch_with ltac:(outside Hout); split; first [refusal|done].
  - unfold CommentController.getComments.
    crunch_with ltac:(outside Hout); split; first [refusal|done].
  - unfold CommentController.getComment.
    crunch_with ltac:(outside Hout); split; first [refusal|done].
  - unfold CommentController.updateComment.
    generalize (Validation.validateUpdateCommentData commentBody).
    intros errs.
    crunch_with ltac:(outside Hout); split; first [refusal|done].
  - unfold CommentController.deleteComment.
    crunch_with ltac:(outside Hout); split; first [refusal|done].
Qed.

(** ** Projects and their contributors *)

Section ProjectRoutes.

Import Permissions Validation ProjectController.

Lemma alter_members_run (db : DB) (id : string) (p : Project)
    (ms : gmap string Role) :
  projects db !! id = Some p →
  withProjects db (<[id := Prisma.withMembers p ms]> (projects db))
  = withMembersOf db id (λ _, ms).
Proof.
  intros Hp. unfold withMembersOf. f_equal.
  apply map_eq. intros k. destruct (decide (k = id)) as [->|].
  - by rewrite lookup_insert_eq, lookup_alter_eq, Hp.
  - by rewrite lookup_insert_ne, lookup_alter_ne.
Qed.

Lemma withMembersOf_frame (db : DB) (id : string) f :
  sameButMembersOf id db (withMembersOf db id f).
Proof.
  unfold sameButMembersOf, withMembersOf. simpl. split_and!; try done.
  - intros k Hk. by rewrite lookup_alter_ne.
  - rewrite lookup_alter_eq. by destruct (projects db !! id); constructor.
Qed.

Lemma sameButMembersOf_refl (db : DB) (id : string) :
  sameButMembersOf id db db.
Proof.
  unfold sameButMembersOf. split_and!; try done.
  by destruct (projects db !! id); constructor.
Qed.

End ProjectRoutes.

Section ContributorRoutes.

Import Permissions Validation ProjectController.

Lemma withMembersOf_Some db id p f :
  projects db !! id = Some p →
  withMembersOf db id f
  = {| users := users db;
       projects := <[id := Prisma.withMembers p (f (members p))]> (projects db);
       tasks := tasks db; comments := comments db |}.
Proof.
  intros Hp. unfold withMembersOf, withProjects. f_equal.
  apply map_eq. intros k. destruct (decide (k = id)) as [->|].
  - by rewrite lookup_insert_eq, lookup_alter_eq, Hp.
  - by rewrite lookup_insert_ne, lookup_alter_ne.
Qed.

Lemma withMembersOf_None db id f :
  projects db !! id = None → withMembersOf db id f = db.
Proof.
  intros Hp. unfold withMembersOf, withProjects.
  rewrite <- (DB_eta db) at 5. f_equal.
  apply map_eq. intros k. destruct (decide (k = id)) as [->|].
  - by rewrite lookup_alter_eq, Hp.
  - by rewrite lookup_alter_ne.
Qed.

Lemma withMembersOf_undo db id f g :
  (∀ p, projects db !! id = Some p → g (f (members p)) = members p) →
  withMembersOf (withMembersOf db id f) id g = db.
Proof.
  intros Hgf. unfold withMembersOf, withProjects. simpl.
  rewrite <- (DB_eta db) at 5. f_equal.
  apply map_eq. intros k. destruct (decide (k = id)) as [->|].
  - rewrite !lookup_alter_eq. destruct (projects db !! id) as [p|] eqn:Hp;
      [|done]. simpl. unfold Prisma.withMembers. simpl.
    rewrite (Hgf p eq_refl). by destruct p.
  - by rewrite !lookup_alter_ne.
Qed.

Lemma ownerOf_withMembersOf db id f k :
  ownerOf (withMembersOf db id f) k = ownerOf db k.
Proof.
  unfold ownerOf, withMembersOf. simpl.
  destruct (decide (k = id)) as [->|].
  - rewrite lookup_alter_eq. by destruct (projects db !! id).
  - by rewrite lookup_alter_ne.
Qed.

Lemma membershipOf_withMembersOf db id f userId :
  membershipOf (withMembersOf db id f) userId id
  = projects db !! id ≫= λ p, f (members p) !! userId.
Proof.
  unfold membershipOf, withMembersOf. simpl.
  rewrite lookup_alter_eq. by destruct (projects db !! id).
Qed.

Lemma removeContributor_effect db user id userId :
  let res := removeContributor user id userId db in
  if isSuccess res.1
  then res.2 = withMembersOf db id (delete userId)
  else res.2 = db.
Proof.
  unfold removeContributor. destruct user as [u|]; [|by crunch].
  crunch; try done.
  all: first [ by erewrite withMembersOf_Some | by rewrite withMembersOf_None ].
Qed.

Lemma addContributor_effect db user id body :
  let res := addContributor user id body db in
  if isSuccess res.1
  then ∃ u target r,
         user = Some u ∧ mayModify db u id
         ∧ designated db body = Some target
         ∧ askedRole body = Some r
         ∧ membershipOf db target.1 id = None
         ∧ res.2 = withMembersOf db id (<[target.1 := r]>)
  else res.2 = db.
Proof.
  unfold addContributor, designated, askedRole, mayModify.
  destruct user as [u|]; [|by crunch]. destruct body as [[e|] role]; simpl.
  - crunch; try done.
    all: eexists _, _, _; split_and!; try done; try tauto.
    all: first [ by erewrite withMembersOf_Some
               | unfold membershipOf;
                 match goal with
                 | H : projects _ !! _ = Some _ |- _ => by rewrite H
                 end ].
  - crunch; done.
Qed.

End ContributorRoutes.

(** X4.  [addContributor] writes only when it answers a success, and then
    it writes one membership row: the user whom the email, put in lower
    case, designates had no row in the project and gets one, with the role
    asked for, CONTRIBUTOR when the body names none.  Users, tasks,
    comments, the other projects and the name, description and owner of
    the project are as they were. *)
Theorem addContributor_adds_one_row (db : DB) (user : option AuthUser)
    (id : string) (body : ProjectController.AddContributorData) :
  let res := ProjectController.addContributor user id body db in
  sameButMembersOf id db res.2
  ∧ if isSuccess res.1
    then ∃ u target r,
           user = Some u ∧ mayModify db u id
           ∧ designated db body = Some target
           ∧ askedRole body = Some r
           ∧ Permissions.membershipOf db target.1 id = None
           ∧ res.2 = withMembersOf db id (<[target.1 := r]>)
    else res.2 = db.
Proof.
  intros res. pose proof (addContributor_effect db user id body) as H.
  fold res in H. cbv zeta in H. split; [|done].
  destruct (isSuccess res.1).
  - destruct H as (? & ? & ? & _ & _ & _ & _ & _ & ->).
    apply withMembersOf_frame.
  - rewrite H. apply sameButMembersOf_refl.
Qed.



(** X6.  Adding a contributor and removing them again leaves the database
    as it was before the two calls, when the caller did not add
    themselves. *)
Theorem addContributor_then_removeContributor (db : DB) (u : AuthUser)
    (id : string) (body : ProjectController.AddContributorData)
    (target : string * User) :
  let added := ProjectController.addContributor (Some u) id body db in
  isSuccess added.1 = true →
  designated db body = Some target →
  target.1 ≠ auth_id u →
  ProjectController.removeContributor (Some u) id target.1 added.2
  = (Success "Contributeur retiré avec succès" DataNone 200, db).
Proof.
  intros added Hs Ht Hne.
  pose proof (addContributor_effect db (Some u) id body) as H.
  fold added in H. cbv zeta in H. rewrite Hs in H.
  destruct H as (u' & target' & r & [= <-] & Hmay & Ht' & _ & Hrow & ->).
  assert (target' = target) as -> by congruence.
  rewrite removeContributor_deletes.
  - f_equal.
    pose proof (removeContributor_effect
                  (withMembersOf db id <[target.1:=r]>) (Some u) id target.1)
      as H. cbv zeta in H.
    rewrite removeContributor_deletes in H; simpl in *.
    + rewrite H. apply withMembersOf_undo. intros p Hp.
      unfold Permissions.membershipOf in Hrow. rewrite Hp in Hrow.
      simpl in Hrow. by rewrite delete_insert_eq, delete_id.
    + destruct Hmay as [Ho|Ha]; [left|right].
      * by rewrite ownerOf_withMembersOf.
      * rewrite membershipOf_withMembersOf.
        unfold Permissions.membershipOf in Ha.
        destruct (projects db !! id); simpl in *; [|done].
        by rewrite lookup_insert_ne.
    + intros [_ ?]. done.
  - destruct Hmay as [Ho|Ha]; [left|right].
    + by rewrite ownerOf_withMembersOf.
    + rewrite membershipOf_withMembersOf.
      unfold Permissions.membershipOf in Ha.
      destruct (projects db !! id); simpl in *; [|done].
      by rewrite lookup_insert_ne.
  - intros [_ ?]. done.
Qed.

Lemma addContributor_then_removeContributor_witness :
  let body :=
    {| ProjectController.ac_email := Some "David@Example.com";
       ProjectController.ac_role := None |} in
  let added :=
    ProjectController.addContributor (Some Fixture.alice) "p1" body
      Fixture.db0 in
  Permissions.membershipOf added.2 "u4" "p1" = Some CONTRIBUTOR
  ∧ ProjectController.removeContributor (Some Fixture.alice) "p1" "u4" added.2
    = (Success "Contributeur retiré avec succès" DataNone 200, Fixture.db0).
Proof.
  split; [by vm_compute|].
  apply (addContributor_then_removeContributor Fixture.db0 Fixture.alice "p1"
           {| ProjectController.ac_email := Some "David@Example.com";
              ProjectController.ac_role := None |}
           (Fixture.userRow Fixture.david));
    [by vm_compute | by vm_compute | by vm_compute].
Defined.

(** X7.  A body that [addContributor] cannot use is answered by a server
    error, status 500, and nothing is written: a body without email, and
    a body whose role is neither ADMIN nor CONTRIBUTOR once the email has
    designated a user who may be added. *)
Theorem addContributor_unusable_body (db : DB) (u : AuthUser) (id : string)
    (body : ProjectController.AddContributorData) :
  mayModify db u id →
  ProjectController.ac_email body = None
  ∨ (∃ target, designated db body = Some target
               ∧ Permissions.membershipOf db target.1 id = None
               ∧ askedRole body = None) →
  ProjectController.addContributor (Some u) id body db
  = (ServerFailure "Erreur lors de l'ajout du contributeur", db).
Proof.
  intros Hmay Hbody.
  unfold ProjectController.addContributor, designated, askedRole, mayModify,
    Permissions.membershipOf in *.
  destruct body as [email role]; simpl in *.
  destruct Hbody as [->|(target & Ht & Hrow & Hrole)].
  - crunch; tauto.
  - destruct email as [e|]; simpl in *; [|done].
    crunch; try tauto; congruence.
Qed.

Lemma addContributor_unusable_body_witness :
  ProjectController.addContributor (Some Fixture.alice) "p1"
    {| ProjectController.ac_email := Some "david@example.com";
       ProjectController.ac_role := Some "OWNER" |} Fixture.db0
  = (ServerFailure "Erreur lors de l'ajout du contributeur", Fixture.db0).
Proof.
  apply addContributor_unusable_body.
  - by left.
  - right. exists (Fixture.userRow Fixture.david). by vm_compute.
Defined.

Section ProjectUpdates.

Import Permissions Validation ProjectController.

Local Opaque validateUpdateProjectData.

Lemma updateProject_effect db user id body :
  let res := updateProject user id body db in
  if isSuccess res.1
  then ∃ p, projects db !! id = Some p
            ∧ validProjectUpdate body
            ∧ res.2 = withProjects db
                        (<[id := applyProjectUpdate body p]> (projects db))
  else res.2 = db.
Proof.
  unfold updateProject, validProjectUpdate.
  destruct user as [u|]; [|by crunch].
  crunch; try done; eexists; split_and!; try done; by apply nil_length_inv.
Qed.

Lemma deleteProject_effect db user id :
  let res := deleteProject user id db in
  if isSuccess res.1
  then (∃ u, user = Some u ∧ ownerOf db id = Some (auth_id u))
       ∧ res.2 = {| users := users db;
                    projects := delete id (projects db);
                    tasks := filter (λ t, projectId t.2 ≠ id) (tasks db);
                    comments :=
                      filter (λ c, projectId <$> tasks db !! taskId c.2
                                   ≠ Some id) (comments db) |}
  else res.2 = db
       ∧ ¬ ∃ u, user = Some u ∧ ownerOf db id = Some (auth_id u).
Proof.
  unfold deleteProject.
  destruct user as [u|];
    [|crunch; split; [done | by intros (? & ? & _)]].
  crunch; try done.
  all: unfold ownerOf in *; split; try done.
  all: try (intros (u0 & [= <-] & ?); by simplify_option_eq).
  all: by exists u.
Qed.

End ProjectUpdates.

(** X8.  [updateProject] writes only when it answers a success, and then
    it changes the name and the description of that project and nothing
    else: the owner and the membership rows of the project, the other
    projects, the users, the tasks and the comments are as they were. *)
Theorem updateProject_changes_name_and_description (db : DB)
    (user : option AuthUser) (id : string)
    (body : Validation.UpdateProjectData) :
  let res := ProjectController.updateProject user id body db in
  users res.2 = users db ∧ tasks res.2 = tasks db
  ∧ comments res.2 = comments db
  ∧ (∀ k, k ≠ id → projects res.2 !! k = projects db !! k)
  ∧ option_Forall2 (λ p' p, ownerId p' = ownerId p ∧ members p' = members p)
      (projects res.2 !! id) (projects db !! id)
  ∧ (isSuccess res.1 = false → res.2 = db).
Proof.
  intros res. pose proof (updateProject_effect db user id body) as H.
  fold res in H. cbv zeta in H. destruct (isSuccess res.1).
  - destruct H as (p & Hp & _ & ->). simpl. split_and!; try done.
    + intros k Hk. by rewrite lookup_insert_ne.
    + rewrite lookup_insert_eq, Hp. by constructor.
  - rewrite H. split_and!; try done.
    by destruct (projects db !! id); constructor.
Qed.

(** X9.  [deleteProject] succeeds for the owner of the project and for
    nobody else, an administrator included.  A refusal writes nothing.  A
    success deletes the project with its tasks and their comments, leaves
    the users, the other projects, their tasks and their comments as they
    were, and afterwards nobody has access to the project. *)
Theorem deleteProject_owner_only (db : DB) (user : option AuthUser)
    (id : string) :
  let res := ProjectController.deleteProject user id db in
  (isSuccess res.1 = true
   ↔ ∃ u, user = Some u ∧ Permissions.ownerOf db id = Some (auth_id u))
  ∧ (isSuccess res.1 = false → res.2 = db)
  ∧ (isSuccess res.1 = true →
     users res.2 = users db
     ∧ projects res.2 = delete id (projects db)
     ∧ (∀ k t, tasks res.2 !! k = Some t
               ↔ tasks db !! k = Some t ∧ projectId t ≠ id)
     ∧ (∀ k c, comments res.2 !! k = Some c
               ↔ comments db !! k = Some c
                 ∧ projectId <$> tasks db !! taskId c ≠ Some id)
     ∧ ∀ u', ¬ hasAccess res.2 u' id).
Proof.
  intros res. pose proof (deleteProject_effect db user id) as H.
  fold res in H. cbv zeta in H. destruct (isSuccess res.1).
  - destruct H as [Ho ->]. simpl. split; [done|]. split; [done|].
    intros _. split; [done|]. split; [done|]. split_and!.
    + intros k t. by rewrite map_lookup_filter_Some.
    + intros k c. by rewrite map_lookup_filter_Some.
    + intros u'. unfold hasAccess, Permissions.ownerOf,
        Permissions.membershipOf. simpl. rewrite lookup_delete_eq. simpl.
      intros [|[]]; done.
  - destruct H as [-> Hno]. by split_and!.
Qed.

(** ** Tasks *)

Section TaskRoutes.

Import Permissions Validation TaskAssignments.
Import ProjectController TaskController CommentController.

Lemma findComment_of_task db commentId tId id :
  Prisma.findTask db tId id = None →
  Prisma.findComment db commentId tId id = None.
Proof.
  unfold Prisma.findTask, Prisma.findComment. intros Ht.
  destruct (comments db !! commentId); [|done].
  destruct (tasks db !! tId) as [t|]; simpl in *.
  - case_bool_decide; [done|].
    rewrite (bool_decide_eq_false_2 (Some (projectId t) = Some id))
      by congruence.
    by rewrite andb_false_r.
  - by rewrite andb_false_r.
Qed.

End TaskRoutes.

Ltac absent Ht Hc :=
  rewrite ?Ht, ?Hc in *;
  try match goal with
    | H : is_Some None |- _ => by destruct H
    end.

Ltac crunch_absent Ht Hc :=
  crunch_with ltac:(absent Ht Hc); absent Ht Hc; simpl in *.

(** X10.  A task is reached through its own project only.  When no task
    of that id belongs to the project of the route, the task routes and
    the comment routes under it answer a refusal and write nothing; to a
    member of the project, the routes that carry no body answer
    TASK_NOT_FOUND, and COMMENT_NOT_FOUND those that name a comment. *)
Theorem task_reached_through_its_project
    (dateToISOString : string → option string)
    (fails : TaskAssignments.RowWrite → bool)
    (db : DB) (user : option AuthUser) (id tId commentId newId : string)
    (now : Z) (taskBody : Validation.UpdateTaskData)
    (commentBody : Validation.CommentData) :
  Prisma.findTask db tId id = None →
  Forall (λ res : Response * DB,
            refusedWith [400; 401; 403; 404] res.1 ∧ res.2 = db)
    [ TaskController.getTask user id tId db;
      TaskController.updateTask dateToISOString fails user id tId taskBody
        now db;
      TaskController.deleteTask user id tId db;
      CommentController.createComment user id tId commentBody newId now db;
      CommentController.getComments user id tId db;
      CommentController.getComment user id tId commentId db;
      CommentController.updateComment user id tId commentId commentBody db;
      CommentController.deleteComment user id tId commentId db ]
  ∧ (∀ u, user = Some u → hasAccess db u id →
     Forall (λ res : Response * DB, errorCode res.1 = Some "TASK_NOT_FOUND")
       [ TaskController.getTask user id tId db;
         TaskController.deleteTask user id tId db;
         CommentController.getComments user id tId db ]
     ∧ Forall (λ res : Response * DB,
                 errorCode res.1 = Some "COMMENT_NOT_FOUND")
         [ CommentController.getComment user id tId commentId db;
           CommentController.deleteComment user id tId commentId db ]).
Proof.
  intros Ht. pose proof (findComment_of_task db commentId tId id Ht) as Hc.
  unfold refusedWith. split.
  - repeat apply Forall_cons_2; [..|apply Forall_nil_2].
    + unfold TaskController.getTask. crunch_absent Ht Hc; refusing.
    + unfold TaskController.updateTask.
      generalize (Validation.validateUpdateTaskData dateToISOString taskBody).
      intros errs. crunch_absent Ht Hc; refusing.
    + unfold TaskController.deleteTask. crunch_absent Ht Hc; refusing.
    + unfold CommentController.createComment.
      generalize (Validation.validateCreateCommentData commentBody).
      intros errs. crunch_absent Ht Hc; refusing.
    + unfold CommentController.getComments. crunch_absent Ht Hc; refusing.
    + unfold CommentController.getComment. crunch_absent Ht Hc; refusing.
    + unfold CommentController.updateComment.
      generalize (Validation.validateUpdateCommentData commentBody).
      intros errs. crunch_absent Ht Hc; refusing.
    + unfold CommentController.deleteComment. crunch_absent Ht Hc; refusing.
  - intros u -> Hacc. unfold hasAccess in Hacc.
    split; repeat apply Forall_cons_2; try apply Forall_nil_2.
    + unfold TaskController.getTask. crunch_absent Ht Hc; tauto.
    + unfold TaskController.deleteTask. crunch_absent Ht Hc; tauto.
    + unfold CommentController.getComments. crunch_absent Ht Hc; tauto.
    + unfold CommentController.getComment. crunch_absent Ht Hc; tauto.
    + unfold CommentController.deleteComment. crunch_absent Ht Hc; tauto.
Qed.

Lemma task_reached_through_its_project_witness :
  TaskController.deleteTask (Some Fixture.alice) "p2" "t1"
    (withProjects Fixture.db0
       (<["p2" := Fixture.abricot]> (projects Fixture.db0)))
  = (Failure "Tâche non trouvée" "TASK_NOT_FOUND" 404,
     withProjects Fixture.db0
       (<["p2" := Fixture.abricot]> (projects Fixture.db0))).
Proof.
  pose (db := withProjects Fixture.db0
                (<["p2" := Fixture.abricot]> (projects Fixture.db0))).
  destruct (task_reached_through_its_project Fixture.noDate Fixture.storageUp
              db (Some Fixture.alice) "p2" "t1" "c1" "c9" 50
              (Fixture.assign []) {| Validation.cm_content := None |}
              eq_refl) as [Hall _].
  apply Forall_cons_1 in Hall as [_ Hall].
  apply Forall_cons_1 in Hall as [_ Hall].
  apply Forall_inv in Hall as [_ Hdb].
  fold db. rewrite <- Hdb at 2.
  by destruct (TaskController.deleteTask _ _ _ _) eqn:E; vm_compute in E;
    simplify_eq.
Defined.

(** ** Tasks: what the routes write *)

Section TaskWrites.

Import Permissions Validation TaskAssignments.
Import ProjectController TaskController.

Variable dateToISOString : string → option string.
Variable fails : RowWrite → bool.

Local Opaque validateUpdateTaskData validateCreateTaskData forallb.
Local Opaque updateTaskAssignments.

Lemma updateTask_writes db user id tId body now :
  let res := updateTask dateToISOString fails user id tId body now db in
  res.2 = db
  ∨ ∃ t t', Prisma.findTask db tId id = Some t
            ∧ validateUpdateTaskData dateToISOString body = []
            ∧ title t' = from_option Js.trim (title t) (ut_title body)
            ∧ description t'
              = match ut_description body with
                | Some d => trimOrNull (Some d)
                | None => description t
                end
            ∧ projectId t' = projectId t ∧ creatorId t' = creatorId t
            ∧ task_createdAt t' = task_createdAt t
            ∧ (ut_assigneeIds body = None → assignees t' = assignees t)
            ∧ res.2 = withTasks db (<[tId := t']> (tasks db)).
Proof.
  unfold updateTask. destruct body; simpl in *; subst.
  crunch_with ltac:(try congruence).
  all: repeat match goal with
    | H : updateTaskAssignments _ _ _ _ _ = _ |- _ =>
        rewrite (updateTaskAssignments_run _ _ _ _ _ _
                   (lookup_insert_eq _ _ _)) in H;
        destruct (accepted _ _); simplify_eq
    end.
  all: try (by left).
  all: right;
    match goal with
    | H : tasks _ !! _ = Some ?t |- _ => exists t
    end; eexists; split_and!.
  all: try match goal with
    | |- _ = withTasks _ _ =>
        unfold withTasks; simpl; rewrite ?insert_insert_eq; reflexivity
    end.
  all: try done.
  all: try (by apply nil_length_inv).
  all: try (simpl; reflexivity).
  all: try (simpl; unfold trimOrNull; simpl; repeat case_bool_decide;
            simpl; congruence).
  all: try (unfold Prisma.findTask in *;
            match goal with
            | H : tasks _ !! _ = Some _ |- _ => rewrite H in *
            end; case_bool_decide; [done | by destruct H1]).
Qed.

Lemma updateTask_unparsed db u id tId body now :
  validateUpdateTaskData dateToISOString body = [] →
  hasAccess db u id →
  is_Some (Prisma.findTask db tId id) →
  (∀ ids, ut_assigneeIds body = Some ids →
          forallb (isMember db id) ids = true) →
  (ut_status body ≫= parseStatus = None ∧ is_Some (ut_status body))
  ∨ (ut_priority body ≫= parsePriority = None ∧ is_Some (ut_priority body)) →
  updateTask dateToISOString fails (Some u) id tId body now db
  = (ServerFailure "Erreur lors de la mise à jour de la tâche", db).
Proof.
  intros Hv Hacc Hfound Hall Hbad. unfold updateTask, hasAccess in *.
  rewrite Hv. destruct body; simpl in *; subst.
  crunch_with ltac:(try congruence); try tauto.
  all: try (by destruct Hfound).
  all: try (by rewrite (Hall _ eq_refl) in *).
  all: destruct Hbad as [[? []]|[? []]]; simplify_eq.
Qed.

Lemma createTask_writes db user id body newId now :
  let res := createTask dateToISOString fails user id body newId now db in
  isSuccess res.1 = false ∧ res.2 = db
  ∨ ∃ u, user = Some u ∧ hasAccess db u id ∧ tasks db !! newId = None
         ∧ validateCreateTaskData dateToISOString body = []
         ∧ forallb (isMember db id) (declaredAssignees body) = true
         ∧ let t := createdTask u id body now in
           let declared := declaredAssignees body in
           if accepted fails (reconcile ∅ declared)
           then isSuccess res.1 = true
                ∧ res.2 = withTasks db
                    (<[newId := withAssignees t
                                  (writeAll now (reconcile ∅ declared) ∅)]>
                       (tasks db))
           else res.1 = ServerFailure "Erreur lors de la création de la tâche"
                ∧ res.2 = withTasks db (<[newId := t]> (tasks db)).
Proof.
  unfold createTask, declaredAssignees.
  destruct body; simpl in *; subst.
  crunch_with ltac:(try congruence).
  all: repeat match goal with
    | H : updateTaskAssignments _ _ _ _ _ = _ |- _ =>
        rewrite (updateTaskAssignments_run _ _ _ _ _ _
                   (lookup_insert_eq _ _ _)) in H;
        destruct (accepted _ _) eqn:?; simplify_eq
    end.
  all: try (by left).
  all: right;
    match goal with
    | |- ∃ u, Some ?a = Some u ∧ _ => exists a
    end; unfold hasAccess; split_and!; try done; try tauto.
  all: try (by apply nil_length_inv).
  all: unfold createdTask, declaredAssignees; simpl in *.
  all: try match goal with
    | H : accepted _ _ = _ |- _ => rewrite H
    end.
  all: try match goal with
    | H : ¬ is_Some (<[_:=_]> _ !! _) |- _ =>
        destruct H; rewrite lookup_insert_eq; by eexists
    end.
  all: try split; try done.
  all: repeat match goal with
    | H : Js.truthy _ = _ |- _ => rewrite H
    end.
  all: unfold withTasks; simpl; rewrite ?insert_insert_eq.
  all: rewrite ?bool_decide_eq_false_2, ?bool_decide_eq_true_2 by done;
    simpl.
  all: repeat match goal with
    | H : parsePriority _ = _ |- _ => rewrite H
    end; simpl; try done.
Qed.

Lemma valid_task_has_title body :
  validateCreateTaskData dateToISOString body = [] → is_Some (ct_title body).
Proof.
  Local Transparent validateCreateTaskData.
  unfold validateCreateTaskData. intros H.
  apply app_eq_nil in H as [H _].
  destruct (ct_title body); [by eexists | discriminate].
Qed.

Lemma valid_priority_parses (o : option string) :
  priorityErrors o = [] → Js.truthy o = true →
  is_Some (o ≫= parsePriority).
Proof.
  unfold priorityErrors. destruct o as [s|]; [|done]. intros H Ht.
  rewrite Ht in H.
  destruct (decide (s ∈ ["LOW"; "MEDIUM"; "HIGH"; "URGENT"])) as [Hin|Hn].
  - simpl. set_unfold in Hin.
    destruct Hin as [->|[->|[->|[->|[]]]]]; by eexists.
  - rewrite bool_decide_eq_false_2 in H by done. discriminate.
Qed.

Lemma valid_task_priority body :
  validateCreateTaskData dateToISOString body = [] →
  Js.truthy (ct_priority body) = true →
  is_Some (ct_priority body ≫= parsePriority).
Proof.
  unfold validateCreateTaskData. intros H.
  apply app_eq_nil in H as [_ H]. apply app_eq_nil in H as [_ H].
  apply app_eq_nil in H as [H _]. by apply valid_priority_parses.
Qed.
Local Opaque validateCreateTaskData.

Lemma createTask_goes_through db u id body newId now :
  id ≠ "" →
  validateCreateTaskData dateToISOString body = [] →
  hasAccess db u id →
  tasks db !! newId = None →
  forallb (isMember db id) (declaredAssignees body) = true →
  accepted fails (reconcile ∅ (declaredAssignees body)) = true →
  let res := createTask dateToISOString fails (Some u) id body newId now db in
  isSuccess res.1 = true ∧ httpStatusOf res.1 = 201.
Proof.
  intros Hid Hv Hacc Hnew Hall Hok.
  pose proof (valid_task_has_title _ Hv) as [ttl Httl].
  pose proof (valid_task_priority _ Hv) as Hpr.
  unfold createTask, hasAccess, declaredAssignees in *. rewrite Hv.
  destruct body; simpl in *; subst.
  crunch_with ltac:(try congruence); try tauto.
  all: repeat match goal with
    | H : updateTaskAssignments _ _ _ _ _ = _ |- _ =>
        rewrite (updateTaskAssignments_run _ _ _ _ _ _
                   (lookup_insert_eq _ _ _)) in H;
        simpl in H; rewrite ?Hok in H; simplify_eq
    end.
  all: unfold withTasks in *; simpl in *.
  all: try match goal with
    | H : ¬ is_Some (<[_:=_]> _ !! _) |- _ =>
        destruct H; rewrite lookup_insert_eq; by eexists
    | H : ¬ is_Some (projects ?d !! ?i) |- _ =>
        unfold ownerOf, membershipOf in *;
        destruct (projects d !! i); simpl in *;
        [destruct H; by eexists | by destruct Hacc as [|[]]]
    | H : true = true → is_Some None |- _ => by destruct (H eq_refl)
    end.
Qed.

End TaskWrites.

(** X11.  Whatever it answers, [updateTask] touches one row, the task of
    the route: users, projects, comments and the other tasks are as they
    were, and the task keeps its project, its creator and its date of
    creation.  A body without [assigneeIds] leaves its assignees as they
    were. *)
Theorem updateTask_touches_one_task
    (dateToISOString : string → option string)
    (fails : TaskAssignments.RowWrite → bool)
    (db : DB) (user : option AuthUser) (id tId : string)
    (body : Validation.UpdateTaskData) (now : Z) :
  let res :=
    TaskController.updateTask dateToISOString fails user id tId body now db in
  sameButTask tId db res.2
  ∧ (Validation.ut_assigneeIds body = None →
     assignees <$> tasks res.2 !! tId = assignees <$> tasks db !! tId).
Proof.
  intros res.
  destruct (updateTask_writes dateToISOString fails db user id tId body now)
    as [H|(t & t' & Ht & _ & _ & _ & Hp & Hc & Hd & Ha & H)];
    fold res in H; rewrite H.
  - split; [|done]. unfold sameButTask. split_and!; try done.
    by destruct (tasks db !! tId); constructor.
  - assert (tasks db !! tId = Some t) as Hl.
    { unfold Prisma.findTask in Ht. destruct (tasks db !! tId); [|done].
      by case_bool_decide; simplify_eq. }
    unfold sameButTask. simpl. rewrite lookup_insert_eq, Hl.
    split_and!; try done.
    + intros k Hk. by rewrite lookup_insert_ne.
    + by constructor.
    + intros Hn. simpl. by rewrite Ha.
Qed.

(** X12.  An empty string sent as [status] or as [priority] passes the
    validation, which tests the value only when it is truthy, and is
    then refused by Prisma: to a member of the project that sends a body
    valid otherwise, [updateTask] answers a server error, status 500,
    and writes nothing. *)
Theorem updateTask_empty_enum_is_server_error
    (dateToISOString : string → option string)
    (fails : TaskAssignments.RowWrite → bool)
    (db : DB) (u : AuthUser) (id tId : string)
    (body : Validation.UpdateTaskData) (now : Z) :
  passesUpdateGates dateToISOString db (Some u) id tId body →
  (∀ ids, Validation.ut_assigneeIds body = Some ids →
          forallb (TaskAssignments.isMember db id) ids = true) →
  Validation.ut_status body = Some ""
  ∨ Validation.ut_priority body = Some "" →
  TaskController.updateTask dateToISOString fails (Some u) id tId body now db
  = (ServerFailure "Erreur lors de la mise à jour de la tâche", db).
Proof.
  intros (u' & [= <-] & Hv & Hacc & Hfound) Hall Hbad.
  apply updateTask_unparsed; try done.
  destruct Hbad as [->| ->]; [left|right]; by split; [|eexists].
Qed.

Lemma updateTask_empty_enum_is_server_error_witness :
  let body :=
    {| Validation.ut_title := Some "Maquette v2";
       Validation.ut_description := None;
       Validation.ut_status := Some "";
       Validation.ut_priority := None; Validation.ut_dueDate := None;
       Validation.ut_assigneeIds := None |} in
  Validation.validateUpdateTaskData Fixture.noDate body = []
  ∧ TaskController.updateTask Fixture.noDate Fixture.storageUp
      (Some Fixture.caroline) "p1" "t1" body 50 Fixture.db0
    = (ServerFailure "Erreur lors de la mise à jour de la tâche",
       Fixture.db0).
Proof.
  split; [by vm_compute|].
  apply updateTask_empty_enum_is_server_error.
  - exists Fixture.caroline.
    split_and!; [reflexivity | by vm_compute | right; by eexists | by eexists].
  - intros ids [=].
  - by left.
Defined.

(** X13.  A creation that passes the gates, takes a free id, declares
    members only and meets a storage that takes the writes answers 201
    and adds one task and nothing else.  The task belongs to the project
    of the route, its creator is the caller, its title is the trimmed
    title, its priority is MEDIUM when the body names none, and its
    assignees are exactly the declared ids, each stamped with the time of
    the call and each a member of the project. *)
Theorem createTask_creates
    (dateToISOString : string → option string)
    (fails : TaskAssignments.RowWrite → bool)
    (db : DB) (u : AuthUser) (id : string)
    (body : Validation.CreateTaskData) (newId : string) (now : Z) :
  passesCreateGates dateToISOString db (Some u) id body →
  tasks db !! newId = None →
  forallb (TaskAssignments.isMember db id) (declaredAssignees body) = true →
  accepted fails (TaskAssignments.reconcile ∅ (declaredAssignees body))
  = true →
  let res :=
    TaskController.createTask dateToISOString fails (Some u) id body newId
      now db in
  isSuccess res.1 = true ∧ httpStatusOf res.1 = 201
  ∧ ∃ t, res.2 = withTasks db (<[newId := t]> (tasks db))
         ∧ projectId t = id ∧ creatorId t = auth_id u
         ∧ task_createdAt t = now
         ∧ Some (title t) = Js.trim <$> Validation.ct_title body
         ∧ (Js.truthy (Validation.ct_priority body) = false →
            priority t = MEDIUM)
         ∧ replacedBy now (declaredAssignees body) ∅ (assignees t)
         ∧ ∀ x, is_Some (assignees t !! x) →
                TaskAssignments.isMember db id x = true.
Proof.
  intros (Hid & u' & [= <-] & Hv & Hacc) Hnew Hall Hok res.
  destruct (createTask_goes_through dateToISOString fails db u id body newId
              now Hid Hv Hacc Hnew Hall Hok) as [Hs Hst].
  fold res in Hs, Hst. split; [done|]. split; [done|].
  destruct (createTask_writes dateToISOString fails db (Some u) id body newId
              now) as [[Hf _]|(u' & [= <-] & _ & _ & _ & _ & H)];
    fold res in Hf || fold res in H; [congruence|].
  cbv zeta in H. rewrite Hok in H. destruct H as [_ ->].
  pose proof (reconcile_replaces now ∅ (declaredAssignees body)) as Hrows.
  destruct (valid_task_has_title dateToISOString _ Hv) as [ttl Httl].
  eexists. split; [reflexivity|]. simpl. split_and!; try done.
  - by rewrite Httl.
  - by intros ->.
  - intros x [z Hx]. rewrite (Hrows x) in Hx.
    case_bool_decide as Hin; [|done].
    rewrite forallb_forall in Hall. apply Hall.
    by apply list_elem_of_In.
Qed.

Lemma createTask_creates_witness :
  let body :=
    {| Validation.ct_title := Some "  Recette  ";
       Validation.ct_description := None;
       Validation.ct_priority := None; Validation.ct_dueDate := None;
       Validation.ct_assigneeIds := Some ["u3"; "u1"] |} in
  let res :=
    TaskController.createTask Fixture.noDate Fixture.storageUp
      (Some Fixture.caroline) "p1" body "t2" 50 Fixture.db0 in
  httpStatusOf res.1 = 201
  ∧ ∃ t, tasks res.2 !! "t2" = Some t
         ∧ title t = "Recette" ∧ priority t = MEDIUM
         ∧ assignees t !! "u3" = Some 50%Z ∧ assignees t !! "u2" = None.
Proof.
  intros body res.
  destruct (createTask_creates Fixture.noDate Fixture.storageUp Fixture.db0
              Fixture.caroline "p1" body "t2" 50)
    as (_ & Hst & t & Hdb & _ & _ & _ & Httl & Hpr & Hrows & _).
  - split; [done|]. exists Fixture.caroline.
    split_and!; [reflexivity | by vm_compute | right; by eexists].
  - reflexivity.
  - by vm_compute.
  - by vm_compute.
  - split; [exact Hst|]. exists t. fold res in Hdb. rewrite Hdb. simpl.
    rewrite lookup_insert_eq. split_and!.
    + done.
    + assert (Js.trim "  Recette  " = "Recette") as Htrim by reflexivity.
      simpl in Httl. rewrite Htrim in Httl. congruence.
    + by apply Hpr.
    + by rewrite (Hrows "u3").
    + by rewrite (Hrows "u2").
Defined.

(** X14.  The creation of a task and the writing of its assignees are two
    steps: when the storage refuses a write of the second, [createTask]
    answers a server error, status 500, and the task stays in the
    database, without assignees. *)
Theorem createTask_keeps_task_when_assignment_fails
    (dateToISOString : string → option string)
    (fails : TaskAssignments.RowWrite → bool)
    (db : DB) (u : AuthUser) (id : string)
    (body : Validation.CreateTaskData) (newId : string) (now : Z) :
  passesCreateGates dateToISOString db (Some u) id body →
  tasks db !! newId = None →
  forallb (TaskAssignments.isMember db id) (declaredAssignees body) = true →
  accepted fails (TaskAssignments.reconcile ∅ (declaredAssignees body))
  = false →
  TaskController.createTask dateToISOString fails (Some u) id body newId
    now db
  = (ServerFailure "Erreur lors de la création de la tâche",
     withTasks db (<[newId := createdTask u id body now]> (tasks db))).
Proof.
  intros (Hid & u' & [= <-] & Hv & Hacc) Hnew Hall Hno.
  destruct (createTask_writes dateToISOString fails db (Some u) id body newId
              now) as [[Hf Hdb]|(u' & [= <-] & _ & _ & _ & _ & H)].
  - exfalso. revert Hf Hdb.
    pose proof (valid_task_has_title dateToISOString _ Hv) as [ttl Httl].
    pose proof (valid_task_priority dateToISOString _ Hv) as Hpr.
    unfold TaskController.createTask, hasAccess, declaredAssignees in *.
    rewrite Hv. destruct body; simpl in *; subst.
    assert (Hne : ProjectController.nonEmpty ct_assigneeIds = true).
    { destruct ct_assigneeIds as [[|]|]; try done; by vm_compute in Hno. }
    rewrite Hne.
    crunch_with ltac:(try congruence); try tauto.
    all: try match goal with
      | H : ¬ is_Some (projects ?d !! ?i) |- _ =>
          unfold Permissions.ownerOf, Permissions.membershipOf in *;
          destruct (projects d !! i); simpl in *;
          [destruct H; by eexists | by destruct Hacc as [|[]]]
      | H : true = true → is_Some None |- _ => by destruct (H eq_refl)
      end.
    all: intros _ Hdb; apply (f_equal (λ d, tasks d !! newId)) in Hdb;
      simpl in Hdb.
    all: repeat match goal with
      | H : TaskAssignments.updateTaskAssignments _ _ _ _ _ = _ |- _ =>
          rewrite (updateTaskAssignments_run _ _ _ _ _ _
                     (lookup_insert_eq _ _ _)) in H;
          simpl in H; rewrite ?Hno in H; simplify_eq
      end.
    all: simpl in Hdb; rewrite ?lookup_insert_eq in Hdb; congruence.
  - cbv zeta in H. rewrite Hno in H. destruct H as [H1 H2].
    by destruct (TaskController.createTask _ _ _ _ _ _ _ _); simpl in *; subst.
Qed.

Lemma createTask_keeps_task_when_assignment_fails_witness :
  let body :=
    {| Validation.ct_title := Some "Recette";
       Validation.ct_description := None;
       Validation.ct_priority := None; Validation.ct_dueDate := None;
       Validation.ct_assigneeIds := Some ["u3"] |} in
  let res :=
    TaskController.createTask Fixture.noDate Fixture.storageDown
      (Some Fixture.alice) "p1" body "t2" 50 Fixture.db0 in
  httpStatusOf res.1 = 500
  ∧ (assignees <$> tasks res.2 !! "t2") = Some ∅.
Proof.
  intros body res. unfold res.
  rewrite createTask_keeps_task_when_assignment_fails.
  - split; [reflexivity|]. simpl. by rewrite lookup_insert_eq.
  - split; [done|]. exists Fixture.alice.
    split_and!; [reflexivity | by vm_compute | by left].
  - reflexivity.
  - by vm_compute.
  - by vm_compute.
Defined.

Lemma deleteTask_effect db user id tId :
  let res := TaskController.deleteTask user id tId db in
  if isSuccess res.1
  then (∃ u, user = Some u ∧ hasAccess db u id)
       ∧ is_Some (Prisma.findTask db tId id)
       ∧ res.2 = {| users := users db; projects := projects db;
                    tasks := delete tId (tasks db);
                    comments :=
                      filter (λ c, taskId c.2 ≠ tId) (comments db) |}
  else res.2 = db
       ∧ ¬ ((∃ u, user = Some u ∧ hasAccess db u id)
            ∧ is_Some (Prisma.findTask db tId id)).
Proof.
  unfold TaskController.deleteTask, hasAccess.
  destruct user as [u|];
    [|crunch; split; [done | by intros [(? & ? & _) _]]].
  crunch; try done.
  all: try (split; [done|]; intros [(u0 & [= <-] & ?) ?]; tauto).
  all: try (split_and!; [exists u; tauto | done | done]).
  all: exfalso; unfold Prisma.findTask in *;
    match goal with
    | H : tasks _ !! _ = None |- _ => rewrite H in *
    end;
    match goal with
    | H : is_Some None |- _ => by destruct H
    end.
Qed.

(** X15.  [deleteTask] succeeds exactly for a signed-in caller who has
    access to the project, whatever their role and whoever created the
    task, on a task of that project.  A refusal writes nothing.  A
    success deletes the task and its comments and nothing else. *)
Theorem deleteTask_by_any_member (db : DB) (user : option AuthUser)
    (id tId : string) :
  let res := TaskController.deleteTask user id tId db in
  (isSuccess res.1 = true
   ↔ (∃ u, user = Some u ∧ hasAccess db u id)
     ∧ is_Some (Prisma.findTask db tId id))
  ∧ (isSuccess res.1 = false → res.2 = db)
  ∧ (isSuccess res.1 = true →
     users res.2 = users db ∧ projects res.2 = projects db
     ∧ tasks res.2 = delete tId (tasks db)
     ∧ ∀ k c, comments res.2 !! k = Some c
              ↔ comments db !! k = Some c ∧ taskId c ≠ tId).
Proof.
  intros res. pose proof (deleteTask_effect db user id tId) as H.
  fold res in H. cbv zeta in H. destruct (isSuccess res.1).
  - destruct H as (Hu & Ht & ->). simpl. split; [done|]. split; [done|].
    intros _. split; [done|]. split; [done|]. split; [done|].
    intros k c. by rewrite map_lookup_filter_Some.
  - destruct H as [-> Hno]. by split_and!.
Qed.

(** ** Comments: what the routes write *)

Section CommentWrites.

Import Permissions Validation CommentController.

Local Opaque validateCreateCommentData validateUpdateCommentData.

Lemma createComment_effect db user id tId body newId now :
  let res := createComment user id tId body newId now db in
  if isSuccess res.1
  then ∃ u, user = Some u ∧ hasAccess db u id
            ∧ is_Some (Prisma.findTask db tId id)
            ∧ comments db !! newId = None
            ∧ validateCreateCommentData body = []
            ∧ res = (Success "Commentaire créé avec succès"
                       (DataComment newId (createdComment u tId body now))
                       201,
                     withComments db
                       (<[newId := createdComment u tId body now]>
                          (comments db)))
  else res.2 = db.
Proof.
  unfold createComment, hasAccess, createdComment, withComments.
  destruct user as [u|]; [|by crunch].
  destruct body as [[text|]]; crunch; try done.
  all: exists u; split_and!; try done; try tauto; by apply nil_length_inv.
Qed.

Lemma updateComment_effect db user id tId commentId body :
  let res := updateComment user id tId commentId body db in
  if isSuccess res.1
  then ∃ c text, comments db !! commentId = Some c
                 ∧ cm_content body = Some text
                 ∧ validateUpdateCommentData body = []
                 ∧ res.2 = withComments db
                             (<[commentId := withContent (Js.trim text) c]>
                                (comments db))
  else res.2 = db.
Proof.
  unfold updateComment, withComments.
  destruct user as [u|]; [|by crunch].
  destruct body as [[text|]]; crunch; try done.
  all: eexists _, _; split_and!; try done; try (by apply nil_length_inv).
  all: unfold Prisma.findComment in *; simplify_option_eq; done.
Qed.

Lemma deleteComment_effect db user id tId commentId :
  let res := deleteComment user id tId commentId db in
  if isSuccess res.1
  then res = (Success "Commentaire supprimé avec succès" DataNone 200,
              withComments db (delete commentId (comments db)))
  else res.2 = db.
Proof.
  unfold deleteComment, withComments.
  destruct user as [u|]; [|by crunch]. crunch; done.
Qed.

End CommentWrites.

Section CommentListing.

Import Permissions Validation CommentController.

Lemma getComments_run db u id tId :
  hasAccess db u id →
  is_Some (Prisma.findTask db tId id) →
  getComments (Some u) id tId db
  = (Success "Commentaires récupérés avec succès"
       (DataComments (Prisma.commentsOf db tId Prisma.oldestFirst)) 200, db).
Proof.
  intros Hacc Ht. unfold getComments, hasAccess in *. crunch; tauto.
Qed.

Lemma commentsOf_insert db tId order `{!RelDecision order} newId c :
  comments db !! newId = None →
  taskId c = tId →
  Prisma.commentsOf (withComments db (<[newId := c]> (comments db))) tId order
  ≡ₚ (newId, c) :: Prisma.commentsOf db tId order.
Proof.
  intros Hnew Hc. unfold Prisma.commentsOf. simpl.
  rewrite !merge_sort_Permutation.
  rewrite map_to_list_insert by done.
  by rewrite filter_cons_True.
Qed.

End CommentListing.

(** X16.  A comment that [createComment] has stored is the trimmed content
    of the body, written by the caller on the task of the route at the
    time of the call; the listing of the task then holds it once more
    than before, and the comments it held before. *)
Theorem createComment_is_listed (db : DB) (u : AuthUser) (id tId : string)
    (body : Validation.CommentData) (newId : string) (now : Z) :
  let res := CommentController.createComment (Some u) id tId body newId now db
  in
  isSuccess res.1 = true →
  comments res.2 !! newId = Some (createdComment u tId body now)
  ∧ ∃ before after,
      listed (CommentController.getComments (Some u) id tId db).1
      = Some before
      ∧ listed (CommentController.getComments (Some u) id tId res.2).1
        = Some after
      ∧ after ≡ₚ (newId, createdComment u tId body now) :: before.
Proof.
  intros res Hs.
  pose proof (createComment_effect db (Some u) id tId body newId now) as H.
  fold res in H. cbv zeta in H. rewrite Hs in H.
  destruct H as (u' & [= <-] & Hacc & Ht & Hnew & _ & ->). simpl.
  split; [by rewrite lookup_insert_eq|].
  eexists _, _. rewrite !getComments_run; try done. simpl.
  split_and!; [done | done |].
  by apply commentsOf_insert.
Qed.

Lemma createComment_is_listed_witness :
  let body := {| Validation.cm_content := Some " Troisième " |} in
  let res :=
    CommentController.createComment (Some Fixture.bob) "p1" "t1" body "c3" 40
      Fixture.db0 in
  ∃ after,
    listed (CommentController.getComments (Some Fixture.bob) "p1" "t1"
              res.2).1 = Some after
    ∧ length after = 3.
Proof.
  intros body res.
  destruct (createComment_is_listed Fixture.db0 Fixture.bob "p1" "t1" body
              "c3" 40 eq_refl) as (_ & before & after & Hb & Ha & Hp).
  exists after. split; [exact Ha|].
  rewrite Hp. simpl. f_equal.
  assert (listed (CommentController.getComments (Some Fixture.bob) "p1" "t1"
                    Fixture.db0).1
          = Some [("c1", {| content := "Premier"; taskId := "t1";
                            authorId := "u3"; createdAt := 20 |});
                  ("c2", {| content := "Second"; taskId := "t1";
                            authorId := "u2"; createdAt := 30 |})])
    as Hl by (by vm_compute).
  rewrite Hl in Hb. by injection Hb as <-.
Defined.

(** X17.  Writing a comment and deleting it again leaves the database as
    it was before the two calls. *)
Theorem createComment_then_deleteComment (db : DB) (u : AuthUser)
    (id tId : string) (body : Validation.CommentData) (newId : string)
    (now : Z) :
  let res := CommentController.createComment (Some u) id tId body newId now db
  in
  isSuccess res.1 = true →
  CommentController.deleteComment (Some u) id tId newId res.2
  = (Success "Commentaire supprimé avec succès" DataNone 200, db).
Proof.
  intros res Hs.
  pose proof (createComment_effect db (Some u) id tId body newId now) as H.
  fold res in H. cbv zeta in H. rewrite Hs in H.
  destruct H as (u' & [= <-] & Hacc & [t Ht] & Hnew & _ & ->). simpl.
  assert (Hdel : delete newId (<[newId := createdComment u tId body now]>
                                 (comments db)) = comments db).
  { by rewrite delete_insert_eq, delete_id. }
  assert (Hl : tasks db !! tId = Some t ∧ projectId t = id).
  { unfold Prisma.findTask in Ht. destruct (tasks db !! tId); [|done].
    case_bool_decide; by simplify_eq. }
  destruct Hl as [Hl Hp].
  set (db' := withComments db
                (<[newId := createdComment u tId body now]> (comments db))).
  assert (Hc : Prisma.findComment db' newId tId id
               = Some (createdComment u tId body now)).
  { unfold Prisma.findComment, db'. simpl. rewrite lookup_insert_eq, Hl. simpl.
    by rewrite !bool_decide_eq_true_2 by (by rewrite ?Hp). }
  pose proof (deleteComment_effect db' (Some u) id tId newId) as H.
  cbv zeta in H.
  rewrite (proj2 (deleteComment_success db' (Some u) id tId newId _ Hc)) in H.
  - rewrite H. unfold db', withComments. simpl. by rewrite Hdel, DB_eta.
  - exists u. split_and!; [done | exact Hacc | by left].
Qed.

Lemma createComment_then_deleteComment_witness :
  let body := {| Validation.cm_content := Some "Troisième" |} in
  CommentController.deleteComment (Some Fixture.bob) "p1" "t1" "c3"
    (CommentController.createComment (Some Fixture.bob) "p1" "t1" body "c3" 40
       Fixture.db0).2
  = (Success "Commentaire supprimé avec succès" DataNone 200, Fixture.db0).
Proof.
  intros body.
  by apply (createComment_then_deleteComment Fixture.db0 Fixture.bob "p1"
              "t1" body "c3" 40).
Defined.

(** X18.  Whatever it answers, [updateComment] touches one row, the
    comment of the route, and of it the content only: its task, its
    author and its date of creation, hence its place in the listing by
    date, are as they were. *)
Theorem updateComment_changes_content_only (db : DB)
    (user : option AuthUser) (id tId commentId : string)
    (body : Validation.CommentData) :
  let res := CommentController.updateComment user id tId commentId body db in
  sameButContentOf commentId db res.2
  ∧ (isSuccess res.1 = false → res.2 = db).
Proof.
  intros res.
  pose proof (updateComment_effect db user id tId commentId body) as H.
  fold res in H. cbv zeta in H. unfold sameButContentOf.
  destruct (isSuccess res.1).
  - destruct H as (c & text & Hc & _ & _ & ->). simpl.
    rewrite lookup_insert_eq, Hc. split; [|done]. split_and!; try done.
    + intros k Hk. by rewrite lookup_insert_ne.
    + by constructor.
  - rewrite H. split; [|done]. split_and!; try done.
    by destruct (comments db !! commentId); constructor.
Qed.

(** ** Invariants of the database *)

Section CreateProjectWrites.

Import Permissions ProjectController Validation.

Lemma createProject_writes db user body newId :
  let res := createProject user body newId db in
  res.2 = db
  ∨ ∃ u ms,
      user = Some u ∧ validateCreateProjectData body = []
      ∧ projects db !! newId = None
      ∧ res.2 = withProjects db
          (<[newId := {| project_name := from_option Js.trim "" (cp_name body);
                         project_description :=
                           trimOrNull (cp_description body);
                         ownerId := auth_id u; members := ms |}]>
             (projects db)).
Proof.
  destruct user as [u|]; [|by left].
  destruct (decide (validateCreateProjectData body = [])) as [Hv|Hv];
    [|left; unfold createProject; run;
      destruct (validateCreateProjectData body); done].
  destruct (valid_project_has_name body Hv) as [name Hname].
  destruct (projects db !! newId) eqn:Hfresh.
  { left. unfold createProject. run. rewrite Hv, Hname. simpl.
    by rewrite Hfresh. }
  right. exists u.
  set (p0 := {| project_name := Js.trim name;
                project_description := trimOrNull (cp_description body);
                ownerId := auth_id u; members := ∅ |}).
  set (db1 := withProjects db (<[newId := p0]> (projects db))).
  set (listed := Js.toLowerCase <$> default [] (cp_contributors body)).
  destruct (forEach_create_members newId
              (Prisma.usersWithEmailIn db1 listed) db1 p0)
    as (ms & Hloop & _); [by apply lookup_insert_eq |].
  unfold createProject, controller.
  cbv [mbind Handler_bind mret Handler_ret authenticated unless].
  rewrite Hv, Hname. simpl.
  cbv [Prisma.project_create mbind Handler_bind get]. rewrite Hfresh.
  replace (Prisma.setProjects _ db) with (db1, Next ()) by reflexivity.
  cbv iota beta.
  destruct (nonEmpty (cp_contributors body)) eqn:Hne.
  - cbv [Prisma.user_findMany_emailIn mbind Handler_bind get mret
           Handler_ret].
    fold listed. case_bool_decide as Hlen.
    + rewrite Hloop. cbv iota beta. cbv [sendSuccess send]. simpl.
      exists ms. split_and!; try done. by rewrite insert_insert_eq.
    + cbv [sendSuccess send]. simpl. by exists ∅.
  - cbv [mret Handler_ret sendSuccess send]. simpl. by exists ∅.
Qed.

End CreateProjectWrites.

Section References.

Lemma intact_same db db' :
  db' = db → intact db → intact db'.
Proof. by intros ->. Qed.

Lemma findTask_lookup db tId id t :
  Prisma.findTask db tId id = Some t →
  tasks db !! tId = Some t ∧ projectId t = id.
Proof.
  unfold Prisma.findTask. destruct (tasks db !! tId); [|done].
  case_bool_decide; by intros [= ->].
Qed.

Lemma hasAccess_project db u id :
  hasAccess db u id → is_Some (projects db !! id).
Proof.
  unfold hasAccess, Permissions.ownerOf, Permissions.membershipOf.
  destruct (projects db !! id); [by eexists|].
  by intros [|[]].
Qed.

End References.

(** X19.  Every writing route keeps the references of the database whole:
    if every task belongs to a project that exists and every comment to
    a task that exists, the same holds after the call, whatever the
    caller, the request and the answer. *)
Theorem routes_keep_references
    (dateToISOString : string → option string)
    (fails : TaskAssignments.RowWrite → bool)
    (user : option AuthUser) (id tId commentId userId newId : string)
    (now : Z)
    (newProject : Validation.CreateProjectData)
    (projectBody : Validation.UpdateProjectData)
    (contributorBody : ProjectController.AddContributorData)
    (newTask : Validation.CreateTaskData)
    (taskBody : Validation.UpdateTaskData)
    (commentBody : Validation.CommentData) (db : DB) :
  intact db →
  Forall intact
    (written dateToISOString fails user id tId commentId userId newId now
       newProject projectBody contributorBody newTask taskBody commentBody
       db).
Proof.
  intros [Htasks Hcomments]. unfold written. rewrite !fmap_cons, fmap_nil.
  repeat apply Forall_cons_2; [..|apply Forall_nil_2].
  - destruct (createProject_writes db user newProject newId)
      as [->|(u & ms & _ & _ & Hfresh & ->)]; [done|].
    split; [|done]. intros k t Ht. simpl in *.
    destruct (Htasks k t Ht) as [p Hp].
    destruct (decide (projectId t = newId)) as [He|Hne];
      [rewrite He in Hp; congruence|].
    rewrite lookup_insert_ne by done. by eexists.
  - pose proof (updateProject_effect db user id projectBody) as H.
    cbv zeta in H. destruct (isSuccess _);
      [destruct H as (p & Hp & _ & ->)|by rewrite H].
    split; [|done]. intros k t Ht. simpl in *.
    destruct (decide (projectId t = id)) as [->|Hne].
    + rewrite lookup_insert_eq. by eexists.
    + rewrite lookup_insert_ne by done. by eapply Htasks.
  - pose proof (deleteProject_effect db user id) as H.
    cbv zeta in H. destruct (isSuccess _);
      [destruct H as [_ ->]|destruct H as [-> _]; done].
    split; simpl.
    + intros k t Ht. apply map_lookup_filter_Some in Ht as [Ht Hne].
      simpl in Hne. rewrite lookup_delete_ne by done. by eapply Htasks.
    + intros k c Hc. apply map_lookup_filter_Some in Hc as [Hc Hne].
      simpl in Hne. destruct (Hcomments k c Hc) as [t Ht].
      exists t. apply map_lookup_filter_Some. split; [done|].
      simpl. rewrite Ht in Hne. simpl in Hne. congruence.
  - pose proof (addContributor_effect db user id contributorBody) as H.
    cbv zeta in H. destruct (isSuccess _);
      [destruct H as (? & ? & ? & _ & _ & _ & _ & _ & ->)|by rewrite H].
    split; [|done]. intros k t Ht. simpl in *.
    destruct (Htasks k t Ht) as [p Hp].
    destruct (decide (projectId t = id)) as [<-|Hne].
    + rewrite lookup_alter_eq, Hp. by eexists.
    + rewrite lookup_alter_ne by done. by eexists.
  - pose proof (removeContributor_effect db user id userId) as H.
    cbv zeta in H. destruct (isSuccess _); [|by rewrite H]. rewrite H.
    split; [|done]. intros k t Ht. simpl in *.
    destruct (Htasks k t Ht) as [p Hp].
    destruct (decide (projectId t = id)) as [<-|Hne].
    + rewrite lookup_alter_eq, Hp. by eexists.
    + rewrite lookup_alter_ne by done. by eexists.
  - destruct (createTask_writes dateToISOString fails db user id newTask newId
                now) as [[_ ->]|(u & _ & Hacc & Hfresh & _ & _ & H)]; [done|].
    cbv zeta in H.
    assert (∃ t, projectId t = id
                 ∧ (TaskController.createTask dateToISOString fails user id
                      newTask newId now db).2
                   = withTasks db (<[newId := t]> (tasks db)))
      as (t' & Hp' & ->).
    { destruct (accepted _ _); destruct H as [_ ->];
        (eexists; split; last reflexivity; reflexivity). }
    split; simpl.
    + intros k t Ht. destruct (decide (k = newId)) as [->|Hne].
      * rewrite lookup_insert_eq in Ht. injection Ht as <-.
        rewrite Hp'. by apply hasAccess_project with u.
      * rewrite lookup_insert_ne in Ht by done. by eapply Htasks.
    + intros k c Hc. destruct (decide (taskId c = newId)) as [->|Hne].
      * rewrite lookup_insert_eq. by eexists.
      * rewrite lookup_insert_ne by done. by eapply Hcomments.
  - destruct (updateTask_writes dateToISOString fails db user id tId taskBody
                now)
      as [->|(t0 & t' & Ht0 & _ & _ & _ & Hp' & _ & _ & _ & ->)]; [done|].
    apply findTask_lookup in Ht0 as [Ht0 _].
    split; simpl.
    + intros k t Ht. destruct (decide (k = tId)) as [->|Hne].
      * rewrite lookup_insert_eq in Ht. injection Ht as <-.
        rewrite Hp'. by eapply Htasks.
      * rewrite lookup_insert_ne in Ht by done. by eapply Htasks.
    + intros k c Hc. destruct (decide (taskId c = tId)) as [->|Hne].
      * rewrite lookup_insert_eq. by eexists.
      * rewrite lookup_insert_ne by done. by eapply Hcomments.
  - pose proof (deleteTask_effect db user id tId) as H.
    cbv zeta in H. destruct (isSuccess _);
      [destruct H as (_ & _ & ->)|destruct H as [-> _]; done].
    split; simpl.
    + intros k t Ht. apply lookup_delete_Some in Ht as [_ Ht].
      by eapply Htasks.
    + intros k c Hc. apply map_lookup_filter_Some in Hc as [Hc Hne].
      simpl in Hne. rewrite lookup_delete_ne by done. by eapply Hcomments.
  - pose proof (createComment_effect db user id tId commentBody newId now)
      as H.
    cbv zeta in H. destruct (isSuccess _);
      [destruct H as (u & _ & _ & [t Ht] & _ & _ & ->)|by rewrite H].
    apply findTask_lookup in Ht as [Ht _].
    split; [done|]. simpl. intros k c Hc.
    destruct (decide (k = newId)) as [->|Hne].
    + rewrite lookup_insert_eq in Hc. injection Hc as <-. simpl.
      by eexists.
    + rewrite lookup_insert_ne in Hc by done. by eapply Hcomments.
  - pose proof (updateComment_effect db user id tId commentId commentBody)
      as H.
    cbv zeta in H. destruct (isSuccess _);
      [destruct H as (c0 & text & Hc0 & _ & _ & ->)|by rewrite H].
    split; [done|]. simpl. intros k c Hc.
    destruct (decide (k = commentId)) as [->|Hne].
    + rewrite lookup_insert_eq in Hc. injection Hc as <-. simpl.
      by eapply Hcomments.
    + rewrite lookup_insert_ne in Hc by done. by eapply Hcomments.
  - pose proof (deleteComment_effect db user id tId commentId) as H.
    cbv zeta in H. destruct (isSuccess _); [|by rewrite H]. rewrite H.
    split; [done|]. simpl. intros k c Hc.
    apply lookup_delete_Some in Hc as [_ Hc]. by eapply Hcomments.
Qed.

Section Limits.

Import Validation ProjectController.

Lemma length_pos (s : string) : s ≠ "" → (1 ≤ String.length s)%nat.
Proof. destruct s; [done|simpl; lia]. Qed.

Lemma trimOrNull_within (hi : nat) (o : option string) :
  (∀ s, o = Some s → s ≠ "" → (String.length (Js.trim s) ≤ hi)%nat) →
  describedWithin hi (trimOrNull o).
Proof.
  intros Hhi d. unfold trimOrNull. destruct o as [s|]; [|done]. simpl.
  case_bool_decide as He; simpl; [done|]. intros [= <-].
  split; [by apply length_pos|]. apply Hhi; [done|].
  intros ->. by apply He.
Qed.

Lemma valid_new_project body :
  validateCreateProjectData body = [] →
  lengthWithin 2 100 (from_option Js.trim "" (cp_name body))
  ∧ describedWithin 500 (trimOrNull (cp_description body)).
Proof.
  unfold validateCreateProjectData. intros H.
  apply app_eq_nil in H as [Hn H]. apply app_eq_nil in H as [Hd _].
  split.
  - destruct (cp_name body) as [n|]; [|done]. simpl.
    repeat case_bool_decide; try done. unfold lengthWithin. lia.
  - apply trimOrNull_within. intros s Hdesc Hs. rewrite Hdesc in Hd.
    simpl in Hd.
    rewrite bool_decide_eq_false_2 in Hd by done. simpl in Hd.
    case_bool_decide; [done|lia].
Qed.

Lemma valid_project_update body :
  validProjectUpdate body →
  (∀ n, up_name body = Some n → lengthWithin 2 100 (Js.trim n))
  ∧ (∀ d, up_description body = Some d →
          describedWithin 500 (trimOrNull (Some d))).
Proof.
  unfold validProjectUpdate, validateUpdateProjectData. simpl. intros H.
  apply app_eq_nil in H as [Hn H]. apply app_eq_nil in H as [Hd _].
  split.
  - intros n Hname. rewrite Hname in Hn.
    repeat case_bool_decide; try done. unfold lengthWithin. lia.
  - intros d Hdesc. rewrite Hdesc in Hd.
    apply (trimOrNull_within 500 (Some d)). intros s [= <-] _.
    case_bool_decide; [done|lia].
Qed.

Lemma valid_comment body :
  contentErrors body = [] →
  lengthWithin 1 2000 (from_option Js.trim "" (cm_content body)).
Proof.
  unfold contentErrors. destruct (cm_content body) as [text|]; [|done].
  simpl. repeat case_bool_decide; try done. unfold lengthWithin. lia.
Qed.

Variable dateToISOString : string → option string.

Lemma valid_new_task body :
  validateCreateTaskData dateToISOString body = [] →
  lengthWithin 2 200 (from_option Js.trim "" (ct_title body))
  ∧ describedWithin 1000 (trimOrNull (ct_description body)).
Proof.
  unfold validateCreateTaskData. intros H.
  apply app_eq_nil in H as [Hn H]. apply app_eq_nil in H as [Hd _].
  split.
  - destruct (ct_title body) as [n|]; [|done]. simpl.
    repeat case_bool_decide; try done. unfold lengthWithin. lia.
  - apply trimOrNull_within. intros s Hdesc Hs. rewrite Hdesc in Hd.
    simpl in Hd.
    rewrite bool_decide_eq_false_2 in Hd by done. simpl in Hd.
    case_bool_decide; [done|lia].
Qed.

Lemma valid_task_update body :
  validateUpdateTaskData dateToISOString body = [] →
  (∀ n, ut_title body = Some n → lengthWithin 2 200 (Js.trim n))
  ∧ (∀ d, ut_description body = Some d →
          describedWithin 1000 (trimOrNull (Some d))).
Proof.
  unfold validateUpdateTaskData. intros H.
  apply app_eq_nil in H as [Hn H]. apply app_eq_nil in H as [Hd _].
  split.
  - intros n Hname. rewrite Hname in Hn.
    repeat case_bool_decide; try done. unfold lengthWithin. lia.
  - intros d Hdesc. rewrite Hdesc in Hd.
    apply (trimOrNull_within 1000 (Some d)). intros s [= <-] _.
    case_bool_decide; [done|lia].
Qed.

End Limits.

(** X20.  Every writing route keeps the stored texts within the limits of
    the validation: if the names and descriptions of the projects, the
    titles and descriptions of the tasks and the contents of the comments
    are within their limits, none of them empty, the same holds after
    the call, whatever the caller, the request and the answer. *)
Theorem routes_keep_limits
    (dateToISOString : string → option string)
    (fails : TaskAssignments.RowWrite → bool)
    (user : option AuthUser) (id tId commentId userId newId : string)
    (now : Z)
    (newProject : Validation.CreateProjectData)
    (projectBody : Validation.UpdateProjectData)
    (contributorBody : ProjectController.AddContributorData)
    (newTask : Validation.CreateTaskData)
    (taskBody : Validation.UpdateTaskData)
    (commentBody : Validation.CommentData) (db : DB) :
  withinLimits db →
  Forall withinLimits
    (written dateToISOString fails user id tId commentId userId newId now
       newProject projectBody contributorBody newTask taskBody commentBody
       db).
Proof.
  intros (Hprojects & Htasks & Hcomments).
  unfold written. rewrite !fmap_cons, fmap_nil.
  repeat apply Forall_cons_2; [..|apply Forall_nil_2].
  - destruct (createProject_writes db user newProject newId)
      as [->|(u & ms & _ & Hv & Hfresh & ->)]; [done|].
    split_and!; [|done|done]. intros k p Hp. simpl in *.
    destruct (decide (k = newId)) as [->|Hne].
    + rewrite lookup_insert_eq in Hp. injection Hp as <-. simpl.
      by apply valid_new_project.
    + rewrite lookup_insert_ne in Hp by done. by eapply Hprojects.
  - pose proof (updateProject_effect db user id projectBody) as H.
    cbv zeta in H. destruct (isSuccess _);
      [destruct H as (p0 & Hp0 & Hv & ->)|by rewrite H].
    destruct (valid_project_update _ Hv) as [Hname Hdesc].
    destruct (Hprojects _ _ Hp0) as [Hn0 Hd0].
    split_and!; [|done|done]. intros k p Hp. simpl in *.
    destruct (decide (k = id)) as [->|Hne].
    + rewrite lookup_insert_eq in Hp. injection Hp as <-. simpl. split.
      * destruct (Validation.up_name projectBody); simpl; [by apply Hname|done].
      * destruct (Validation.up_description projectBody);
          [by apply Hdesc|done].
    + rewrite lookup_insert_ne in Hp by done. by eapply Hprojects.
  - pose proof (deleteProject_effect db user id) as H.
    cbv zeta in H. destruct (isSuccess _);
      [destruct H as [_ ->]|destruct H as [-> _]; done].
    split_and!; simpl.
    + intros k p Hp. apply lookup_delete_Some in Hp as [_ Hp].
      by eapply Hprojects.
    + intros k t Ht. apply map_lookup_filter_Some in Ht as [Ht _].
      by eapply Htasks.
    + intros k c Hc. apply map_lookup_filter_Some in Hc as [Hc _].
      by eapply Hcomments.
  - pose proof (addContributor_effect db user id contributorBody) as H.
    cbv zeta in H. destruct (isSuccess _);
      [destruct H as (? & ? & ? & _ & _ & _ & _ & _ & ->)|by rewrite H].
    split_and!; [|done|done]. intros k p Hp. simpl in *.
    destruct (decide (k = id)) as [->|Hne].
    + rewrite lookup_alter_eq in Hp.
      destruct (projects db !! id) as [p0|] eqn:Hp0; [|done].
      injection Hp as <-. simpl. by eapply Hprojects.
    + rewrite lookup_alter_ne in Hp by done. by eapply Hprojects.
  - pose proof (removeContributor_effect db user id userId) as H.
    cbv zeta in H. destruct (isSuccess _); [|by rewrite H]. rewrite H.
    split_and!; [|done|done]. intros k p Hp. simpl in *.
    destruct (decide (k = id)) as [->|Hne].
    + rewrite lookup_alter_eq in Hp.
      destruct (projects db !! id) as [p0|] eqn:Hp0; [|done].
      injection Hp as <-. simpl. by eapply Hprojects.
    + rewrite lookup_alter_ne in Hp by done. by eapply Hprojects.
  - destruct (createTask_writes dateToISOString fails db user id newTask newId
                now) as [[_ ->]|(u & _ & _ & Hfresh & Hv & _ & H)]; [done|].
    cbv zeta in H.
    destruct (valid_new_task _ _ Hv) as [Httl Hdesc].
    assert (∃ t, title t = title (createdTask u id newTask now)
                 ∧ description t = description (createdTask u id newTask now)
                 ∧ (TaskController.createTask dateToISOString fails user id
                      newTask newId now db).2
                   = withTasks db (<[newId := t]> (tasks db)))
      as (t' & Ht1 & Ht2 & ->).
    { destruct (accepted _ _); destruct H as [_ ->];
        (eexists; split_and!; last reflexivity; reflexivity). }
    split_and!; [done| |done]. intros k t Ht. simpl in *.
    destruct (decide (k = newId)) as [->|Hne].
    + rewrite lookup_insert_eq in Ht. injection Ht as <-.
      by rewrite Ht1, Ht2.
    + rewrite lookup_insert_ne in Ht by done. by eapply Htasks.
  - destruct (updateTask_writes dateToISOString fails db user id tId taskBody
                now)
      as [->|(t0 & t' & Ht0 & Hv & Ht1 & Ht2 & _ & _ & _ & _ & ->)]; [done|].
    apply findTask_lookup in Ht0 as [Ht0 _].
    destruct (valid_task_update _ _ Hv) as [Httl Hdesc].
    destruct (Htasks _ _ Ht0) as [Hn0 Hd0].
    split_and!; [done| |done]. intros k t Ht. simpl in *.
    destruct (decide (k = tId)) as [->|Hne].
    + rewrite lookup_insert_eq in Ht. injection Ht as <-.
      rewrite Ht1, Ht2. split.
      * destruct (Validation.ut_title taskBody); simpl; [by apply Httl|done].
      * destruct (Validation.ut_description taskBody);
          [by apply Hdesc|done].
    + rewrite lookup_insert_ne in Ht by done. by eapply Htasks.
  - pose proof (deleteTask_effect db user id tId) as H.
    cbv zeta in H. destruct (isSuccess _);
      [destruct H as (_ & _ & ->)|destruct H as [-> _]; done].
    split_and!; [done| |]; simpl.
    + intros k t Ht. apply lookup_delete_Some in Ht as [_ Ht].
      by eapply Htasks.
    + intros k c Hc. apply map_lookup_filter_Some in Hc as [Hc _].
      by eapply Hcomments.
  - pose proof (createComment_effect db user id tId commentBody newId now)
      as H.
    cbv zeta in H. destruct (isSuccess _);
      [destruct H as (u & _ & _ & _ & _ & Hv & ->)|by rewrite H].
    split_and!; [done|done|]. simpl. intros k c Hc.
    destruct (decide (k = newId)) as [->|Hne].
    + rewrite lookup_insert_eq in Hc. injection Hc as <-. simpl.
      by apply valid_comment.
    + rewrite lookup_insert_ne in Hc by done. by eapply Hcomments.
  - pose proof (updateComment_effect db user id tId commentId commentBody)
      as H.
    cbv zeta in H. destruct (isSuccess _);
      [destruct H as (c0 & text & Hc0 & Htext & Hv & ->)|by rewrite H].
    split_and!; [done|done|]. simpl. intros k c Hc.
    destruct (decide (k = commentId)) as [->|Hne].
    + rewrite lookup_insert_eq in Hc. injection Hc as <-. simpl.
      pose proof (valid_comment _ Hv) as Hl. by rewrite Htext in Hl.
    + rewrite lookup_insert_ne in Hc by done. by eapply Hcomments.
  - pose proof (deleteComment_effect db user id tId commentId) as H.
    cbv zeta in H. destruct (isSuccess _); [|by rewrite H]. rewrite H.
    split_and!; [done|done|]. simpl. intros k c Hc.
    apply lookup_delete_Some in Hc as [_ Hc]. by eapply Hcomments.
Qed.

(** ** Listings *)

Section Listings.

Import Permissions.

Lemma forEachMap_reads {A B} (l : list A) (f : A → Handler B) (g : A → B)
    (db : DB) :
  (∀ x, x ∈ l → f x db = (db, Next (g x))) →
  forEachMap l f db = (db, Next (g <$> l)).
Proof.
  induction l as [|x l IH]; intros Hf; [done|].
  cbn [forEachMap]. cbv [mbind Handler_bind mret Handler_ret].
  rewrite Hf by set_solver. rewrite IH; [done|].
  intros y Hy. apply Hf. set_solver.
Qed.

Lemma NoDup_fst_filter {A} (m : gmap string A) (P : string * A → Prop)
    `{!∀ x, Decision (P x)} :
  NoDup (filter P (map_to_list m)).*1.
Proof.
  eapply sublist_NoDup; [apply (NoDup_fst_map_to_list m)|].
  apply fmap_sublist, sublist_filter.
Qed.

Lemma elem_of_filter_map_to_list {A} (m : gmap string A)
    (P : string * A → Prop) `{!∀ x, Decision (P x)} (x : string * A) :
  x ∈ filter P (map_to_list m) ↔ m !! x.1 = Some x.2 ∧ P x.
Proof.
  rewrite list_elem_of_filter. destruct x as [k a]. simpl.
  rewrite elem_of_map_to_list. tauto.
Qed.

Lemma hasAccess_ownedOrJoined db u id :
  hasAccess db u id
  ↔ ∃ p, projects db !! id = Some p
         ∧ ProjectController.ownedOrJoined (auth_id u) (id, p).
Proof.
  unfold hasAccess, ownerOf, membershipOf, ProjectController.ownedOrJoined.
  destruct (projects db !! id) as [p|]; simpl.
  - split.
    + intros [[= <-]|Hm]; exists p; split; auto.
    + intros (p' & [= <-] & [<-|Hm]); auto.
  - split; [by intros [|[]]|by intros (? & ? & _)].
Qed.

End Listings.

(** X21.  To a signed-in caller [getProjects] answers, without writing,
    the projects the caller has access to, each once and no other, in the
    order of the storage.  Each comes with the number of its tasks and
    with the role of the caller in it, which is never null and is OWNER
    exactly for the projects the caller owns. *)
Theorem getProjects_lists_accessible
    (recentFirst : relation (string * Project))
    `{!RelDecision recentFirst} (db : DB) (u : AuthUser) :
  ∃ l,
    ProjectController.getProjects recentFirst (Some u) db
    = (Replied "Projets récupérés avec succès" l 200, db)
    ∧ NoDup (ProjectController.pv_id <$> l)
    ∧ (∀ id, id ∈ ProjectController.pv_id <$> l ↔ hasAccess db u id)
    ∧ Forall (λ v,
        projects db !! ProjectController.pv_id v
        = Some (ProjectController.pv_project v)
        ∧ ProjectController.pv_taskCount v
          = length (Prisma.tasksOf db (ProjectController.pv_id v))
        ∧ is_Some (ProjectController.pv_userRole v)
        ∧ (ProjectController.pv_userRole v = Some OWNER
           ↔ ownerId (ProjectController.pv_project v) = auth_id u)) l.
Proof.
  set (found := merge_sort recentFirst
                  (filter (ProjectController.ownedOrJoined (auth_id u))
                     (map_to_list (projects db)))).
  set (g := λ project : string * Project,
         {| ProjectController.pv_id := project.1;
            ProjectController.pv_project := project.2;
            ProjectController.pv_taskCount :=
              length (Prisma.tasksOf db project.1);
            ProjectController.pv_userRole :=
              if bool_decide (Permissions.ownerOf db project.1
                              = Some (auth_id u))
              then Some OWNER
              else MEMBER <$> Permissions.membershipOf db (auth_id u)
                                project.1 |}).
  assert (Hfound : ∀ x, x ∈ found
            ↔ projects db !! x.1 = Some x.2
              ∧ ProjectController.ownedOrJoined (auth_id u) x).
  { intros x. unfold found. rewrite merge_sort_Permutation.
    apply elem_of_filter_map_to_list. }
  exists (g <$> found). split_and!.
  - unfold ProjectController.getProjects, replying.
    cbv [mbind Handler_bind authenticated mret Handler_ret get].
    fold found. by rewrite (forEachMap_reads found _ g).
  - rewrite <- list_fmap_compose.
    change (ProjectController.pv_id ∘ g) with (fst : string * Project → string).
    unfold found. rewrite merge_sort_Permutation. apply NoDup_fst_filter.
  - intros id. rewrite <- list_fmap_compose.
    change (ProjectController.pv_id ∘ g) with (fst : string * Project → string).
    rewrite hasAccess_ownedOrJoined, list_elem_of_fmap. split.
    + intros ([k p] & -> & Hin). apply Hfound in Hin. by exists p.
    + intros (p & Hp & Ho). exists (id, p). split; [done|]. by apply Hfound.
  - apply Forall_fmap, Forall_forall. intros [k p] Hin.
    apply Hfound in Hin as [Hp Ho].
    unfold ProjectController.ownedOrJoined in Ho. simpl in *.
    unfold Permissions.ownerOf, Permissions.membershipOf. rewrite Hp. simpl.
    split_and!; try done.
    + case_bool_decide; [by eexists|].
      destruct Ho as [Ho|[r Hr]]; [congruence|]. rewrite Hr. by eexists.
    + case_bool_decide as Ho'; simpl in *.
      * split; [intros _; by injection Ho'|done].
      * split; [by destruct (members p !! auth_id u)|].
        intros He. destruct Ho'. by rewrite He.
Qed.

(** X22.  [getTasks] never writes, answers a list exactly to the
    signed-in callers who have access to the project, and the list holds
    the tasks of the project, each once and no other, each with its
    assignees and with its comments, oldest first. *)
Theorem getTasks_lists_project_tasks
    (urgentFirst : relation (string * Task))
    `{!RelDecision urgentFirst} (db : DB) (user : option AuthUser)
    (id : string) :
  let res := TaskController.getTasks urgentFirst user id db in
  res.2 = db
  ∧ (is_Some (replied res.1) ↔ ∃ u, user = Some u ∧ hasAccess db u id)
  ∧ ∀ l, replied res.1 = Some l →
         shown <$> l ≡ₚ Prisma.tasksOf db id
         ∧ Forall (λ v,
             tv_assignees v = map_to_list (assignees (tv_task v))
             ∧ orderedCommentsOf Prisma.oldestFirst db (tv_id v)
                 (tv_comments v)) l.
Proof.
  intros res.
  set (g := λ task : string * Task,
         {| tv_id := task.1; tv_task := task.2;
            tv_assignees :=
              from_option (λ t, map_to_list (assignees t)) []
                (tasks db !! task.1);
            tv_comments := Prisma.commentsOf db task.1 Prisma.oldestFirst |}).
  set (found := merge_sort urgentFirst (Prisma.tasksOf db id)).
  assert (Hres : res = match user with
                       | Some u =>
                           if bool_decide (hasAccess db u id)
                           then (Replied "Tâches récupérées avec succès"
                                   (g <$> found) 200, db)
                           else (Instead (Failure "Accès refusé au projet"
                                            "FORBIDDEN" 403), db)
                       | None =>
                           (Instead (Failure "Utilisateur non authentifié"
                                       "UNAUTHORIZED" 401), db)
                       end).
  { unfold res, TaskController.getTasks, replying. destruct user as [u|];
      [|done].
    cbv [mbind Handler_bind authenticated mret Handler_ret].
    rewrite hasAccess_run. case_bool_decide; [|done]. simpl.
    cbv [get]. fold found. by rewrite (forEachMap_reads found _ g). }
  rewrite Hres. destruct user as [u|]; [case_bool_decide as Hacc|]; simpl.
  - split; [done|]. split; [split; [by exists u|by eexists]|].
    intros l [= <-]. split.
    + rewrite <- list_fmap_compose.
      assert (Hshown : ∀ l : list (string * Task), (shown ∘ g) <$> l = l).
      { intros l. induction l as [|[k t] l IH]; [done|].
        by rewrite fmap_cons, IH. }
      rewrite Hshown. apply merge_sort_Permutation.
    + apply Forall_fmap, Forall_forall. intros [k t] Hin. simpl.
      unfold found in Hin. rewrite merge_sort_Permutation in Hin.
      apply elem_of_filter_map_to_list in Hin as [Ht _]. simpl in Ht.
      rewrite Ht. split; [done|]. apply commentsOf_ordered; apply _.
  - split; [done|]. split; [|done].
    split; [by intros []|]. intros (u' & [= <-] & ?). done.
  - split; [done|]. split; [|done].
    split; [by intros []|]. by intros (u' & ? & _).
Qed.

(** ** The dashboard *)

Section Dashboard.

Import DashboardController.

Lemma filter_length_le {A} (P : A → Prop) `{!∀ x, Decision (P x)}
    (l : list A) :
  (length (filter P l) ≤ length l)%nat.
Proof. apply sublist_length, sublist_filter. Qed.

Lemma count_by_status (l : list (string * Task)) :
  length l
  = sum_list ((λ s, length (filter (λ t : string * Task, status t.2 = s) l))
              <$> allStatuses).
Proof.
  induction l as [|[k t] l IH]; [done|].
  simpl in *. rewrite !filter_cons. simpl.
  destruct (status t); repeat case_decide; try done; simpl; lia.
Qed.

Lemma projects_le_tasks db userId :
  (length (filter (hasAssignedTask db userId) (map_to_list (projects db)))
   ≤ length (assignedTasks db userId))%nat.
Proof.
  rewrite <- (length_fmap fst).
  rewrite <- (length_fmap (λ t : string * Task, projectId t.2)
                (assignedTasks db userId)).
  apply submseteq_length, NoDup_submseteq; [apply NoDup_fst_filter|].
  intros k Hk. apply list_elem_of_fmap in Hk as ([k' p] & -> & Hin).
  apply list_elem_of_filter in Hin as [Hex _].
  unfold hasAssignedTask in Hex. apply Exists_exists in Hex as (t & Ht & Hp).
  apply list_elem_of_fmap. by exists t.
Qed.

End Dashboard.

(** X23.  The counts of the dashboard agree with one another and with its
    two lists.  The total is the number of tasks [getAssignedTasks]
    returns and the sum of the counts by status; the urgent tasks and the
    overdue tasks are among them; the projects counted are the projects
    [getProjectsWithTasks] returns, and there are no more of them than of
    assigned tasks. *)
Theorem dashboard_counts_agree
    (byPriorityThenDue : relation (string * Task))
    `{!RelDecision byPriorityThenDue}
    (byName : relation (string * Project)) `{!RelDecision byName}
    (isPast : string → bool) (db : DB) (u : AuthUser) :
  ∃ stats assigned withTasks,
    DashboardController.getDashboardStats isPast (Some u) db
    = (Replied "Statistiques du tableau de bord récupérées" stats 200, db)
    ∧ DashboardController.getAssignedTasks byPriorityThenDue (Some u) db
      = (Replied "Tâches assignées récupérées" assigned 200, db)
    ∧ DashboardController.getProjectsWithTasks byPriorityThenDue byName
        (Some u) db
      = (Replied "Projets avec tâches récupérés" withTasks 200, db)
    ∧ DashboardController.tasks_total stats = length assigned
    ∧ DashboardController.tasks_total stats
      = sum_list (countOf (DashboardController.tasks_byStatus stats)
                  <$> allStatuses)
    ∧ (DashboardController.tasks_urgent stats
       ≤ DashboardController.tasks_total stats)%nat
    ∧ (DashboardController.tasks_overdue stats
       ≤ DashboardController.tasks_total stats)%nat
    ∧ DashboardController.projects_total stats = length withTasks
    ∧ (DashboardController.projects_total stats
       ≤ DashboardController.tasks_total stats)%nat.
Proof.
  eexists _, _, _. split_and!; try reflexivity; simpl.
  - by rewrite length_fmap, merge_sort_Permutation.
  - rewrite (count_by_status (DashboardController.assignedTasks db (auth_id u)))
      at 1.
    unfold countOf, DashboardController.countWhere. simpl.
    by repeat case_bool_decide; simpl; lia.
  - apply filter_length_le.
  - apply filter_length_le.
  - by rewrite length_fmap, merge_sort_Permutation.
  - apply projects_le_tasks.
Qed.

(** X24.  The two lists of the dashboard show the same tasks, whether or
    not the caller still has access to their projects.  A task is in the
    list of [getAssignedTasks] exactly when it is stored and assigned to
    the caller.  Every project of [getProjectsWithTasks] is stored and
    comes with at least one task; its tasks are tasks of that project
    from the list of [getAssignedTasks]; and every task of that list
    whose project exists is under its project. *)
Theorem dashboard_lists_agree
    (byPriorityThenDue : relation (string * Task))
    `{!RelDecision byPriorityThenDue}
    (byName : relation (string * Project)) `{!RelDecision byName}
    (db : DB) (u : AuthUser) :
  ∃ assigned withTasks,
    replied (DashboardController.getAssignedTasks byPriorityThenDue
               (Some u) db).1 = Some assigned
    ∧ replied (DashboardController.getProjectsWithTasks byPriorityThenDue
                 byName (Some u) db).1 = Some withTasks
    ∧ (∀ k t, (k, t) ∈ shown <$> assigned
              ↔ tasks db !! k = Some t ∧ is_Some (assignees t !! auth_id u))
    ∧ Forall (λ entry : string * Project * list TaskView,
        projects db !! entry.1.1 = Some entry.1.2
        ∧ entry.2 ≠ []
        ∧ Forall (λ v, v ∈ assigned ∧ projectId (tv_task v) = entry.1.1)
            entry.2) withTasks
    ∧ ∀ v, v ∈ assigned →
           is_Some (projects db !! projectId (tv_task v)) →
           ∃ entry, entry ∈ withTasks
                    ∧ entry.1.1 = projectId (tv_task v) ∧ v ∈ entry.2.
Proof.
  set (A := DashboardController.assignedTasks db (auth_id u)).
  assert (HA : ∀ x, x ∈ A ↔ tasks db !! x.1 = Some x.2
                            ∧ is_Some (assignees x.2 !! auth_id u)).
  { intros x.
    apply (elem_of_filter_map_to_list (tasks db)
             (DashboardController.assignedTo (auth_id u))). }
  eexists _, _. split; [reflexivity|]. split; [reflexivity|]. simpl.
  fold A. split_and!.
  - intros k t. rewrite <- list_fmap_compose, list_elem_of_fmap. split.
    + intros ([k' t'] & [= -> ->] & Hin).
      rewrite merge_sort_Permutation in Hin. by apply HA in Hin.
    + intros Hin. exists (k, t). split; [done|].
      rewrite merge_sort_Permutation. by apply HA.
  - apply Forall_fmap, Forall_forall. intros [k p] Hin. simpl.
    rewrite merge_sort_Permutation in Hin.
    apply elem_of_filter_map_to_list in Hin as [Hp Hex]. simpl in Hp.
    unfold DashboardController.hasAssignedTask in Hex. fold A in Hex.
    apply Exists_exists in Hex as (t & Ht & Hpt). simpl in Hpt.
    split_and!; [done| |].
    + intros Hnil. apply fmap_nil_inv in Hnil.
      assert (t ∈ merge_sort byPriorityThenDue
                    (filter (λ t0 : string * Task, projectId t0.2 = k) A))
        as Hin.
      { rewrite merge_sort_Permutation. by apply list_elem_of_filter. }
      rewrite Hnil in Hin. by apply elem_of_nil in Hin.
    + apply Forall_fmap, Forall_forall. intros t' Hin. simpl.
      rewrite merge_sort_Permutation in Hin.
      apply list_elem_of_filter in Hin as [Hpt' Hin]. split; [|done].
      apply list_elem_of_fmap. exists t'. split; [done|].
      by rewrite merge_sort_Permutation.
  - intros v Hv [p Hp]. apply list_elem_of_fmap in Hv as (t & -> & Ht).
    rewrite merge_sort_Permutation in Ht. simpl in *.
    eexists. split; [apply list_elem_of_fmap; exists (projectId t.2, p);
                      split; [reflexivity|]|].
    + rewrite merge_sort_Permutation. apply elem_of_filter_map_to_list.
      split; [done|]. unfold DashboardController.hasAssignedTask. fold A.
      apply Exists_exists. by exists t.
    + simpl. split; [done|]. apply list_elem_of_fmap. exists t.
      split; [done|]. rewrite merge_sort_Permutation.
      by apply list_elem_of_filter.
Qed.

(** ** Accounts *)

Section Accounts.

Import Js Validation AuthController.

Lemma toLowerCase_empty (s : string) : toLowerCase s = "" → s = "".
Proof. by destruct s. Qed.

Lemma elem_of_usersWithEmail db email (x : string * User) :
  x ∈ Prisma.usersWithEmailIn db [email]
  ↔ users db !! x.1 = Some x.2 ∧ user_email x.2 = email.
Proof.
  unfold Prisma.usersWithEmailIn.
  rewrite (elem_of_filter_map_to_list (users db)
             (λ u : string * User, user_email u.2 ∈ [email])).
  set_solver.
Qed.

Lemma userByEmail_None db email :
  Prisma.userByEmail db email = None
  ↔ ∀ k usr, users db !! k = Some usr → user_email usr ≠ email.
Proof.
  unfold Prisma.userByEmail. split.
  - intros Hnil k usr Hk He.
    assert ((k, usr) ∈ Prisma.usersWithEmailIn db [email]) as Hin
      by (by apply elem_of_usersWithEmail).
    destruct (Prisma.usersWithEmailIn db [email]); [|done].
    by apply elem_of_nil in Hin.
  - intros Hno. destruct (Prisma.usersWithEmailIn db [email]) as [|x l] eqn:E;
      [done|].
    assert (x ∈ Prisma.usersWithEmailIn db [email]) as Hin
      by (rewrite E; set_solver).
    apply elem_of_usersWithEmail in Hin as [Hk He].
    by destruct (Hno _ _ Hk).
Qed.

Lemma userByEmail_Some db email k usr :
  Prisma.userByEmail db email = Some (k, usr) →
  users db !! k = Some usr ∧ user_email usr = email.
Proof.
  unfold Prisma.userByEmail. intros H. apply head_Some_elem_of in H.
  by apply elem_of_usersWithEmail in H.
Qed.

Lemma userByEmail_only db k usr :
  users db !! k = Some usr →
  (∀ k' usr', users db !! k' = Some usr' →
              user_email usr' = user_email usr → k' = k) →
  Prisma.userByEmail db (user_email usr) = Some (k, usr).
Proof.
  intros Hk Honly. unfold Prisma.userByEmail.
  destruct (Prisma.usersWithEmailIn db [user_email usr]) as [|x l] eqn:E.
  - assert ((k, usr) ∈ Prisma.usersWithEmailIn db [user_email usr]) as Hin
      by (by apply elem_of_usersWithEmail).
    rewrite E in Hin. by apply elem_of_nil in Hin.
  - assert (x ∈ Prisma.usersWithEmailIn db [user_email usr]) as Hin
      by (rewrite E; set_solver).
    apply elem_of_usersWithEmail in Hin as [Hx He]. destruct x as [k' usr'].
    simpl in *. pose proof (Honly _ _ Hx He) as ->. by simplify_eq.
Qed.

Lemma emailTaken_iff acc id email :
  emailTaken acc id email
  ↔ ∃ k usr, k ≠ id ∧ users (acc_db acc) !! k = Some usr
             ∧ user_email usr = email.
Proof.
  unfold emailTaken. rewrite Exists_exists. split.
  - intros ([k usr] & Hin & Hk & He). apply elem_of_map_to_list in Hin.
    by exists k, usr.
  - intros (k & usr & Hk & Hu & He). exists (k, usr).
    by rewrite elem_of_map_to_list.
Qed.

Lemma valid_registration body :
  validateRegisterData body = [] →
  ∃ email password,
    reg_email body = Some email ∧ email ≠ ""
    ∧ reg_password body = Some password ∧ password ≠ "".
Proof.
  unfold validateRegisterData. intros H.
  apply app_eq_nil in H as [He H]. apply app_eq_nil in H as [Hp _].
  unfold registerEmailErrors in He. unfold registerPasswordErrors in Hp.
  destruct (reg_email body) as [e|]; [|done].
  destruct (reg_password body) as [p|]; [|done].
  destruct (decide (e = "")) as [->|Hne];
    [by rewrite bool_decide_eq_true_2 in He|].
  destruct (decide (p = "")) as [->|Hnp];
    [by rewrite bool_decide_eq_true_2 in Hp|].
  by exists e, p.
Qed.

Variable hash : string → string → string.
Variable compare : string → string → bool.
Variable generateToken : string → string → string.

Local Opaque validateRegisterData.

Lemma register_effect body newId salt acc :
  let res := register hash generateToken body newId salt acc in
  match replied res.1 with
  | Some session =>
      ∃ email password,
        reg_email body = Some email ∧ email ≠ ""
        ∧ reg_password body = Some password ∧ password ≠ ""
        ∧ (∀ k usr, users (acc_db acc) !! k = Some usr →
                    user_email usr ≠ toLowerCase email)
        ∧ users (acc_db acc) !! newId = None
        ∧ session_userId session = newId
        ∧ session_user session
          = {| user_email := toLowerCase email;
               user_name := ProjectController.trimOrNull (reg_name body) |}
        ∧ res.2 = withUsers acc
                    (<[newId := session_user session]> (users (acc_db acc)))
                    (<[newId := hash salt password]> (acc_passwords acc))
  | None => res.2 = acc
  end.
Proof.
  unfold register, user_create.
  destruct (decide (validateRegisterData body = [])) as [Hv|Hv];
    [|by destruct (validateRegisterData body)].
  destruct (valid_registration body Hv) as (e & p & He & Hne & Hp & Hnp).
  rewrite Hv, He, Hp. simpl.
  destruct (Prisma.userByEmail (acc_db acc) (toLowerCase e)) eqn:Hfree;
    [done|].
  destruct (users (acc_db acc) !! newId) eqn:Hnew; [done|].
  case_decide; [done|]. simpl.
  exists e, p. split_and!; try done.
  by apply userByEmail_None.
Qed.

Lemma login_run acc email password k usr hashed :
  email ≠ "" → password ≠ "" →
  Prisma.userByEmail (acc_db acc) (toLowerCase email) = Some (k, usr) →
  acc_passwords acc !! k = Some hashed →
  login compare generateToken
    {| login_email := Some email; login_password := Some password |} acc
  = (if compare password hashed then loggedIn generateToken k usr
     else Instead (Failure "Email ou mot de passe incorrect"
                     "INVALID_CREDENTIALS" 401), acc).
Proof.
  intros He Hp Hu Hh. unfold login, validateLoginData, truthy.
  cbn [login_email login_password].
  rewrite (bool_decide_eq_false_2 (email = "")),
    (bool_decide_eq_false_2 (password = "")) by done. simpl.
  rewrite Hu. simpl. rewrite Hh. by destruct (compare password hashed).
Qed.

End Accounts.

(** X25.  Who has registered can log in: after a registration that
    succeeded, [login] with the same password and with the same email,
    in whatever case its letters are written, opens a session for the
    user just created, provided the hash function recognises the
    passwords it has hashed. *)
Theorem register_then_login
    (hash : string → string → string) (compare : string → string → bool)
    (generateToken : string → string → string)
    (body : Validation.RegisterData) (newId salt : string)
    (acc : AuthController.Accounts) (email : string) :
  recognises hash compare →
  let res := AuthController.register hash generateToken body newId salt acc in
  is_Some (replied res.1) →
  Js.toLowerCase <$> Validation.reg_email body = Some (Js.toLowerCase email) →
  ∃ usr,
    users (AuthController.acc_db res.2) !! newId = Some usr
    ∧ AuthController.login compare generateToken
        {| Validation.login_email := Some email;
           Validation.login_password := Validation.reg_password body |} res.2
      = (loggedIn generateToken newId usr, res.2).
Proof.
  intros Hrec res [session Hs] He.
  pose proof (register_effect hash generateToken body newId salt acc) as H.
  fold res in H. cbv zeta in H. rewrite Hs in H.
  destruct H as (e & p & Hemail & Hne & Hp & Hnp & Hfree & Hnew & _ & Hu & ->).
  rewrite Hemail in He. injection He as He.
  exists (AuthController.session_user session). simpl. rewrite lookup_insert_eq.
  split; [done|]. rewrite Hp.
  rewrite (login_run compare generateToken _ email p newId
             (AuthController.session_user session) (hash salt p)).
  - by rewrite Hrec.
  - intros ->. apply Hne. by apply toLowerCase_empty.
  - done.
  - simpl. rewrite <- He.
    replace (Js.toLowerCase e)
      with (user_email (AuthController.session_user session))
      by (by rewrite Hu).
    apply userByEmail_only; simpl.
    + by rewrite lookup_insert_eq.
    + intros k' usr' Hk' He'. destruct (decide (k' = newId)) as [|Hk]; [done|].
      rewrite lookup_insert_ne in Hk' by done.
      destruct (Hfree _ _ Hk'). by rewrite He', Hu.
  - simpl. by rewrite lookup_insert_eq.
Qed.

Lemma register_then_login_witness :
  let body :=
    {| Validation.reg_email := Some "Emma@Example.com";
       Validation.reg_password := Some "Abricot2024";
       Validation.reg_name := Some "Emma" |} in
  let res :=
    AuthController.register Plain.hash Plain.generateToken body "u5" "sel"
      Plain.accounts in
  ∃ usr,
    user_email usr = "emma@example.com"
    ∧ AuthController.login Plain.compare Plain.generateToken
        {| Validation.login_email := Some "EMMA@example.com";
           Validation.login_password := Some "Abricot2024" |} res.2
      = (loggedIn Plain.generateToken "u5" usr, res.2).
Proof.
  intros body res.
  destruct (register_then_login Plain.hash Plain.compare Plain.generateToken
              body "u5" "sel" Plain.accounts "EMMA@example.com")
    as (usr & Hu & Hl).
  - intros salt password. by apply bool_decide_eq_true.
  - vm_compute. by eexists.
  - by vm_compute.
  - exists usr. split; [|exact Hl].
    fold res in Hu. vm_compute in Hu. by injection Hu as <-.
Defined.

Section AccountUpdates.

Import Js Validation AuthController.

Variable hash : string → string → string.
Variable compare : string → string → bool.
Variable generateToken : string → string → string.

Lemma valid_password_change body :
  validateUpdatePasswordData body = [] →
  ∃ current new,
    currentPassword body = Some current ∧ newPassword body = Some new
    ∧ new ≠ "".
Proof.
  unfold validateUpdatePasswordData. intros H.
  apply app_eq_nil in H as [Hc H]. apply app_eq_nil in H as [Hn _].
  destruct (currentPassword body) as [c|]; [|done].
  destruct (newPassword body) as [n|]; [|done].
  destruct (decide (n = "")) as [->|Hne];
    [by rewrite bool_decide_eq_true_2 in Hn|].
  by exists c, n.
Qed.

Local Opaque validateUpdatePasswordData validateUpdateProfileData
  validateRegisterData.

Lemma updatePassword_effect user body salt acc :
  let res := updatePassword hash compare user body salt acc in
  if isSuccess res.1
  then ∃ u current new hashed,
         user = Some u ∧ currentPassword body = Some current
         ∧ newPassword body = Some new ∧ new ≠ ""
         ∧ acc_passwords acc !! auth_id u = Some hashed
         ∧ compare current hashed = true
         ∧ res.2 = withUsers acc (users (acc_db acc))
                     (<[auth_id u := hash salt new]> (acc_passwords acc))
  else res.2 = acc.
Proof.
  unfold updatePassword, user_setPassword. destruct user as [u|]; [|done].
  destruct (decide (validateUpdatePasswordData body = [])) as [Hv|Hv];
    [|by destruct (validateUpdatePasswordData body)].
  destruct (valid_password_change body Hv) as (c & n & Hc & Hn & Hne).
  rewrite Hv, Hc, Hn. simpl.
  destruct (users (acc_db acc) !! auth_id u) eqn:Hu; [|done].
  destruct (acc_passwords acc !! auth_id u) eqn:Hh; [|done].
  destruct (compare c s) eqn:Hcmp; [|done]. simpl.
  by exists u, c, n, s.
Qed.

Lemma updateProfile_effect user body acc :
  let res := updateProfile user body acc in
  match replied res.1 with
  | Some session =>
      ∃ u usr,
        user = Some u
        ∧ users (acc_db acc) !! auth_id u = Some usr
        ∧ ¬ emailTaken acc (auth_id u)
              (user_email (applyProfileUpdate body usr))
        ∧ res.2 = withUsers acc
                    (<[auth_id u := applyProfileUpdate body usr]>
                       (users (acc_db acc)))
                    (acc_passwords acc)
  | None => res.2 = acc
  end.
Proof.
  unfold updateProfile, user_update. destruct user as [u|]; [|done].
  repeat case_match; simplify_eq; simpl; try done.
  all: by eexists _, _.
Qed.

End AccountUpdates.



(** X27.  The account routes keep the emails in lower case and distinct,
    and write to the users only: if every stored email is in lower case
    and no two rows hold the same email, the same holds after
    [register], [login], [updateProfile] and [updatePassword], and the
    projects, the tasks and the comments are as they were. *)
Theorem account_routes_keep_emails
    (hash : string → string → string) (compare : string → string → bool)
    (generateToken : string → string → string)
    (user : option AuthUser)
    (registration : Validation.RegisterData)
    (credentials : Validation.LoginData)
    (profile : Validation.UpdateProfileData)
    (passwords : Validation.UpdatePasswordData)
    (newId salt : string) (acc : AuthController.Accounts) :
  lowerCaseEmails acc →
  distinctEmails acc →
  Forall (λ acc',
            lowerCaseEmails acc' ∧ distinctEmails acc'
            ∧ projects (AuthController.acc_db acc')
              = projects (AuthController.acc_db acc)
            ∧ tasks (AuthController.acc_db acc')
              = tasks (AuthController.acc_db acc)
            ∧ comments (AuthController.acc_db acc')
              = comments (AuthController.acc_db acc))
    [ (AuthController.register hash generateToken registration newId salt
         acc).2;
      (AuthController.login compare generateToken credentials acc).2;
      (AuthController.updateProfile user profile acc).2;
      (AuthController.updatePassword hash compare user passwords salt acc).2 ].
Proof.
  intros Hlow Hdis.
  assert (Hsame : lowerCaseEmails acc ∧ distinctEmails acc
            ∧ projects (AuthController.acc_db acc)
              = projects (AuthController.acc_db acc)
            ∧ tasks (AuthController.acc_db acc)
              = tasks (AuthController.acc_db acc)
            ∧ comments (AuthController.acc_db acc)
              = comments (AuthController.acc_db acc)) by done.
  repeat apply Forall_cons_2; [..|apply Forall_nil_2].
  - pose proof (register_effect hash generateToken registration newId salt acc)
      as H. cbv zeta in H.
    destruct (replied _) as [session|]; [|by rewrite H].
    destruct H as (e & p & _ & _ & _ & _ & Hfree & Hnew & _ & Hu & ->).
    split_and!; try done.
    + intros k usr Hk. simpl in Hk.
      destruct (decide (k = newId)) as [->|Hne].
      * rewrite lookup_insert_eq in Hk. injection Hk as <-. rewrite Hu. simpl.
        apply toLowerCase_idemp.
      * rewrite lookup_insert_ne in Hk by done. by eapply Hlow.
    + intros k1 k2 u1 u2 H1 H2 He. simpl in H1, H2.
      destruct (decide (k1 = newId)) as [->|Hn1];
        destruct (decide (k2 = newId)) as [->|Hn2]; try done.
      * rewrite lookup_insert_eq in H1. rewrite lookup_insert_ne in H2 by done.
        injection H1 as <-. destruct (Hfree _ _ H2). by rewrite <- He, Hu.
      * rewrite lookup_insert_eq in H2. rewrite lookup_insert_ne in H1 by done.
        injection H2 as <-. destruct (Hfree _ _ H1). by rewrite He, Hu.
      * rewrite lookup_insert_ne in H1, H2 by done. by eapply Hdis.
  - replace (AuthController.login compare generateToken credentials acc).2
      with acc; [done|].
    unfold AuthController.login. by repeat case_match.
  - pose proof (updateProfile_effect user profile acc) as H. cbv zeta in H.
    destruct (replied _) as [session|]; [|by rewrite H].
    destruct H as (u & usr & _ & Husr & Hfree & ->).
    rewrite emailTaken_iff in Hfree.
    split_and!; try done.
    + intros k usr' Hk. simpl in Hk.
      destruct (decide (k = auth_id u)) as [->|Hne].
      * rewrite lookup_insert_eq in Hk. injection Hk as <-. simpl.
        destruct (Validation.prof_email profile); simpl;
          [apply toLowerCase_idemp|by eapply Hlow].
      * rewrite lookup_insert_ne in Hk by done. by eapply Hlow.
    + intros k1 k2 u1 u2 H1 H2 He. simpl in H1, H2.
      destruct (decide (k1 = auth_id u)) as [->|Hn1];
        destruct (decide (k2 = auth_id u)) as [->|Hn2]; try done.
      * rewrite lookup_insert_eq in H1. rewrite lookup_insert_ne in H2 by done.
        injection H1 as <-. destruct Hfree. by exists k2, u2.
      * rewrite lookup_insert_eq in H2. rewrite lookup_insert_ne in H1 by done.
        injection H2 as <-. destruct Hfree. by exists k1, u1.
      * rewrite lookup_insert_ne in H1, H2 by done. by eapply Hdis.
  - pose proof (updatePassword_effect hash compare user passwords salt acc)
      as H. cbv zeta in H.
    destruct (isSuccess _); [|by rewrite H].
    destruct H as (u & c & n & h & _ & _ & _ & _ & _ & _ & ->).
    split_and!; try done.
Qed.

(** X28.  While the stored emails are in lower case, an email that
    differs from a stored one by the case of its letters only is taken:
    a valid registration with it is answered EMAIL_ALREADY_EXISTS, 409,
    and so is a valid change of profile to it by a caller whose own
    email is another; neither writes. *)
Theorem email_taken_up_to_case
    (hash : string → string → string)
    (generateToken : string → string → string)
    (acc : AuthController.Accounts) (k : string) (usr : User)
    (email : string) :
  lowerCaseEmails acc →
  users (AuthController.acc_db acc) !! k = Some usr →
  Js.toLowerCase email = Js.toLowerCase (user_email usr) →
  let conflict :=
    Instead (Failure "Un utilisateur avec cet email existe déjà"
               "EMAIL_ALREADY_EXISTS" 409) in
  (∀ registration newId salt,
     Validation.reg_email registration = Some email →
     Validation.validateRegisterData registration = [] →
     AuthController.register hash generateToken registration newId salt acc
     = (conflict, acc))
  ∧ (∀ u profile,
       Validation.prof_email profile = Some email →
       Validation.validateUpdateProfileData profile = [] →
       Js.toLowerCase (auth_email u) ≠ Js.toLowerCase email →
       AuthController.updateProfile (Some u) profile acc = (conflict, acc)).
Proof.
  intros Hlow Hk He conflict.
  assert (Hfound : is_Some (Prisma.userByEmail (AuthController.acc_db acc)
                              (Js.toLowerCase email))).
  { destruct (Prisma.userByEmail _ _) eqn:Hnone; [by eexists|].
    rewrite userByEmail_None in Hnone. destruct (Hnone _ _ Hk).
    by rewrite He, (Hlow _ _ Hk). }
  destruct Hfound as [found Hfound]. split.
  - intros registration newId salt Hemail Hv.
    destruct (valid_registration _ Hv) as (e & p & He' & _ & Hp & _).
    unfold AuthController.register. rewrite Hv, He', Hp. simpl.
    rewrite Hemail in He'. injection He' as <-. by rewrite Hfound.
  - intros u profile Hemail Hv Hother.
    assert (email ≠ "") as Hne.
    { intros ->. Local Transparent Validation.validateUpdateProfileData.
      unfold Validation.validateUpdateProfileData in Hv. rewrite Hemail in Hv.
      by apply app_eq_nil in Hv as [Hv _]. }
    unfold AuthController.updateProfile. rewrite Hv, Hemail. simpl.
    rewrite Hfound.
    rewrite (bool_decide_eq_false_2 (email = "")) by done.
    rewrite bool_decide_eq_false_2 by done.
    rewrite bool_decide_eq_true_2 by (by eexists). done.
Qed.

Lemma email_taken_up_to_case_witness :
  AuthController.register Plain.hash Plain.generateToken
    {| Validation.reg_email := Some "Bob@Example.com";
       Validation.reg_password := Some "Abricot2024";
       Validation.reg_name := None |} "u5" "sel" Plain.accounts
  = (Instead (Failure "Un utilisateur avec cet email existe déjà"
                "EMAIL_ALREADY_EXISTS" 409), Plain.accounts).
Proof.
  destruct (email_taken_up_to_case Plain.hash Plain.generateToken
              Plain.accounts "u2" (Fixture.userRow Fixture.bob).2
              "Bob@Example.com") as [Hreg _].
  - intros k usr Hk. unfold Plain.accounts in Hk. simpl in Hk.
    repeat (apply lookup_insert_Some in Hk as [[_ <-]|[_ Hk]];
            [reflexivity|]).
    by rewrite lookup_empty in Hk.
  - reflexivity.
  - reflexivity.
  - by apply Hreg.
Defined.

(** ** The invariants on the seed data *)

Section SeedData.

Lemma db0_intact : intact Fixture.db0.
Proof.
  split.
  - intros k t Hk. simpl in Hk.
    apply lookup_singleton_Some in Hk as [_ <-]. by eexists.
  - intros k c Hk. simpl in Hk.
    repeat (apply lookup_insert_Some in Hk as [[_ <-]|[_ Hk]];
            [by eexists|]).
    apply lookup_singleton_Some in Hk as [_ <-]. by eexists.
Qed.

Lemma db0_withinLimits : withinLimits Fixture.db0.
Proof.
  split_and!.
  - intros k p Hk. simpl in Hk.
    apply lookup_singleton_Some in Hk as [_ <-].
    split; [unfold lengthWithin; simpl; lia|by intros d [=]].
  - intros k t Hk. simpl in Hk.
    apply lookup_singleton_Some in Hk as [_ <-].
    split; [unfold lengthWithin; simpl; lia|by intros d [=]].
  - intros k c Hk. simpl in Hk.
    repeat (apply lookup_insert_Some in Hk as [[_ <-]|[_ Hk]];
            [unfold lengthWithin; simpl; lia|]).
    apply lookup_singleton_Some in Hk as [_ <-].
    unfold lengthWithin; simpl; lia.
Qed.

Lemma accounts_lowerCaseEmails : lowerCaseEmails Plain.accounts.
Proof.
  intros k usr Hk. simpl in Hk.
  repeat (apply lookup_insert_Some in Hk as [[_ <-]|[_ Hk]];
          [reflexivity|]).
  by rewrite lookup_empty in Hk.
Qed.

Lemma accounts_distinctEmails : distinctEmails Plain.accounts.
Proof.
  intros k1 k2 u1 u2 H1 H2 He. simpl in H1, H2.
  repeat (apply lookup_insert_Some in H1 as [[<- <-]|[_ H1]];
          [repeat (apply lookup_insert_Some in H2 as [[<- <-]|[_ H2]];
                   [done|]); by rewrite lookup_empty in H2|]).
  by rewrite lookup_empty in H1.
Qed.

End SeedData.

Lemma outsider_is_refused_everywhere_witness :
  outsider Fixture.db0 (Some Fixture.david) "p1"
  ∧ CommentController.deleteComment (Some Fixture.david) "p1" "t1" "c1"
      Fixture.db0
    = (Failure "Accès refusé au projet" "FORBIDDEN" 403, Fixture.db0)
  ∧ TaskController.getTasks Prisma.newestTaskFirst (Some Fixture.david) "p1"
      Fixture.db0
    = (Instead (Failure "Accès refusé au projet" "FORBIDDEN" 403),
       Fixture.db0).
Proof.
  assert (Hout : outsider Fixture.db0 (Some Fixture.david) "p1").
  { intros u [= <-] [Ho|[r Hr]]; by vm_compute in Ho || vm_compute in Hr. }
  split; [exact Hout|].
  pose proof (outsider_is_refused_everywhere Fixture.noDate Fixture.storageUp
                Prisma.newestTaskFirst
                Fixture.db0 (Some Fixture.david) "p1" "t1" "c1" "u2" "t2" 50
                {| Validation.up_name := None;
                   Validation.up_description := None;
                   Validation.up_contributors := None |}
                {| ProjectController.ac_email := None;
                   ProjectController.ac_role := None |}
                {| Validation.ct_title := None;
                   Validation.ct_description := None;
                   Validation.ct_priority := None;
                   Validation.ct_dueDate := None;
                   Validation.ct_assigneeIds := None |}
                (Fixture.assign [])
                {| Validation.cm_content := None |} Hout)
    as [Hall (r & Hlist & _)].
  split.
  - destruct (Forall_lookup_1 _ _ 13 _ Hall eq_refl) as [_ Hdb].
    rewrite <- Hdb at 2.
    by destruct (CommentController.deleteComment _ _ _ _ _) eqn:E;
      vm_compute in E; simplify_eq.
  - rewrite Hlist. f_equal.
    by destruct (TaskController.getTasks _ _ _ _) eqn:E;
      vm_compute in E; simplify_eq.
Defined.

Lemma routes_keep_references_witness :
  intact Fixture.db0
  ∧ intact (TaskController.deleteTask (Some Fixture.caroline) "p1" "t1"
              Fixture.db0).2
  ∧ comments (TaskController.deleteTask (Some Fixture.caroline) "p1" "t1"
                Fixture.db0).2 = ∅.
Proof.
  split; [exact db0_intact|]. split; [|by vm_compute].
  pose proof (routes_keep_references Fixture.noDate Fixture.storageUp
                (Some Fixture.caroline) "p1" "t1" "c1" "u2" "t2" 50
                {| Validation.cp_name := None;
                   Validation.cp_description := None;
                   Validation.cp_contributors := None |}
                {| Validation.up_name := None;
                   Validation.up_description := None;
                   Validation.up_contributors := None |}
                {| ProjectController.ac_email := None;
                   ProjectController.ac_role := None |}
                {| Validation.ct_title := None;
                   Validation.ct_description := None;
                   Validation.ct_priority := None;
                   Validation.ct_dueDate := None;
                   Validation.ct_assigneeIds := None |}
                (Fixture.assign [])
                {| Validation.cm_content := None |}
                Fixture.db0 db0_intact) as Hall.
  exact (Forall_lookup_1 _ _ 7 _ Hall eq_refl).
Defined.

Lemma routes_keep_limits_witness :
  withinLimits Fixture.db0
  ∧ withinLimits
      (ProjectController.updateProject (Some Fixture.bob) "p1"
         {| Validation.up_name := Some "  Verger  ";
            Validation.up_description := Some "   ";
            Validation.up_contributors := None |} Fixture.db0).2
  ∧ (project_name
       <$> projects
             (ProjectController.updateProject (Some Fixture.bob) "p1"
                {| Validation.up_name := Some "  Verger  ";
                   Validation.up_description := Some "   ";
                   Validation.up_contributors := None |} Fixture.db0).2
           !! "p1") = Some "Verger".
Proof.
  split; [exact db0_withinLimits|]. split; [|by vm_compute].
  pose proof (routes_keep_limits Fixture.noDate Fixture.storageUp
                (Some Fixture.bob) "p1" "t1" "c1" "u2" "t2" 50
                {| Validation.cp_name := None;
                   Validation.cp_description := None;
                   Validation.cp_contributors := None |}
                {| Validation.up_name := Some "  Verger  ";
                   Validation.up_description := Some "   ";
                   Validation.up_contributors := None |}
                {| ProjectController.ac_email := None;
                   ProjectController.ac_role := None |}
                {| Validation.ct_title := None;
                   Validation.ct_description := None;
                   Validation.ct_priority := None;
                   Validation.ct_dueDate := None;
                   Validation.ct_assigneeIds := None |}
                (Fixture.assign [])
                {| Validation.cm_content := None |}
                Fixture.db0 db0_withinLimits) as Hall.
  exact (Forall_lookup_1 _ _ 1 _ Hall eq_refl).
Defined.

Lemma account_routes_keep_emails_witness :
  lowerCaseEmails Plain.accounts
  ∧ distinctEmails Plain.accounts
  ∧ lowerCaseEmails
      (AuthController.updateProfile (Some Fixture.bob)
         {| Validation.prof_name := None;
            Validation.prof_email := Some "Robert@Example.com" |}
         Plain.accounts).2
  ∧ (user_email
       <$> users
             (AuthController.acc_db
                (AuthController.updateProfile (Some Fixture.bob)
                   {| Validation.prof_name := None;
                      Validation.prof_email := Some "Robert@Example.com" |}
                   Plain.accounts).2) !! "u2") = Some "robert@example.com".
Proof.
  split; [exact accounts_lowerCaseEmails|].
  split; [exact accounts_distinctEmails|]. split; [|by vm_compute].
  pose proof (account_routes_keep_emails Plain.hash Plain.compare
                Plain.generateToken (Some Fixture.bob)
                {| Validation.reg_email := None;
                   Validation.reg_password := None;
                   Validation.reg_name := None |}
                {| Validation.login_email := None;
                   Validation.login_password := None |}
                {| Validation.prof_name := None;
                   Validation.prof_email := Some "Robert@Example.com" |}
                {| Validation.currentPassword := None;
                   Validation.newPassword := None |}
                "u5" "sel" Plain.accounts accounts_lowerCaseEmails
                accounts_distinctEmails) as Hall.
  exact (proj1 (Forall_lookup_1 _ _ 2 _ Hall eq_refl)).
Defined.
